(** * MCP-Endpoint: the mediation layer between the model's tool-calling
      protocol and the DynamoDB tool server

    A shallow embedding of
      - the Bedrock/MCP client (class [EnhancedMCPClient]: [sanitizeToolName],
        [optimizeQuery], [processQuery], and the HTTP handler of
        [startEndpoint]),
      - the committed JavaScript build of an earlier revision of that client
        (its [processQuery], which keeps the conversation history),
      - the DynamoDB tool server ([queryTable], [scanTable] and their helpers),
      - the Express front end (endpoint.js, [POST /query]),
    followed by the properties of the specification that concern them.

    Conventions.  A JavaScript value of type [any] is a [value]; an object
    is a [VObj] with its own properties in the order of their creation.
    Strings are byte strings holding the UTF-8 form of the text.  A network
    call is an event of a program tree ([Prog]): the environment answers every
    event, and a property that holds "whatever the model or the backend
    answers" quantifies over the handler that interprets the events.
    Console output is not modelled. *)

From Stdlib Require Import ZArith Lia Bool Ascii String List.
From stdpp Require Import base option list gmap strings pretty.

Set Warnings "-register-all".

Open Scope string_scope.
Open Scope Z_scope.

(* ===================================================================== *)
(** * JavaScript values                                                   *)
(* ===================================================================== *)

Module Js.

(** A number is kept as the decimal that denotes it, [± mant × 10^exp10],
    and stands for the double nearest to that decimal; the two remaining
    doubles that a conversion may produce are separate.  Two decimals that
    round to the same double are two terms here: equality of terms is finer
    than [===]. *)
Inductive number : Type :=
| NaN
| Infinity (neg : bool)
| Decimal (neg : bool) (mant : N) (exp10 : Z).

Inductive value : Type :=
| VUndefined
| VNull
| VBool (b : bool)
| VNum (n : number)
| VStr (s : string)
| VArr (elems : list value)
| VObj (props : list (string * value)).

(** What a [throw] carries: an [Error] object with its [name] and [message]. *)
Record Error : Type := mkError { error_name : string; error_message : string }.

(** [Error.prototype.toString]. *)
Definition Error_toString (e : Error) : string :=
  if (error_name e =? "")%string then error_message e
  else if (error_message e =? "")%string then error_name e
  else error_name e +:+ ": " +:+ error_message e.

Definition TypeError (msg : string) : Error := mkError "TypeError" msg.

(** A computation that may throw. *)
Definition result (A : Type) : Type := Error + A.

Definition ok {A} (a : A) : result A := inr a.
Definition throw {A} (e : Error) : result A := inl e.

Definition rbind {A B} (r : result A) (f : A -> result B) : result B :=
  match r with
  | inl e => inl e
  | inr a => f a
  end.

Notation "'let?' x ':=' r 'in' k" := (rbind r (fun x => k))
  (at level 10, x pattern, r at level 100, k at level 200).

(** The double nearest to [Decimal _ mant exp10] is (plus or minus) zero
    exactly when the decimal is at most half the least subnormal, 2^-1075. *)
Definition rounds_to_zero (mant : N) (exp10 : Z) : bool :=
  if 0 <=? exp10 then (mant =? 0)%N
  else Z.of_N mant * 2 ^ 1075 <=? 10 ^ (- exp10).

(** ToBoolean. *)
Definition truthy (v : value) : bool :=
  match v with
  | VUndefined | VNull => false
  | VBool b => b
  | VNum NaN => false
  | VNum (Infinity _) => true
  | VNum (Decimal _ m e) => negb (rounds_to_zero m e)
  | VStr s => negb (s =? "")%string
  | VArr _ | VObj _ => true
  end.

(** [a || b]. *)
Definition or_else (a b : value) : value := if truthy a then a else b.

Definition is_string (v : value) : bool :=
  match v with VStr _ => true | _ => false end.

(** Own property lookup in the property list of an object. *)
Fixpoint assoc (k : string) (props : list (string * value)) : option value :=
  match props with
  | [] => None
  | (k', v) :: rest => if (k =? k')%string then Some v else assoc k rest
  end.

(** [o[k] = v]: an existing property keeps its place, a new one goes last. *)
Fixpoint obj_set (props : list (string * value)) (k : string) (v : value)
  : list (string * value) :=
  match props with
  | [] => [(k, v)]
  | (k', v') :: rest =>
      if (k =? k')%string then (k, v) :: rest else (k', v') :: obj_set rest k v
  end.

(** [o[k] = v] on an object that was written [{}] and has been filled in
    this way only: under [__proto__] the assignment reaches the setter the
    object inherits, which adds no property of the object's own (given an
    object or [null] it replaces the prototype, which a [value] does not
    show; given anything else it does nothing). *)
Definition assign (props : list (string * value)) (k : string) (v : value)
  : list (string * value) :=
  if (k =? "__proto__")%string then props else obj_set props k v.

(** The decimal index a property key denotes, when it is one. *)
Definition index_of_key (k : string) (len : nat) : option nat :=
  find (fun i => (pretty i =? k)%string) (seq 0 len).

Definition char_at (s : string) (i : nat) : value :=
  match String.get i s with
  | Some c => VStr (String c EmptyString)
  | None => VUndefined
  end.

(** The [TypeError] of a property read on [undefined] or [null]. *)
Definition cannotRead (receiver k : string) : Error :=
  TypeError ("Cannot read properties of " +:+ receiver +:+ " (reading '" +:+ k +:+ "')").

(** [v.k] / [v[k]] for own data properties, which is what the code reads:
    it throws on [undefined] and [null], and a missing property reads as
    [undefined]. *)
Definition getProp (v : value) (k : string) : result value :=
  match v with
  | VUndefined => throw (cannotRead "undefined" k)
  | VNull => throw (cannotRead "null" k)
  | VObj props => ok (default VUndefined (assoc k props))
  | VArr elems =>
      match index_of_key k (length elems) with
      | Some i => ok (default VUndefined (elems !! i))
      | None => ok VUndefined
      end
  | VStr s =>
      match index_of_key k (String.length s) with
      | Some i => ok (char_at s i)
      | None => ok VUndefined
      end
  | VBool _ | VNum _ => ok VUndefined
  end.

(** [v?.k]. *)
Definition getPropOpt (v : value) (k : string) : value :=
  match getProp v k with
  | inr x => x
  | inl _ => VUndefined
  end.

(** The value of a decimal numeral. *)
Fixpoint numeral (s : string) (acc : N) : option N :=
  match s with
  | EmptyString => Some acc
  | String c rest =>
      let n := N_of_ascii c in
      if ((48 <=? n) && (n <=? 57))%N then numeral rest (acc * 10 + (n - 48))%N
      else None
  end.

(** The array index that a property key denotes: a decimal numeral without
    a leading zero, below 2^32 - 1. *)
Definition array_index (k : string) : option N :=
  match k with
  | EmptyString => None
  | String c rest =>
      if Ascii.eqb c "0" && negb (rest =? "")%string then None
      else
        match numeral k 0 with
        | Some n => if (n <? 4294967295)%N then Some n else None
        | None => None
        end
  end.

Fixpoint insert_index (i : N) (k : string) (sorted : list (N * string))
  : list (N * string) :=
  match sorted with
  | [] => [(i, k)]
  | (j, k') :: rest =>
      if (i <? j)%N then (i, k) :: sorted else (j, k') :: insert_index i k rest
  end.

(** The own keys of an object in the order of enumeration: the array
    indices in ascending order, then the other keys in the order in which
    they were created, which is the order of the property list. *)
Definition own_keys (props : list (string * value)) : list string :=
  let keys := map fst props in
  (map snd
     (List.fold_right (fun k sorted =>
                    match array_index k with
                    | Some i => insert_index i k sorted
                    | None => sorted
                    end) [] keys)
   ++ List.filter (fun k => match array_index k with Some _ => false | None => true end)
        keys)%list.

(** [Object.keys(v)]. *)
Definition Object_keys (v : value) : result (list string) :=
  match v with
  | VUndefined | VNull => throw (TypeError "Cannot convert undefined or null to object")
  | VObj props => ok (own_keys props)
  | VArr elems => ok (map pretty (seq 0 (length elems)))
  | VStr s => ok (map pretty (seq 0 (String.length s)))
  | VBool _ | VNum _ => ok []
  end.

(** [s.includes(sub)] on strings. *)
Fixpoint includes (s sub : string) : bool :=
  if String.prefix sub s then true
  else match s with
       | EmptyString => false
       | String _ s' => includes s' sub
       end.

(** [keyCondition.includes(sub)] for a string [sub]: the string method, the
    array method, or the [TypeError] of a receiver that has no such method. *)
Definition value_includes (v : value) (sub : string) : result bool :=
  match v with
  | VStr s => ok (includes s sub)
  | VArr elems =>
      ok (existsb (fun x => match x with VStr s => (s =? sub)%string | _ => false end) elems)
  | _ => throw (TypeError "keyCondition.includes is not a function")
  end.

(** Built-ins whose results are used but never inspected. *)
Class Builtins : Type := {
  (** [JSON.stringify(v, null, 2)] *)
  JSON_stringify : value -> string;
  (** [Number(v)] *)
  Number_ : value -> value;
  (** [String(n)] for a number [n] *)
  Number_toString : number -> string
}.

(** [`${v}`]. *)
Fixpoint ToString `{Builtins} (v : value) : string :=
  match v with
  | VUndefined => "undefined"
  | VNull => "null"
  | VBool true => "true"
  | VBool false => "false"
  | VNum n => Number_toString n
  | VStr s => s
  | VArr elems =>
      String.concat ","
        (map (fun x => match x with
                       | VUndefined | VNull => EmptyString
                       | _ => ToString x
                       end) elems)
  | VObj _ => "[object Object]"
  end.

(** [error.message || error] inside a template. *)
Definition messageOrError (error : Error) : string :=
  if (error_message error =? "")%string then Error_toString error
  else error_message error.

(** [try { ... await ... } catch]: a loop over a list that may throw. *)
Fixpoint rfold {A B} (f : B -> A -> result B) (l : list A) (b : B) : result B :=
  match l with
  | [] => ok b
  | a :: rest => let? b' := f b a in rfold f rest b'
  end.

Fixpoint rmap {A B} (f : A -> result B) (l : list A) : result (list B) :=
  match l with
  | [] => ok []
  | a :: rest => let? b := f a in let? bs := rmap f rest in ok (b :: bs)
  end.

Definition is_undefined (v : value) : bool :=
  match v with VUndefined => true | _ => false end.

(** [typeof v === "object"]. *)
Definition is_object_type (v : value) : bool :=
  match v with VObj _ | VArr _ | VNull => true | _ => false end.

(** [o.k = v] on an object. *)
Definition setProp (o : value) (k : string) (v : value) : value :=
  match o with
  | VObj props => VObj (obj_set props k v)
  | _ => o
  end.

Definition dquote : string := String (ascii_of_nat 34) EmptyString.

Definition newline : string := String (ascii_of_nat 10) EmptyString.

(** [l.join("\n")]. *)
Definition join_lines (l : list string) : string := String.concat newline l.

End Js.

(* ===================================================================== *)
(** * [JSON.parse]                                                        *)
(* ===================================================================== *)

(** The built-in parser, as a scanner feeding a stack machine; both walk
    their input once, so the parse is total and [None] is a [SyntaxError].
    The properties of an object are kept in their order of appearance,
    which is their order of creation ([own_keys] gives the order of
    enumeration); a number is kept as the literal wrote it. *)
Module Json.
Import Js.

Inductive token : Type :=
| TLBrace | TRBrace | TLBracket | TRBracket | TColon | TComma
| TStr (s : string)
| TScalar (v : value).

Definition code (c : ascii) : N := N_of_ascii c.
Definition chr (n : N) : string := String (ascii_of_N n) EmptyString.

Definition is_ws (c : ascii) : bool :=
  let n := code c in ((n =? 32) || (n =? 9) || (n =? 10) || (n =? 13))%N.

Definition digit_val (c : ascii) : option N :=
  let n := code c in
  if ((48 <=? n) && (n <=? 57))%N then Some (n - 48)%N else None.

Definition is_digit (c : ascii) : bool :=
  match digit_val c with Some _ => true | None => false end.

Definition hex_val (c : ascii) : option N :=
  let n := code c in
  if ((48 <=? n) && (n <=? 57))%N then Some (n - 48)%N
  else if ((97 <=? n) && (n <=? 102))%N then Some (n - 87)%N
  else if ((65 <=? n) && (n <=? 70))%N then Some (n - 55)%N
  else None.

Definition is_lower (c : ascii) : bool :=
  let n := code c in ((97 <=? n) && (n <=? 122))%N.

(** UTF-8 form of a code point. *)
Definition utf8 (cp : N) : string :=
  (if cp <? 128 then chr cp
   else if cp <? 2048 then chr (192 + cp / 64) +:+ chr (128 + cp mod 64)
   else if cp <? 65536 then
     chr (224 + cp / 4096) +:+ chr (128 + (cp / 64) mod 64) +:+ chr (128 + cp mod 64)
   else
     chr (240 + cp / 262144) +:+ chr (128 + (cp / 4096) mod 64)
       +:+ chr (128 + (cp / 64) mod 64) +:+ chr (128 + cp mod 64))%N.

Definition is_high_surrogate (cu : N) : bool := ((55296 <=? cu) && (cu <=? 56319))%N.
Definition is_low_surrogate (cu : N) : bool := ((56320 <=? cu) && (cu <=? 57343))%N.

(** A pending high surrogate that found no partner stays in the text. *)
Definition flush (acc : string) (hi : option N) : string :=
  match hi with
  | Some h => acc +:+ utf8 h
  | None => acc
  end.

(** The end of a [\uXXXX] escape with code unit [cu]. *)
Definition add_unit (acc : string) (hi : option N) (cu : N) : string * option N :=
  match hi with
  | Some h =>
      if is_low_surrogate cu
      then (acc +:+ utf8 (65536 + (h - 55296) * 1024 + (cu - 56320))%N, None)
      else if is_high_surrogate cu then (acc +:+ utf8 h, Some cu)
      else (acc +:+ utf8 h +:+ utf8 cu, None)
  | None =>
      if is_high_surrogate cu then (acc, Some cu) else (acc +:+ utf8 cu, None)
  end.

(** The character an escape letter stands for. *)
Definition escape_char (c : ascii) : option N :=
  let n := code c in
  (if n =? 34 then Some 34          (* quote *)
   else if n =? 92 then Some 92     (* backslash *)
   else if n =? 47 then Some 47     (* slash *)
   else if n =? 98 then Some 8      (* b *)
   else if n =? 102 then Some 12    (* f *)
   else if n =? 110 then Some 10    (* n *)
   else if n =? 114 then Some 13    (* r *)
   else if n =? 116 then Some 9     (* t *)
   else None)%N.

Fixpoint span_digits (s : string) : list N * string :=
  match s with
  | EmptyString => ([], EmptyString)
  | String c s' =>
      match digit_val c with
      | Some d => let '(ds, rest) := span_digits s' in (d :: ds, rest)
      | None => ([], s)
      end
  end.

Definition digits_to_N (ds : list N) : N :=
  fold_left (fun acc d => acc * 10 + d)%N ds 0%N.

Definition is_nil {A} (l : list A) : bool :=
  match l with [] => true | _ => false end.

(** The exponent part: nothing, or [e]/[E], an optional sign and digits. *)
Definition parse_exponent (s : string) : option Z :=
  match s with
  | EmptyString => Some 0
  | String c s1 =>
      if ((code c =? 101) || (code c =? 69))%N then
        let '(sign, s2) :=
          match s1 with
          | String c' r =>
              if (code c' =? 45)%N then (-1, r)
              else if (code c' =? 43)%N then (1, r) else (1, s1)
          | EmptyString => (1, s1)
          end in
        let '(ds, rest) := span_digits s2 in
        if is_nil ds then None
        else match rest with
             | EmptyString => Some (sign * Z.of_N (digits_to_N ds))
             | _ => None
             end
      else None
  end.

(** A number token: an optional minus, an integer part with no leading zero,
    an optional fraction, an optional exponent. *)
Definition parse_number (s : string) : option number :=
  let '(neg, s1) :=
    match s with
    | String c r => if (code c =? 45)%N then (true, r) else (false, s)
    | EmptyString => (false, s)
    end in
  let '(ds, s2) := span_digits s1 in
  match ds with
  | [] => None
  | d :: ds' =>
      if (d =? 0)%N && negb (is_nil ds') then None
      else
        let frac :=
          match s2 with
          | String c r =>
              if (code c =? 46)%N then
                let '(fs, r') := span_digits r in
                if is_nil fs then None else Some (fs, r')
              else Some ([], s2)
          | EmptyString => Some ([], s2)
          end in
        match frac with
        | None => None
        | Some (fs, s3) =>
            match parse_exponent s3 with
            | None => None
            | Some e =>
                Some (Decimal neg (digits_to_N (ds ++ fs)) (e - Z.of_nat (length fs)))
            end
        end
  end.

Definition parse_literal (s : string) : option value :=
  if (s =? "true")%string then Some (VBool true)
  else if (s =? "false")%string then Some (VBool false)
  else if (s =? "null")%string then Some VNull
  else None.

Inductive lstate : Type :=
| LTop
| LStr (acc : string) (hi : option N)
| LEsc (acc : string) (hi : option N)
| LUni (more : nat) (cu : N) (acc : string) (hi : option N)
| LNum (acc : string)
| LLit (acc : string).

(** A character met between tokens. *)
Definition top_char (c : ascii) : option (lstate * list token) :=
  let n := code c in
  if is_ws c then Some (LTop, [])
  else if (n =? 123)%N then Some (LTop, [TLBrace])
  else if (n =? 125)%N then Some (LTop, [TRBrace])
  else if (n =? 91)%N then Some (LTop, [TLBracket])
  else if (n =? 93)%N then Some (LTop, [TRBracket])
  else if (n =? 58)%N then Some (LTop, [TColon])
  else if (n =? 44)%N then Some (LTop, [TComma])
  else if (n =? 34)%N then Some (LStr EmptyString None, [])
  else if (n =? 45)%N || is_digit c then Some (LNum (String c EmptyString), [])
  else if is_lower c then Some (LLit (String c EmptyString), [])
  else None.

Definition is_num_char (c : ascii) : bool :=
  let n := code c in
  (is_digit c || (n =? 46) || (n =? 101) || (n =? 69) || (n =? 43) || (n =? 45))%N.

Definition snoc (s : string) (c : ascii) : string := s +:+ String c EmptyString.

Fixpoint lex (st : lstate) (s : string) : option (list token) :=
  match s with
  | EmptyString =>
      match st with
      | LTop => Some []
      | LNum acc => n ← parse_number acc; Some [TScalar (VNum n)]
      | LLit acc => v ← parse_literal acc; Some [TScalar v]
      | _ => None
      end
  | String c s' =>
      match st with
      | LTop =>
          '(st', out) ← top_char c; rest ← lex st' s'; Some (out ++ rest)%list
      | LNum acc =>
          if is_num_char c then lex (LNum (snoc acc c)) s'
          else
            n ← parse_number acc;
            '(st', out) ← top_char c;
            rest ← lex st' s';
            Some (TScalar (VNum n) :: out ++ rest)%list
      | LLit acc =>
          if is_lower c then lex (LLit (snoc acc c)) s'
          else
            v ← parse_literal acc;
            '(st', out) ← top_char c;
            rest ← lex st' s';
            Some (TScalar v :: out ++ rest)%list
      | LStr acc hi =>
          if (code c =? 34)%N then rest ← lex LTop s'; Some (TStr (flush acc hi) :: rest)
          else if (code c =? 92)%N then lex (LEsc acc hi) s'
          else if (code c <? 32)%N then None
          else lex (LStr (snoc (flush acc hi) c) None) s'
      | LEsc acc hi =>
          if (code c =? 117)%N then lex (LUni 4 0%N acc hi) s'
          else
            e ← escape_char c;
            lex (LStr (flush acc hi +:+ chr e) None) s'
      | LUni more cu acc hi =>
          h ← hex_val c;
          let cu' := (cu * 16 + h)%N in
          match more with
          | S (S k) => lex (LUni (S k) cu' acc hi) s'
          | _ => let '(acc', hi') := add_unit acc hi cu' in lex (LStr acc' hi') s'
          end
      end
  end.

(** The containers a value under construction sits in. *)
Inductive frame : Type :=
| FArr (acc : list value)
| FObj (acc : list (string * value)) (key : string).

Inductive pstate : Type :=
| SValue (stk : list frame)
| SArrOpen (stk : list frame)
| SObjOpen (stk : list frame)
| SObjKey (acc : list (string * value)) (stk : list frame)
| SObjColon (acc : list (string * value)) (key : string) (stk : list frame)
| SArrNext (acc : list value) (stk : list frame)
| SObjNext (acc : list (string * value)) (stk : list frame)
| SDone (v : value).

(** A finished value goes to the container that waits for it. *)
Definition reduce (v : value) (stk : list frame) : pstate :=
  match stk with
  | [] => SDone v
  | FArr acc :: stk' => SArrNext (acc ++ [v]) stk'
  | FObj acc key :: stk' => SObjNext (obj_set acc key v) stk'
  end.

Definition start_value (stk : list frame) (t : token) : option pstate :=
  match t with
  | TScalar v => Some (reduce v stk)
  | TStr s => Some (reduce (VStr s) stk)
  | TLBracket => Some (SArrOpen stk)
  | TLBrace => Some (SObjOpen stk)
  | _ => None
  end.

Definition step (st : pstate) (t : token) : option pstate :=
  match st, t with
  | SValue stk, _ => start_value stk t
  | SArrOpen stk, TRBracket => Some (reduce (VArr []) stk)
  | SArrOpen stk, _ => start_value (FArr [] :: stk) t
  | SObjOpen stk, TRBrace => Some (reduce (VObj []) stk)
  | SObjOpen stk, TStr k => Some (SObjColon [] k stk)
  | SObjKey acc stk, TStr k => Some (SObjColon acc k stk)
  | SObjColon acc k stk, TColon => Some (SValue (FObj acc k :: stk))
  | SArrNext acc stk, TComma => Some (SValue (FArr acc :: stk))
  | SArrNext acc stk, TRBracket => Some (reduce (VArr acc) stk)
  | SObjNext acc stk, TComma => Some (SObjKey acc stk)
  | SObjNext acc stk, TRBrace => Some (reduce (VObj acc) stk)
  | _, _ => None
  end.

Fixpoint parse_tokens (st : pstate) (ts : list token) : option value :=
  match ts with
  | [] => match st with SDone v => Some v | _ => None end
  | t :: ts' => st' ← step st t; parse_tokens st' ts'
  end.

(** [JSON.parse(text)]; [None] stands for the [SyntaxError] it throws. *)
Definition JSON_parse (text : string) : option value :=
  ts ← lex LTop text; parse_tokens (SValue []) ts.

End Json.

(* ===================================================================== *)
(** * Programs that call the outside world                                *)
(* ===================================================================== *)

Module Effects.

(** A program either returns or issues a request [e] of the signature [E]
    and goes on with the answer.  An [await] is a [Vis]. *)
Inductive Prog (E : Type -> Type) (A : Type) : Type :=
| Ret (a : A)
| Vis (X : Type) (e : E X) (k : X -> Prog E A).

Arguments Ret {E A} a.
Arguments Vis {E A X} e k.

Fixpoint bind {E A B} (p : Prog E A) (f : A -> Prog E B) : Prog E B :=
  match p with
  | Ret a => f a
  | Vis e k => Vis e (fun x => bind (k x) f)
  end.

Definition fmap_prog {E A B} (f : A -> B) (p : Prog E A) : Prog E B :=
  bind p (fun a => Ret (f a)).

(** The environment: it answers each request and may change its own state. *)
Definition handler (E : Type -> Type) (W : Type) : Type :=
  forall X, E X -> W -> X * W.

(** One request with the answer it got. *)
Record event (E : Type -> Type) : Type :=
  Event { ev_type : Type; ev_request : E ev_type; ev_answer : ev_type }.

Arguments Event {E ev_type} ev_request ev_answer.
Arguments ev_type {E} e.
Arguments ev_request {E} e.
Arguments ev_answer {E} e.

(** Run a program against an environment: the result, the environment's
    final state and the requests made, in order. *)
Fixpoint run {E W A} (h : handler E W) (p : Prog E A) (w : W)
  : A * W * list (event E) :=
  match p with
  | Ret a => (a, w, [])
  | Vis e k =>
      let '(x, w1) := h _ e w in
      let '(a, w2, t) := run h (k x) w1 in
      (a, w2, Event e x :: t)
  end.

Definition outcome {E W A} (h : handler E W) (p : Prog E A) (w : W) : A :=
  fst (fst (run h p w)).

Definition trace {E W A} (h : handler E W) (p : Prog E A) (w : W) : list (event E) :=
  snd (run h p w).

End Effects.

(* ===================================================================== *)
(** * The client: class [EnhancedMCPClient]                               *)
(* ===================================================================== *)

Module Client.
Import Js Json Effects.

Record Tool : Type := {
  name : string;
  description : string;
  input_schema : value
}.

Inductive Role : Type := user | assistant.

(** The members of a message's [content], by their [type]. *)
Inductive ContentBlock : Type :=
| Text (text : string)
| ToolUse (id : string) (name : string) (input : value)
| ToolResult (tool_use_id : string) (content : string)
| OtherBlock (type : string).

Record ConversationMessage : Type := {
  role : Role;
  content : list ContentBlock
}.

(** The body of a model invocation. *)
Record Payload : Type := {
  anthropic_version : string;
  max_tokens : Z;
  top_k : Z;
  stop_sequences : list string;
  temperature : number;
  top_p : number;
  messages : list ConversationMessage;
  payload_tools : option (list Tool)
}.

(** The parameters of an [InvokeModelCommand]; [body] is kept unserialised. *)
Record InvokeModelCommand : Type := {
  modelId : string;
  contentType : string;
  accept : string;
  body : Payload;
  inferenceProfileArn : option string
}.

(** What [mcp.callTool] is given as [name]: a text, or the member of
    [Object.prototype] that a look-up in the name mapping has reached. *)
Inductive ToolName : Type :=
| Named (text : string)
| Inherited (member : string).

(** The two awaited calls: [bedrockClient.send], answered by the decoded
    response body's [content] or a rejection, and [mcp.callTool], answered
    by the result's [content] or a rejection. *)
Inductive ClientE : Type -> Type :=
| BedrockSend (command : InvokeModelCommand) : ClientE (result (list ContentBlock))
| McpCallTool (name : ToolName) (arguments : value) : ClientE (result value).

Record EnhancedMCPClient : Type := {
  tools : list Tool;
  client_modelId : string;
  inferenceProfileId : option string;
  conversationHistory : list ConversationMessage;
  sanitizedToOriginalToolName : gmap string string
}.

Definition set_conversationHistory (c : EnhancedMCPClient)
  (h : list ConversationMessage) : EnhancedMCPClient :=
  {| tools := tools c;
     client_modelId := client_modelId c;
     inferenceProfileId := inferenceProfileId c;
     conversationHistory := h;
     sanitizedToOriginalToolName := sanitizedToOriginalToolName c |}.

(** The class [[a-zA-Z0-9_-]]. *)
Definition is_safe_char (c : ascii) : bool :=
  let n := N_of_ascii c in
  (((97 <=? n) && (n <=? 122)) || ((65 <=? n) && (n <=? 90))
   || ((48 <=? n) && (n <=? 57)) || (n =? 95) || (n =? 45))%N.

(** [name.replace(/[^a-zA-Z0-9_-]/g, '_')].  The replacement goes by UTF-16
    unit and a text is held here as its UTF-8 bytes: a byte below 128 is a
    unit of its own; the first byte of a longer sequence stands for the one
    unit of a sequence of two or three bytes and for the two units (a
    surrogate pair) of a sequence of four; the bytes that continue a
    sequence, 128 to 191, stand for no further unit. *)
Fixpoint sanitizeToolName (name : string) : string :=
  match name with
  | EmptyString => EmptyString
  | String c rest =>
      let n := N_of_ascii c in
      if (n <? 128)%N then
        String (if is_safe_char c then c else "_"%char) (sanitizeToolName rest)
      else if (n <? 192)%N then sanitizeToolName rest
      else if (n <? 240)%N then String "_"%char (sanitizeToolName rest)
      else String "_"%char (String "_"%char (sanitizeToolName rest))
  end.

(** The property names every plain object inherits from [Object.prototype];
    each of them reads as a function, [__proto__] as the prototype itself,
    so all of them are truthy. *)
Definition prototypeMembers : list string :=
  ["constructor"; "__defineGetter__"; "__defineSetter__"; "hasOwnProperty";
   "__lookupGetter__"; "__lookupSetter__"; "isPrototypeOf";
   "propertyIsEnumerable"; "toString"; "valueOf"; "__proto__";
   "toLocaleString"].

Definition isPrototypeMember (key : string) : bool :=
  existsb (String.eqb key) prototypeMembers.

(** [mapping[key] = original] on the plain object the mapping is, kept as
    the finite map of its own properties: an assignment under [__proto__]
    reaches the inherited setter, which ignores a string and adds no
    property. *)
Definition register (mapping : gmap string string) (key original : string)
  : gmap string string :=
  if (key =? "__proto__")%string then mapping else <[key := original]> mapping.

(** The mapping [connectToServer] builds from the fetched catalog. *)
Definition buildNameMapping (ts : list Tool) : gmap string string :=
  fold_left (fun m tool => register m (sanitizeToolName (name tool)) (name tool)) ts ∅.

(** [keyCondition.includes("Age") && !keyCondition.includes("Name")
     && !keyCondition.includes("#name")], evaluated left to right. *)
Definition missesPartitionKey (keyCondition : value) : result bool :=
  let? hasAge := value_includes keyCondition "Age" in
  if hasAge then
    let? hasName := value_includes keyCondition "Name" in
    if hasName then ok false
    else
      let? hasAlias := value_includes keyCondition "#name" in
      ok (negb hasAlias)
  else ok false.

Definition optimizeQuery (toolName : string) (toolArgs : value)
  : result (string * value) :=
  if (toolName =? "dynamodb:query_table")%string then
    let? keyConditionExpression := getProp toolArgs "keyConditionExpression" in
    let keyCondition := or_else keyConditionExpression (VStr EmptyString) in
    let? rewrite := missesPartitionKey keyCondition in
    if rewrite then
      let? tableName := getProp toolArgs "tableName" in
      let? expressionAttributeNames := getProp toolArgs "expressionAttributeNames" in
      let? expressionAttributeValues := getProp toolArgs "expressionAttributeValues" in
      let? limit := getProp toolArgs "limit" in
      ok ("dynamodb:scan_table",
          VObj [("tableName", tableName);
                ("filterExpression", keyConditionExpression);
                ("expressionAttributeNames", expressionAttributeNames);
                ("expressionAttributeValues", expressionAttributeValues);
                ("limit", limit)])
    else ok (toolName, toolArgs)
  else ok (toolName, toolArgs).

(** [this.sanitizedToOriginalToolName[sanitizedToolName] || optimized.name]:
    the look-up reads an own property of the mapping, else the member of
    [Object.prototype] of that name, else [undefined]; an inherited member
    is truthy, so [||] keeps it. *)
Definition resolveToolName (mapping : gmap string string) (optimizedName : string)
  : ToolName :=
  let sanitizedToolName := sanitizeToolName optimizedName in
  match mapping !! sanitizedToolName with
  | Some original =>
      if (original =? "")%string then Named optimizedName else Named original
  | None =>
      if isPrototypeMember sanitizedToolName then Inherited sanitizedToolName
      else Named optimizedName
  end.

(** The text the result carries, where it has one of the two shapes. *)
Definition resultPayloadText (resultContent : value) : option string :=
  match resultContent with
  | VStr s => Some s
  | VArr (first :: _) =>
      match getPropOpt first "text" with
      | VStr s => Some s
      | _ => None
      end
  | _ => None
  end.

(** [parsedResult] after the [try]: [null] unless a parse succeeded. *)
Definition parseToolResult (resultContent : value) : value :=
  match resultPayloadText resultContent with
  | Some s => default VNull (JSON_parse s)
  | None => VNull
  end.

Section WithBuiltins.
Context `{Builtins}.

(** [resultText] after [if (parsedResult) resultText = JSON.stringify(...)]. *)
Definition resultTextOf (parsedResult : value) : string :=
  if truthy parsedResult then JSON_stringify parsedResult else EmptyString.

End WithBuiltins.

Definition toolsForModel (c : EnhancedMCPClient) : list Tool :=
  map (fun tool => {| name := sanitizeToolName (name tool);
                      description := description tool;
                      input_schema := input_schema tool |}) (tools c).

Definition makePayload (maxTokens : Z) (msgs : list ConversationMessage)
  (ts : option (list Tool)) : Payload :=
  {| anthropic_version := "bedrock-2023-05-31";
     max_tokens := maxTokens;
     top_k := 250;
     stop_sequences := [];
     temperature := Decimal false 1 (-1);
     top_p := Decimal false 999 (-3);
     messages := msgs;
     payload_tools := ts |}.

Definition makeCommand (c : EnhancedMCPClient) (p : Payload) : InvokeModelCommand :=
  {| modelId := client_modelId c;
     contentType := "application/json";
     accept := "application/json";
     body := p;
     inferenceProfileArn :=
       match inferenceProfileId c with
       | Some p => if (p =? "")%string then None else Some p
       | None => None
       end |}.

Definition cross_mark : string := "❌".

(** [`❌ Tool ${sanitizedToolName} failed: ${err}`]. *)
Definition toolFailureMessage (sanitizedToolName : string) (err : Error) : string :=
  cross_mark +:+ " Tool " +:+ sanitizedToolName +:+ " failed: " +:+ Error_toString err.

(** [`Error: ${error.message || error}`]. *)
Definition invocationFailureMessage (error : Error) : string :=
  "Error: " +:+ messageOrError error.

Definition textsOf (blocks : list ContentBlock) : list string :=
  omap (fun b => match b with Text t => Some t | _ => None end) blocks.

Section Turn.
Context `{Builtins}.

(** The loop over [responseBody.content] of the stateless branch.  The
    result is what the enclosing [try] sees: the returned text, or a thrown
    error.  [finalText] is the accumulator. *)
Fixpoint statelessLoop (c : EnhancedMCPClient) (userMessage : ConversationMessage)
  (blocks : list ContentBlock) (finalText : list string)
  : Prog ClientE (result string) :=
  match blocks with
  | [] => Ret (ok (join_lines finalText))
  | Text text :: rest => statelessLoop c userMessage rest (finalText ++ [text])%list
  | ToolUse id toolName input :: rest =>
      match optimizeQuery toolName input with
      | inl e => Ret (throw e)
      | inr (optimizedName, optimizedArgs) =>
          let sanitizedToolName := sanitizeToolName optimizedName in
          let mcpToolName :=
            resolveToolName (sanitizedToOriginalToolName c) optimizedName in
          Vis (McpCallTool mcpToolName optimizedArgs) (fun called =>
            match called with
            | inl err => Ret (ok (toolFailureMessage sanitizedToolName err))
            | inr resultContent =>
                let resultText := resultTextOf (parseToolResult resultContent) in
                let followUpMessages :=
                  [ userMessage;
                    {| role := assistant; content := [ToolUse id toolName input] |};
                    {| role := user; content := [ToolResult id resultText] |} ] in
                let followUpPayload :=
                  makePayload 1000 followUpMessages (Some (toolsForModel c)) in
                Vis (BedrockSend (makeCommand c followUpPayload)) (fun sent =>
                  match sent with
                  | inl e => Ret (throw e)
                  | inr followUpContent =>
                      statelessLoop c userMessage rest
                        (finalText ++ textsOf followUpContent)%list
                  end)
            end)
      end
  | _ :: rest => statelessLoop c userMessage rest finalText
  end.

(** The loop of the chat (non-stateless) branch. *)
Fixpoint statefulLoop (c : EnhancedMCPClient) (blocks : list ContentBlock)
  (finalText : list string) (assistantContent : list ContentBlock)
  : Prog ClientE (result string) :=
  match blocks with
  | [] => Ret (ok (join_lines finalText))
  | Text text :: rest =>
      statefulLoop c rest (finalText ++ [text])%list (assistantContent ++ [Text text])%list
  | ToolUse id toolName input :: rest =>
      match optimizeQuery toolName input with
      | inl e => Ret (throw e)
      | inr (optimizedName, optimizedArgs) =>
          let sanitizedToolName := sanitizeToolName optimizedName in
          let mcpToolName :=
            resolveToolName (sanitizedToOriginalToolName c) optimizedName in
          Vis (McpCallTool mcpToolName optimizedArgs) (fun called =>
            match called with
            | inl err =>
                let errorMsg := toolFailureMessage sanitizedToolName err in
                statefulLoop c rest (finalText ++ [errorMsg])%list assistantContent
            | inr resultContent =>
                let assistantContent' :=
                  (assistantContent ++ [ToolUse id sanitizedToolName optimizedArgs])%list in
                let parsedResult := parseToolResult resultContent in
                if truthy parsedResult
                then statefulLoop c rest
                       (finalText ++ [resultTextOf parsedResult])%list assistantContent'
                else statefulLoop c rest finalText assistantContent'
            end)
      end
  | _ :: rest => statefulLoop c rest finalText assistantContent
  end.

(** What the outer [catch] makes of the loop's result. *)
Definition caught (r : result string) : string :=
  match r with
  | inl error => invocationFailureMessage error
  | inr text => text
  end.

(** [processQuery(query, stateless)]: the returned text and the client as
    the call leaves it. *)
Definition processQuery (c : EnhancedMCPClient) (query : string) (stateless : bool)
  : Prog ClientE (string * EnhancedMCPClient) :=
  let userMessage := {| role := user; content := [Text query] |} in
  let c' :=
    if stateless then c
    else set_conversationHistory c (conversationHistory c ++ [userMessage])%list in
  let msgs := if stateless then [userMessage] else conversationHistory c' in
  let toolsForBedrock := if is_nil (tools c) then None else Some (toolsForModel c) in
  Vis (BedrockSend (makeCommand c (makePayload 2000 msgs toolsForBedrock))) (fun sent =>
    match sent with
    | inl error => Ret (invocationFailureMessage error, c')
    | inr responseContent =>
        fmap_prog (fun r => (caught r, c'))
          (if stateless
           then statelessLoop c userMessage responseContent []
           else statefulLoop c responseContent [] [])
    end).

(** Several calls in a row on the same client. *)
Fixpoint processQueries (c : EnhancedMCPClient) (queries : list string) (stateless : bool)
  : Prog ClientE (list string * EnhancedMCPClient) :=
  match queries with
  | [] => Ret ([], c)
  | query :: rest =>
      bind (processQuery c query stateless) (fun '(text, c1) =>
        fmap_prog (fun '(texts, c2) => (text :: texts, c2))
          (processQueries c1 rest stateless))
  end.

End Turn.

(** ** The HTTP handler of [startEndpoint] *)

Record Response : Type := { status : Z; json : value }.

(** What the handler does to the client object it closes over. *)
Inductive EndpointE : Type -> Type :=
| ResetConversationHistory : EndpointE unit
| ProcessQuery (query : value) : EndpointE (result string).

(** [err.message || err], as it is serialised. *)
Definition errorField (err : Error) : value :=
  if (error_message err =? "")%string then VObj [] else VStr (error_message err).

Definition badRequest : Response :=
  {| status := 400;
     json := VObj [("error", VStr "Missing or invalid 'query' field in request body.")] |}.

(** [app.post("/query", ...)]; [reqBody] holds the properties of the object
    the JSON body parser produced. *)
Definition postQuery (reqBody : list (string * value)) : Prog EndpointE Response :=
  Vis ResetConversationHistory (fun _ =>
    let query := default VUndefined (assoc "query" reqBody) in
    if negb (truthy query) || negb (is_string query) then Ret badRequest
    else
      Vis (ProcessQuery query) (fun answered =>
        match answered with
        | inr response => Ret {| status := 200; json := VObj [("result", VStr response)] |}
        | inl err => Ret {| status := 500; json := VObj [("error", errorField err)] |}
        end)).

End Client.

(* ===================================================================== *)
(** * The Express front end (endpoint.js)                                 *)
(* ===================================================================== *)

Module Endpoint.
Import Js Effects.

Record Response : Type := { status : Z; json : value }.

(** [mcpModule.mcpProcessQuery(query, true)] and [new Date().toISOString()]. *)
Inductive EndpointE : Type -> Type :=
| McpProcessQuery (query : value) (stateless : bool) : EndpointE (result string)
| Now : EndpointE string.

(** The module-level flags set by the start-up code. *)
Record Startup : Type := { mcpReady : bool; mcpModule : bool }.

Definition notReady : Response :=
  {| status := 503; json := VObj [("error", VStr "MCP client not ready.")] |}.

Definition queryRequired : Response :=
  {| status := 400; json := VObj [("error", VStr "Query is required.")] |}.

Definition serverError (err : Error) : Response :=
  {| status := 500; json := VObj [("error", VStr (error_message err))] |}.

(** [app.post('/query', ...)] of the dynamic-import version.  The text that
    [mcpProcessQuery] resolves to is a string, so the response wraps it. *)
Definition postQuery (st : Startup) (reqBody : list (string * value))
  : Prog EndpointE Response :=
  if negb (mcpReady st) || negb (mcpModule st) then Ret notReady
  else
    let query := default VUndefined (assoc "query" reqBody) in
    if negb (truthy query) then Ret queryRequired
    else
      Vis (McpProcessQuery query true) (fun answered =>
        match answered with
        | inr result =>
            Vis Now (fun timestamp =>
              Ret {| status := 200;
                     json := VObj [("result", VStr result); ("timestamp", VStr timestamp)] |})
        | inl err => Ret (serverError err)
        end).

(** [app.post('/query', ...)] of the [require] version. *)
Definition postQueryRequire (ready : bool) (reqBody : list (string * value))
  : Prog EndpointE Response :=
  if negb ready then Ret notReady
  else
    let query := default VUndefined (assoc "query" reqBody) in
    if negb (truthy query) then Ret queryRequired
    else
      Vis (McpProcessQuery query true) (fun answered =>
        match answered with
        | inr result => Ret {| status := 200; json := VObj [("result", VStr result)] |}
        | inl err => Ret (serverError err)
        end).

End Endpoint.

(* ===================================================================== *)
(** * The committed build of the client (build/index.js)                  *)
(* ===================================================================== *)

(** An earlier [processQuery]: no stateless mode, every turn appends to
    [conversationHistory], and each follow-up request carries the whole
    history. *)
Module Build.
Import Js Json Effects Client.

(** During a turn the history holds [{ role: "assistant", content:
    assistantContent }] with the array itself, which later pushes still
    change; [AssistantContentRef] is such an entry. *)
Inductive HistoryEntry : Type :=
| Stored (m : ConversationMessage)
| AssistantContentRef.

(** [[...this.conversationHistory]] as it serialises while the shared array
    holds [assistantContent]. *)
Definition snapshot (assistantContent : list ContentBlock) (history : list HistoryEntry)
  : list ConversationMessage :=
  map (fun e => match e with
                | Stored m => m
                | AssistantContentRef => {| role := assistant; content := assistantContent |}
                end) history.

Section Turn.
Context `{Builtins}.

(** The loop over [responseBody.content]: its result for the enclosing
    [try], with the array and the history as it leaves them. *)
Fixpoint loop (c : EnhancedMCPClient) (toolsForBedrock : option (list Tool))
  (blocks : list ContentBlock) (finalText : list string)
  (assistantContent : list ContentBlock) (history : list HistoryEntry)
  : Prog ClientE (result string * list ContentBlock * list HistoryEntry) :=
  match blocks with
  | [] => Ret (ok (join_lines finalText), assistantContent, history)
  | Text text :: rest =>
      loop c toolsForBedrock rest (finalText ++ [text])%list
        (assistantContent ++ [Text text])%list history
  | ToolUse id toolName input :: rest =>
      match optimizeQuery toolName input with
      | inl e => Ret (throw e, assistantContent, history)
      | inr (optimizedName, optimizedArgs) =>
          let sanitizedToolName := sanitizeToolName optimizedName in
          let mcpToolName :=
            resolveToolName (sanitizedToOriginalToolName c) optimizedName in
          Vis (McpCallTool mcpToolName optimizedArgs) (fun called =>
            match called with
            | inl err =>
                let errorMsg := toolFailureMessage sanitizedToolName err in
                loop c toolsForBedrock rest (finalText ++ [errorMsg])%list
                  assistantContent history
            | inr resultContent =>
                let assistantContent' :=
                  (assistantContent ++ [ToolUse id sanitizedToolName optimizedArgs])%list in
                let resultText := resultTextOf (parseToolResult resultContent) in
                let toolResultContent :=
                  {| role := user; content := [ToolResult id resultText] |} in
                let history' :=
                  (history ++ [AssistantContentRef; Stored toolResultContent])%list in
                let followUpPayload :=
                  makePayload 1000 (snapshot assistantContent' history') toolsForBedrock in
                Vis (BedrockSend (makeCommand c followUpPayload)) (fun sent =>
                  match sent with
                  | inl e => Ret (throw e, assistantContent', history')
                  | inr (Text interpretationText :: _) =>
                      loop c toolsForBedrock rest (finalText ++ [interpretationText])%list
                        assistantContent'
                        (history' ++ [Stored {| role := assistant;
                                                content := [Text interpretationText] |}])%list
                  | inr _ => loop c toolsForBedrock rest finalText assistantContent' history'
                  end)
            end)
      end
  | _ :: rest => loop c toolsForBedrock rest finalText assistantContent history
  end.

Definition processQuery (c : EnhancedMCPClient) (query : string)
  : Prog ClientE (string * EnhancedMCPClient) :=
  let userMessage := {| role := user; content := [Text query] |} in
  let history := (conversationHistory c ++ [userMessage])%list in
  let toolsForBedrock := if is_nil (tools c) then None else Some (toolsForModel c) in
  Vis (BedrockSend (makeCommand c (makePayload 2000 history toolsForBedrock))) (fun sent =>
    match sent with
    | inl error => Ret (invocationFailureMessage error, set_conversationHistory c history)
    | inr responseContent =>
        fmap_prog
          (fun '(r, assistantContent, history') =>
             (caught r, set_conversationHistory c (snapshot assistantContent history')))
          (loop c toolsForBedrock responseContent [] [] (map Stored history))
    end).

End Turn.

End Build.

(* ===================================================================== *)
(** * The DynamoDB tool server: [queryTable] and [scanTable]              *)
(* ===================================================================== *)

Module Server.
Import Js Json Effects.

(** [marshall] and [unmarshall] of the SDK's utility package. *)
Class DynamoUtil : Type := {
  marshall : value -> result value;
  unmarshall : value -> result value
}.

Inductive Command : Type :=
| QueryCommand (input : value)
| ScanCommand (input : value).

(** [dynamoClient.send(command)]: the response, or a rejection. *)
Inductive DynamoE : Type -> Type :=
| Send (command : Command) : DynamoE (result value).

Section Tools.
Context `{Builtins} `{DynamoUtil}.

(** The body of the [forEach] of [normalizeAttributeValues]: what is stored
    under the key, if anything. *)
Definition normalizeValue (val : value) : result (option value) :=
  if truthy val && is_object_type val then
    let? n := getProp val "N" in
    let? s := getProp val "S" in
    let? b := getProp val "B" in
    if truthy (or_else (or_else n s) b) then
      if negb (is_undefined n) then ok (Some (Number_ n))
      else if negb (is_undefined s) then ok (Some s)
      else if negb (is_undefined b) then ok (Some b)
      else ok None
    else ok (Some val)
  else ok (Some val).

Definition normalizeAttributeValues (exprAttrVals : value) : result value :=
  if negb (truthy exprAttrVals) then ok VUndefined
  else
    let parsed :=
      match exprAttrVals with
      | VStr s => JSON_parse s
      | _ => Some exprAttrVals
      end in
    match parsed with
    | None => ok VUndefined
    | Some vals =>
        let? keys := Object_keys vals in
        let? normalized :=
          rfold (fun acc key =>
                   let? val := getProp vals key in
                   let? stored := normalizeValue val in
                   ok (match stored with
                       | Some v => assign acc key v
                       | None => acc
                       end)) keys [] in
        ok (VObj normalized)
    end.

Definition invalidNamesKey : Error :=
  mkError "Error"
    ("Invalid ExpressionAttributeNames key: " +:+ dquote +:+ "#" +:+ dquote
     +:+ " is not allowed. Use descriptive names like " +:+ dquote +:+ "#age"
     +:+ dquote +:+ ", " +:+ dquote +:+ "#name" +:+ dquote +:+ ".").

Definition cleanExpressionAttributeNames (expressionAttributeNames : value)
  (expressions : list value) : result value :=
  if negb (truthy expressionAttributeNames) then ok VUndefined
  else
    let combinedExpression :=
      String.concat " "
        (omap (fun e => match e with VStr s => Some s | _ => None end) expressions) in
    let? keys := Object_keys expressionAttributeNames in
    let? cleanedNames :=
      rfold (fun acc key =>
               if (key =? "#")%string then throw invalidNamesKey
               else if includes combinedExpression key then
                 let? v := getProp expressionAttributeNames key in
                 ok (assign acc key v)
               else ok acc) keys [] in
    ok (if is_nil cleanedNames then VUndefined else VObj cleanedNames).

(** [normalizedValues ? marshall(normalizedValues) : undefined]. *)
Definition marshallValues (normalizedValues : value) : result value :=
  if truthy normalizedValues then marshall normalizedValues else ok VUndefined.

(** [` (index: ${params.indexName})`] or nothing. *)
Definition indexSuffix (indexName : value) : string :=
  if truthy indexName then " (index: " +:+ ToString indexName +:+ ")" else EmptyString.

(** The object both operations return after a successful [send]. *)
Definition successResult (verb : string) (params response : value) : result value :=
  let? Items := getProp response "Items" in
  let? items :=
    if truthy Items then
      match Items with
      | VArr elems => let? l := rmap unmarshall elems in ok (VArr l)
      | _ => throw (TypeError "response.Items.map is not a function")
      end
    else ok (VArr []) in
  let? tableName := getProp params "tableName" in
  let? indexName := getProp params "indexName" in
  let? Count := getProp response "Count" in
  let? ScannedCount := getProp response "ScannedCount" in
  let? LastEvaluatedKey := getProp response "LastEvaluatedKey" in
  let? lastEvaluatedKey :=
    if truthy LastEvaluatedKey then unmarshall LastEvaluatedKey else ok VNull in
  let? ConsumedCapacity := getProp response "ConsumedCapacity" in
  ok (VObj [("success", VBool true);
            ("message", VStr (verb +:+ " executed successfully on table "
                              +:+ ToString tableName +:+ indexSuffix indexName));
            ("items", items);
            ("count", Count);
            ("scannedCount", ScannedCount);
            ("lastEvaluatedKey", lastEvaluatedKey);
            ("consumedCapacity", ConsumedCapacity)]).

(** The input of the [ScanCommand] that [scanTable] sends. *)
Definition scanCommandInput (params : value) : result value :=
  let? expressionAttributeValues := getProp params "expressionAttributeValues" in
  let? normalizedValues := normalizeAttributeValues expressionAttributeValues in
  let? expressionAttributeNames := getProp params "expressionAttributeNames" in
  let? filterExpression := getProp params "filterExpression" in
  let? cleanedNames :=
    cleanExpressionAttributeNames expressionAttributeNames
      (filter (fun e => truthy e = true) [filterExpression]) in
  let? tableName := getProp params "tableName" in
  let? indexName := getProp params "indexName" in
  let? marshalled := marshallValues normalizedValues in
  let? limit := getProp params "limit" in
  ok (VObj [("TableName", tableName);
            ("IndexName", indexName);
            ("FilterExpression", filterExpression);
            ("ExpressionAttributeValues", marshalled);
            ("ExpressionAttributeNames", cleanedNames);
            ("Limit", limit)]).

(** The [try] block of [scanTable]. *)
Definition tryScan (params : value) : Prog DynamoE (result value) :=
  match scanCommandInput params with
  | inl e => Ret (throw e)
  | inr input =>
      Vis (Send (ScanCommand input)) (fun sent =>
        match sent with
        | inl e => Ret (throw e)
        | inr response => Ret (successResult "Scan" params response)
        end)
  end.

Definition scanFailure (error : Error) : value :=
  VObj [("success", VBool false);
        ("message", VStr ("Failed to scan table: " +:+ messageOrError error));
        ("items", VArr []);
        ("errorType", VStr (error_name error))].

Definition scanTable (params : value) : Prog DynamoE value :=
  bind (tryScan params) (fun r =>
    match r with
    | inr v => Ret v
    | inl error => Ret (scanFailure error)
    end).

(** The input of the [QueryCommand] that [queryTable] sends. *)
Definition queryCommandInput (params : value) : result value :=
  let? expressionAttributeValues := getProp params "expressionAttributeValues" in
  let? normalizedValues := normalizeAttributeValues expressionAttributeValues in
  let? expressionAttributeNames := getProp params "expressionAttributeNames" in
  let? keyConditionExpression := getProp params "keyConditionExpression" in
  let? filterExpression := getProp params "filterExpression" in
  let? cleanedNames :=
    cleanExpressionAttributeNames expressionAttributeNames
      (filter (fun e => truthy e = true) [keyConditionExpression; filterExpression]) in
  let? tableName := getProp params "tableName" in
  let? indexName := getProp params "indexName" in
  let? marshalled := marshallValues normalizedValues in
  let? limit := getProp params "limit" in
  let? scanIndexForward := getProp params "scanIndexForward" in
  ok (VObj [("TableName", tableName);
            ("IndexName", indexName);
            ("KeyConditionExpression", keyConditionExpression);
            ("ExpressionAttributeValues", marshalled);
            ("ExpressionAttributeNames", cleanedNames);
            ("FilterExpression", filterExpression);
            ("Limit", limit);
            ("ScanIndexForward", scanIndexForward)]).

(** The [try] block of [queryTable]. *)
Definition tryQuery (params : value) : Prog DynamoE (result value) :=
  match queryCommandInput params with
  | inl e => Ret (throw e)
  | inr input =>
      Vis (Send (QueryCommand input)) (fun sent =>
        match sent with
        | inl e => Ret (throw e)
        | inr response => Ret (successResult "Query" params response)
        end)
  end.

(** The test that guards the fallback. *)
Definition needsScanFallback (error : Error) : bool :=
  (error_name error =? "ValidationException")%string
  && (includes (error_message error) "Query condition missed key schema element"
      || includes (error_message error) "Invalid KeyConditionExpression"
      || includes (error_message error) "Syntax error").

(** [scanParams] of the fallback. *)
Definition fallbackScanParams (params : value) : result value :=
  let? tableName := getProp params "tableName" in
  let? indexName := getProp params "indexName" in
  let? keyConditionExpression := getProp params "keyConditionExpression" in
  let? expressionAttributeNames := getProp params "expressionAttributeNames" in
  let? expressionAttributeValues := getProp params "expressionAttributeValues" in
  let? limit := getProp params "limit" in
  ok (VObj [("tableName", tableName);
            ("indexName", indexName);
            ("filterExpression", keyConditionExpression);
            ("expressionAttributeNames", expressionAttributeNames);
            ("expressionAttributeValues", expressionAttributeValues);
            ("limit", limit)]).

(** [scanResult.message = `Query converted to scan: ${scanResult.message}`]. *)
Definition markConverted (scanResult : value) : value :=
  setProp scanResult "message"
    (VStr ("Query converted to scan: " +:+ ToString (getPropOpt scanResult "message"))).

Definition bothFailed (scanError : Error) : value :=
  VObj [("success", VBool false);
        ("message", VStr ("Query failed and scan fallback also failed: "
                          +:+ Error_toString scanError));
        ("items", VArr [])].

Definition queryFailure (error : Error) : value :=
  VObj [("success", VBool false);
        ("message", VStr ("Failed to query table: " +:+ messageOrError error));
        ("items", VArr []);
        ("errorType", VStr (error_name error))].

Definition queryTable (params : value) : Prog DynamoE value :=
  bind (tryQuery params) (fun r =>
    match r with
    | inr v => Ret v
    | inl error =>
        if needsScanFallback error then
          match fallbackScanParams params with
          | inl scanError => Ret (bothFailed scanError)
          | inr scanParams =>
              bind (scanTable scanParams) (fun scanResult => Ret (markConverted scanResult))
          end
        else Ret (queryFailure error)
    end).

End Tools.

End Server.

(* ===================================================================== *)
(** * The DynamoDB tool server: the other operations and the dispatcher   *)
(* ===================================================================== *)

(** Property reads see own properties, as in the rest of the development:
    an attribute named like a member of [Object.prototype] is outside the
    model. *)
Module ServerTools.
Import Js Json Effects Server.

(** Built-ins of these operations whose results are used but not
    inspected. *)
Class MoreBuiltins : Type := {
  (** [Math.max(1, v)] *)
  Math_max1 : value -> value;
  (** [JSON.stringify(v)] for a [v] whose [typeof] is "object" *)
  JSON_stringify_compact : value -> string;
  (** [v < n] and [v > n] for a [v] that is not a count (a natural number
      written without exponent), [NaN] or [undefined] *)
  lessThan : value -> N -> bool;
  greaterThan : value -> N -> bool
}.

(** Every command class of the SDK that the server instantiates; the two
    of [queryTable] and [scanTable] are those of [Server.Command]. *)
Inductive Command : Type :=
| CreateTableCommand (input : value)
| ListTablesCommand (input : value)
| DescribeTableCommand (input : value)
| UpdateTableCommand (input : value)
| PutItemCommand (input : value)
| GetItemCommand (input : value)
| UpdateItemCommand (input : value)
| DeleteItemCommand (input : value)
| ReadCommand (command : Server.Command).

(** [dynamoClient.send(command)]. *)
Inductive DynamoE : Type -> Type :=
| Send (command : Command) : DynamoE (result value).

(** [queryTable] and [scanTable] among the other operations. *)
Fixpoint lift {A} (p : Prog Server.DynamoE A) : Prog DynamoE A :=
  match p with
  | Ret a => Ret a
  | Vis e k =>
      match e in Server.DynamoE X return (X -> Prog DynamoE A) -> Prog DynamoE A with
      | Server.Send command => fun k' => Vis (Send (ReadCommand command)) k'
      end (fun x => lift (k x))
  end.

(** The number of UTF-16 units of a text. *)
Fixpoint utf16_length (s : string) : nat :=
  match s with
  | EmptyString => 0
  | String c rest =>
      let n := N_of_ascii c in
      ((if (n <? 128)%N then 1
        else if (n <? 192)%N then 0
        else if (n <? 240)%N then 1
        else 2) + utf16_length rest)%nat
  end.

Definition count (n : nat) : value := VNum (Decimal false (N.of_nat n) 0).

(** [v?.length]. *)
Definition lengthValue (v : value) : value :=
  match v with
  | VStr s => count (utf16_length s)
  | VArr elems => count (length elems)
  | VObj props => default VUndefined (assoc "length" props)
  | _ => VUndefined
  end.

Section Operations.
Context `{Builtins} `{DynamoUtil} `{MoreBuiltins}.

(** [v < n] and [v > n] for a natural number [n]: decided here for a
    count, false for [NaN] and [undefined]. *)
Definition below (v : value) (n : N) : bool :=
  match v with
  | VNum (Decimal false m 0) => (m <? n)%N
  | VNum NaN | VUndefined => false
  | _ => lessThan v n
  end.

Definition above (v : value) (n : N) : bool :=
  match v with
  | VNum (Decimal false m 0) => (n <? m)%N
  | VNum NaN | VUndefined => false
  | _ => greaterThan v n
  end.

(** A [try] block that prepares a command, sends it and builds the answer
    from the response; and the function around it, whose [catch] turns an
    error into an answer. *)
Definition sendThen (prepared : result Command) (answer : value -> result value)
  : Prog DynamoE (result value) :=
  match prepared with
  | inl e => Ret (throw e)
  | inr command =>
      Vis (Send command) (fun sent =>
        match sent with
        | inl e => Ret (throw e)
        | inr response => Ret (answer response)
        end)
  end.

Definition caught (attempt : Prog DynamoE (result value)) (failure : Error -> value)
  : Prog DynamoE value :=
  bind attempt (fun r =>
    match r with
    | inr v => Ret v
    | inl error => Ret (failure error)
    end).

(** [{ success: false, message: `${what}: ${error.message || error}` }]. *)
Definition failed (what : string) (error : Error) : value :=
  VObj [("success", VBool false);
        ("message", VStr (what +:+ ": " +:+ messageOrError error))].

Definition failedTyped (what : string) (error : Error) : value :=
  VObj [("success", VBool false);
        ("message", VStr (what +:+ ": " +:+ messageOrError error));
        ("errorType", VStr (error_name error))].

(** ** Tables *)

(** The attribute definitions and the key schema of a table or an index:
    the partition key, and the sort key when [params.sortKey] is truthy. *)
Definition attributeDefinitions (params : value) : result value :=
  let? partitionKey := getProp params "partitionKey" in
  let? partitionKeyType := getProp params "partitionKeyType" in
  let? sortKey := getProp params "sortKey" in
  let? sortKeyType := getProp params "sortKeyType" in
  ok (VArr (VObj [("AttributeName", partitionKey); ("AttributeType", partitionKeyType)]
            :: if truthy sortKey
               then [VObj [("AttributeName", sortKey); ("AttributeType", sortKeyType)]]
               else [])).

Definition keySchema (params : value) : result value :=
  let? partitionKey := getProp params "partitionKey" in
  let? sortKey := getProp params "sortKey" in
  ok (VArr (VObj [("AttributeName", partitionKey); ("KeyType", VStr "HASH")]
            :: if truthy sortKey
               then [VObj [("AttributeName", sortKey); ("KeyType", VStr "RANGE")]]
               else [])).

Definition provisionedThroughput (readCapacity writeCapacity : value) : value :=
  VObj [("ReadCapacityUnits", Math_max1 readCapacity);
        ("WriteCapacityUnits", Math_max1 writeCapacity)].

Definition tableNameRejected : value :=
  VObj [("success", VBool false);
        ("message", VStr "Table name must be between 3 and 255 characters")].

(** The test on the table name. *)
Definition badTableName (tableName : value) : bool :=
  negb (truthy tableName)
  || below (lengthValue tableName) 3
  || above (lengthValue tableName) 255.

Definition createTableInput (params : value) : result value :=
  let? tableName := getProp params "tableName" in
  let? definitions := attributeDefinitions params in
  let? schema := keySchema params in
  let? readCapacity := getProp params "readCapacity" in
  let? writeCapacity := getProp params "writeCapacity" in
  ok (VObj [("TableName", tableName);
            ("AttributeDefinitions", definitions);
            ("KeySchema", schema);
            ("ProvisionedThroughput", provisionedThroughput readCapacity writeCapacity)]).

Definition createTable (params : value) : Prog DynamoE value :=
  caught
    (match getProp params "tableName" with
     | inl e => Ret (throw e)
     | inr tableName =>
         if badTableName tableName then Ret (ok tableNameRejected)
         else
           sendThen (let? input := createTableInput params in ok (CreateTableCommand input))
             (fun response =>
                let? description := getProp response "TableDescription" in
                ok (VObj [("success", VBool true);
                          ("message",
                           VStr ("Table " +:+ ToString tableName
                                 +:+ " created successfully. Status: "
                                 +:+ ToString (getPropOpt description "TableStatus")));
                          ("details", description)]))
     end)
    (failed "Failed to create GSI").

(** [listTables(params = {})]. *)
Definition listTables (args : value) : Prog DynamoE value :=
  let params := if is_undefined args then VObj [] else args in
  caught
    (sendThen
       (let? limit := getProp params "limit" in
        let? exclusiveStartTableName := getProp params "exclusiveStartTableName" in
        ok (ListTablesCommand
              (VObj [("Limit", limit);
                     ("ExclusiveStartTableName", exclusiveStartTableName)])))
       (fun response =>
          let? TableNames := getProp response "TableNames" in
          let? LastEvaluatedTableName := getProp response "LastEvaluatedTableName" in
          ok (VObj [("success", VBool true);
                    ("message", VStr "Tables listed successfully");
                    ("tables", or_else TableNames (VArr []));
                    ("lastEvaluatedTable", LastEvaluatedTableName);
                    ("tableCount", or_else (lengthValue TableNames) (count 0))])))
    (failed "Failed to list tables").

(** [keySchema.find(k => k.KeyType === keyType)]. *)
Fixpoint findKeyType (elems : list value) (keyType : string) : result value :=
  match elems with
  | [] => ok VUndefined
  | k :: rest =>
      let? found := getProp k "KeyType" in
      match found with
      | VStr s => if (s =? keyType)%string then ok k else findKeyType rest keyType
      | _ => findKeyType rest keyType
      end
  end.

(** [table?.KeySchema?.find(k => k.KeyType === keyType)?.AttributeName]. *)
Definition keyAttribute (table : value) (keyType : string) : result value :=
  match getPropOpt table "KeySchema" with
  | VUndefined | VNull => ok VUndefined
  | VArr elems =>
      let? found := findKeyType elems keyType in
      ok (getPropOpt found "AttributeName")
  | _ => throw (TypeError "table?.KeySchema?.find is not a function")
  end.

Definition describeTable (params : value) : Prog DynamoE value :=
  caught
    (sendThen
       (let? tableName := getProp params "tableName" in
        ok (DescribeTableCommand (VObj [("TableName", tableName)])))
       (fun response =>
          let? table := getProp response "Table" in
          let? tableName := getProp params "tableName" in
          let? partitionKey := keyAttribute table "HASH" in
          let? sortKey := keyAttribute table "RANGE" in
          ok (VObj [("success", VBool true);
                    ("message", VStr ("Table " +:+ ToString tableName
                                      +:+ " described successfully"));
                    ("table", table);
                    ("summary",
                     VObj [("tableName", getPropOpt table "TableName");
                           ("status", getPropOpt table "TableStatus");
                           ("itemCount", getPropOpt table "ItemCount");
                           ("tableSize", getPropOpt table "TableSizeBytes");
                           ("partitionKey", partitionKey);
                           ("sortKey", sortKey);
                           ("gsiCount",
                            or_else (lengthValue (getPropOpt table "GlobalSecondaryIndexes"))
                              (count 0));
                           ("lsiCount",
                            or_else (lengthValue (getPropOpt table "LocalSecondaryIndexes"))
                              (count 0))])])))
    (failed "Failed to describe table").

Definition updateCapacity (params : value) : Prog DynamoE value :=
  caught
    (sendThen
       (let? tableName := getProp params "tableName" in
        let? readCapacity := getProp params "readCapacity" in
        let? writeCapacity := getProp params "writeCapacity" in
        ok (UpdateTableCommand
              (VObj [("TableName", tableName);
                     ("ProvisionedThroughput",
                      provisionedThroughput readCapacity writeCapacity)])))
       (fun response =>
          let? tableName := getProp params "tableName" in
          let? description := getProp response "TableDescription" in
          ok (VObj [("success", VBool true);
                    ("message", VStr ("Capacity updated successfully for table "
                                      +:+ ToString tableName));
                    ("details", description)])))
    (failed "Failed to update capacity").

(** [{ ProjectionType: params.projectionType, ...(params.projectionType ===
    "INCLUDE" ? { NonKeyAttributes: params.nonKeyAttributes } : {}) }]. *)
Definition projection (params : value) : result value :=
  let? projectionType := getProp params "projectionType" in
  let? nonKeyAttributes := getProp params "nonKeyAttributes" in
  ok (VObj (("ProjectionType", projectionType)
            :: match projectionType with
               | VStr s =>
                   if (s =? "INCLUDE")%string
                   then [("NonKeyAttributes", nonKeyAttributes)]
                   else []
               | _ => []
               end)).

Definition createGSI (params : value) : Prog DynamoE value :=
  caught
    (sendThen
       (let? tableName := getProp params "tableName" in
        let? definitions := attributeDefinitions params in
        let? indexName := getProp params "indexName" in
        let? schema := keySchema params in
        let? projected := projection params in
        let? readCapacity := getProp params "readCapacity" in
        let? writeCapacity := getProp params "writeCapacity" in
        ok (UpdateTableCommand
              (VObj [("TableName", tableName);
                     ("AttributeDefinitions", definitions);
                     ("GlobalSecondaryIndexUpdates",
                      VArr [VObj [("Create",
                                   VObj [("IndexName", indexName);
                                         ("KeySchema", schema);
                                         ("Projection", projected);
                                         ("ProvisionedThroughput",
                                          provisionedThroughput readCapacity
                                            writeCapacity)])]])])))
       (fun response =>
          let? indexName := getProp params "indexName" in
          let? tableName := getProp params "tableName" in
          let? description := getProp response "TableDescription" in
          ok (VObj [("success", VBool true);
                    ("message", VStr ("GSI " +:+ ToString indexName
                                      +:+ " creation initiated on table "
                                      +:+ ToString tableName));
                    ("details", description)])))
    (failed "Failed to create GSI").

Definition updateGSI (params : value) : Prog DynamoE value :=
  caught
    (sendThen
       (let? tableName := getProp params "tableName" in
        let? indexName := getProp params "indexName" in
        let? readCapacity := getProp params "readCapacity" in
        let? writeCapacity := getProp params "writeCapacity" in
        ok (UpdateTableCommand
              (VObj [("TableName", tableName);
                     ("GlobalSecondaryIndexUpdates",
                      VArr [VObj [("Update",
                                   VObj [("IndexName", indexName);
                                         ("ProvisionedThroughput",
                                          provisionedThroughput readCapacity
                                            writeCapacity)])]])])))
       (fun response =>
          let? indexName := getProp params "indexName" in
          let? tableName := getProp params "tableName" in
          let? description := getProp response "TableDescription" in
          ok (VObj [("success", VBool true);
                    ("message", VStr ("GSI " +:+ ToString indexName
                                      +:+ " capacity updated on table "
                                      +:+ ToString tableName));
                    ("details", description)])))
    (failed "Failed to update GSI").

Definition createLSI (params : value) : Prog DynamoE value :=
  caught
    (sendThen
       (let? tableName := getProp params "tableName" in
        let? partitionKey := getProp params "partitionKey" in
        let? partitionKeyType := getProp params "partitionKeyType" in
        let? sortKey := getProp params "sortKey" in
        let? sortKeyType := getProp params "sortKeyType" in
        let? indexName := getProp params "indexName" in
        let? projected := projection params in
        let? readCapacity := getProp params "readCapacity" in
        let? writeCapacity := getProp params "writeCapacity" in
        ok (CreateTableCommand
              (VObj [("TableName", tableName);
                     ("AttributeDefinitions",
                      VArr [VObj [("AttributeName", partitionKey);
                                  ("AttributeType", partitionKeyType)];
                            VObj [("AttributeName", sortKey);
                                  ("AttributeType", sortKeyType)]]);
                     ("KeySchema",
                      VArr [VObj [("AttributeName", partitionKey);
                                  ("KeyType", VStr "HASH")]]);
                     ("LocalSecondaryIndexes",
                      VArr [VObj [("IndexName", indexName);
                                  ("KeySchema",
                                   VArr [VObj [("AttributeName", partitionKey);
                                               ("KeyType", VStr "HASH")];
                                         VObj [("AttributeName", sortKey);
                                               ("KeyType", VStr "RANGE")]]);
                                  ("Projection", projected)]]);
                     ("ProvisionedThroughput",
                      provisionedThroughput (or_else readCapacity (count 5))
                        (or_else writeCapacity (count 5)))])))
       (fun response =>
          let? indexName := getProp params "indexName" in
          let? tableName := getProp params "tableName" in
          let? description := getProp response "TableDescription" in
          ok (VObj [("success", VBool true);
                    ("message", VStr ("LSI " +:+ ToString indexName
                                      +:+ " created on table " +:+ ToString tableName));
                    ("details", description)])))
    (failed "Failed to create LSI").

(** ** Items *)

(** [getTableSchema(tableName)]: the table's description, [null] when it
    cannot be had. *)
Definition getTableSchema (tableName : value) : Prog DynamoE value :=
  Vis (Send (DescribeTableCommand (VObj [("TableName", tableName)]))) (fun sent =>
    match sent with
    | inl _ => Ret VNull
    | inr descResp =>
        Ret (match getProp descResp "Table" with
             | inr table => table
             | inl _ => VNull
             end)
    end).

(** The elements of a value on which an array method is called. *)
Definition elements (v : value) (method : string) : result (list value) :=
  match v with
  | VArr elems => ok elems
  | _ => throw (TypeError (method +:+ " is not a function"))
  end.

(** [l.filter(x => typeof x === "string")]. *)
Fixpoint stringsOf (l : list value) : list string :=
  match l with
  | [] => []
  | VStr s :: rest => s :: stringsOf rest
  | _ :: rest => stringsOf rest
  end.

(** [tableSchema.KeySchema.map(k => k.AttributeName).filter(attr => typeof
    attr === "string")]. *)
Definition keyAttrsOf (KeySchema : value) : result (list string) :=
  let? elems := elements KeySchema "tableSchema.KeySchema.map" in
  let? names := rmap (fun k => getProp k "AttributeName") elems in
  ok (stringsOf names).

(** The [forEach] that fills [attrTypes]. *)
Definition attrTypesOf (AttributeDefinitions : value) : result (list (string * value)) :=
  let? elems := elements AttributeDefinitions "tableSchema.AttributeDefinitions.forEach" in
  rfold (fun attrTypes def =>
           let? AttributeName := getProp def "AttributeName" in
           let? AttributeType := getProp def "AttributeType" in
           ok (match AttributeName, AttributeType with
               | VStr attr, VStr type => obj_set attrTypes attr (VStr type)
               | _, _ => attrTypes
               end)) elems [].

(** [{ ...item }] for a truthy [item]. *)
Definition spread (item : value) : list (string * value) :=
  match item with
  | VObj props => props
  | _ =>
      match Object_keys item with
      | inr keys => map (fun key => (key, getPropOpt item key)) keys
      | inl _ => []
      end
  end.

Definition is_number (v : value) : bool :=
  match v with VNum _ => true | _ => false end.

Definition is_type (expectedType : value) (type : string) : bool :=
  match expectedType with
  | VStr s => (s =? type)%string
  | _ => false
  end.

(** The body of the [forEach] over the key attributes. *)
Definition fixKey (attrTypes : list (string * value)) (fixedItem : list (string * value))
  (attr : string) : list (string * value) :=
  if is_undefined (default VUndefined (assoc attr fixedItem)) then fixedItem
  else
    let expectedType := default VUndefined (assoc attr attrTypes) in
    let current := default VUndefined (assoc attr fixedItem) in
    let fixedItem :=
      if is_type expectedType "S" && negb (is_string current) then
        obj_set fixedItem attr
          (VStr (if is_object_type current then JSON_stringify_compact current
                 else ToString current))
      else fixedItem in
    let current := default VUndefined (assoc attr fixedItem) in
    if is_type expectedType "N" && negb (is_number current) then
      match Number_ current with
      | VNum NaN => fixedItem
      | num => obj_set fixedItem attr num
      end
    else fixedItem.

Definition fixItemKeyTypes (item tableSchema : value) : result value :=
  if negb (truthy (getPropOpt tableSchema "KeySchema"))
     || negb (truthy (getPropOpt tableSchema "AttributeDefinitions"))
     || negb (truthy item)
  then ok item
  else
    let? keyAttrs := keyAttrsOf (getPropOpt tableSchema "KeySchema") in
    let? attrTypes := attrTypesOf (getPropOpt tableSchema "AttributeDefinitions") in
    ok (VObj (fold_left (fixKey attrTypes) keyAttrs (spread item))).

(** What the item operations do before they build their command: the table
    name, and the item or key with its key attributes fixed. *)
Definition withFixed (params : value) (field : string)
  (k : value -> value -> Prog DynamoE (result value)) : Prog DynamoE (result value) :=
  match getProp params "tableName" with
  | inl e => Ret (throw e)
  | inr tableName =>
      bind (getTableSchema tableName) (fun tableSchema =>
        match (let? item := getProp params field in fixItemKeyTypes item tableSchema) with
        | inl e => Ret (throw e)
        | inr fixed => k tableName fixed
        end)
  end.

Definition putItem (params : value) : Prog DynamoE value :=
  caught
    (withFixed params "item" (fun tableName fixedItem =>
       sendThen
         (let? Item := marshall fixedItem in
          ok (PutItemCommand (VObj [("TableName", tableName); ("Item", Item)])))
         (fun _ =>
            ok (VObj [("success", VBool true);
                      ("message", VStr ("Item added successfully to table "
                                        +:+ ToString tableName));
                      ("item", fixedItem)]))))
    (failedTyped "Failed to put item").

Definition getItem (params : value) : Prog DynamoE value :=
  caught
    (withFixed params "key" (fun tableName fixedKey =>
       sendThen
         (let? Key := marshall fixedKey in
          ok (GetItemCommand (VObj [("TableName", tableName); ("Key", Key)])))
         (fun response =>
            let? Item := getProp response "Item" in
            let? item := if truthy Item then unmarshall Item else ok VNull in
            ok (VObj [("success", VBool true);
                      ("message",
                       VStr (if truthy Item
                             then "Item retrieved successfully from table "
                                  +:+ ToString tableName
                             else "No item found with the specified key in table "
                                  +:+ ToString tableName));
                      ("item", item);
                      ("found", VBool (truthy Item))]))))
    (failed "Failed to get item").

(** The answer of [updateItem] and [deleteItem]. *)
Definition attributesResult (message : string) (tableName response : value)
  : result value :=
  let? Attributes := getProp response "Attributes" in
  let? attributes := if truthy Attributes then unmarshall Attributes else ok VNull in
  ok (VObj [("success", VBool true);
            ("message", VStr (message +:+ ToString tableName));
            ("attributes", attributes)]).

Definition updateItem (params : value) : Prog DynamoE value :=
  caught
    (withFixed params "key" (fun tableName fixedKey =>
       sendThen
         (let? expressionAttributeValues := getProp params "expressionAttributeValues" in
          let? normalizedValues := normalizeAttributeValues expressionAttributeValues in
          let? Key := marshall fixedKey in
          let? updateExpression := getProp params "updateExpression" in
          let? expressionAttributeNames := getProp params "expressionAttributeNames" in
          let? marshalled := marshallValues normalizedValues in
          let? conditionExpression := getProp params "conditionExpression" in
          let? returnValues := getProp params "returnValues" in
          ok (UpdateItemCommand
                (VObj [("TableName", tableName);
                       ("Key", Key);
                       ("UpdateExpression", updateExpression);
                       ("ExpressionAttributeNames", expressionAttributeNames);
                       ("ExpressionAttributeValues", marshalled);
                       ("ConditionExpression", conditionExpression);
                       ("ReturnValues", or_else returnValues (VStr "NONE"))])))
         (attributesResult "Item updated successfully in table " tableName)))
    (failedTyped "Failed to update item").

Definition deleteItem (params : value) : Prog DynamoE value :=
  caught
    (withFixed params "key" (fun tableName fixedKey =>
       sendThen
         (let? expressionAttributeValues := getProp params "expressionAttributeValues" in
          let? normalizedValues := normalizeAttributeValues expressionAttributeValues in
          let? Key := marshall fixedKey in
          let? conditionExpression := getProp params "conditionExpression" in
          let? expressionAttributeNames := getProp params "expressionAttributeNames" in
          let? marshalled := marshallValues normalizedValues in
          let? returnValues := getProp params "returnValues" in
          ok (DeleteItemCommand
                (VObj [("TableName", tableName);
                       ("Key", Key);
                       ("ConditionExpression", conditionExpression);
                       ("ExpressionAttributeNames", expressionAttributeNames);
                       ("ExpressionAttributeValues", marshalled);
                       ("ReturnValues", or_else returnValues (VStr "NONE"))])))
         (attributesResult "Item deleted successfully from table " tableName)))
    (failedTyped "Failed to delete item").

(** ** The handler of a tool call *)

(** The names of [ALL_TOOLS], in its order. *)
Definition ALL_TOOLS : list string :=
  ["dynamodb:list_tables"; "dynamodb:describe_table"; "dynamodb:create_table";
   "dynamodb:update_capacity"; "dynamodb:put_item"; "dynamodb:get_item";
   "dynamodb:update_item"; "dynamodb:delete_item"; "dynamodb:query_table";
   "dynamodb:scan_table"; "dynamodb:create_gsi"; "dynamodb:update_gsi";
   "dynamodb:create_lsi"].

(** The [switch]: the operation of a name, if it has one. *)
Definition operation (name : string) : option (value -> Prog DynamoE value) :=
  if (name =? "dynamodb:list_tables")%string then Some listTables
  else if (name =? "dynamodb:describe_table")%string then Some describeTable
  else if (name =? "dynamodb:create_table")%string then Some createTable
  else if (name =? "dynamodb:update_capacity")%string then Some updateCapacity
  else if (name =? "dynamodb:put_item")%string then Some putItem
  else if (name =? "dynamodb:get_item")%string then Some getItem
  else if (name =? "dynamodb:update_item")%string then Some updateItem
  else if (name =? "dynamodb:delete_item")%string then Some deleteItem
  else if (name =? "dynamodb:query_table")%string
       then Some (fun args => lift (queryTable args))
  else if (name =? "dynamodb:scan_table")%string
       then Some (fun args => lift (scanTable args))
  else if (name =? "dynamodb:create_gsi")%string then Some createGSI
  else if (name =? "dynamodb:update_gsi")%string then Some updateGSI
  else if (name =? "dynamodb:create_lsi")%string then Some createLSI
  else None.

(** [{ content: [{ type: "text", text }], isError }]. *)
Definition textResponse (text : string) (isError : bool) : value :=
  VObj [("content", VArr [VObj [("type", VStr "text"); ("text", VStr text)]]);
        ("isError", VBool isError)].

Definition unknownTool (name : string) : value :=
  VObj [("success", VBool false);
        ("message", VStr ("Unknown tool: " +:+ name));
        ("availableTools", VArr (map VStr ALL_TOOLS))].

(** The handler of [CallToolRequestSchema].  Each operation catches its own
    errors, so the handler's [catch] has nothing to catch. *)
Definition callTool (name : string) (args : value) : Prog DynamoE value :=
  match operation name with
  | Some run_operation =>
      bind (run_operation args) (fun result =>
        Ret (textResponse (JSON_stringify result)
               (negb (truthy (getPropOpt result "success")))))
  | None => Ret (textResponse (JSON_stringify (unknownTool name)) true)
  end.

End Operations.

End ServerTools.

(* ===================================================================== *)
(** * The client's life cycle: connecting, the shared instance, the chat  *)
(* ===================================================================== *)

Module Lifecycle.
Import Js Json Effects Client.

(** A tool as [listTools] reports it. *)
Record ListedTool : Type := {
  listed_name : string;
  listed_description : option string;
  inputSchema : value
}.

(** What the code reads of [process]. *)
Record Process : Type := { platform : string; execPath : string }.

(** [this.mcp.connect(new StdioClientTransport({ command, args }))] and
    [this.mcp.listTools()]. *)
Inductive ConnectE : Type -> Type :=
| McpConnect (command : string) (args : list string) : ConnectE (result unit)
| McpListTools : ConnectE (result (list ListedTool)).

(** [new EnhancedMCPClient(inferenceProfileId)]. *)
Definition newClient (profileId : option string) : EnhancedMCPClient :=
  {| tools := [];
     client_modelId := "anthropic.claude-3-sonnet-20240229-v1:0";
     inferenceProfileId :=
       match profileId with
       | Some p => if (p =? "")%string then None else Some p
       | None => None
       end;
     conversationHistory := [];
     sanitizedToOriginalToolName := ∅ |}.

(** [s.endsWith(suffix)]. *)
Definition endsWith (s suffix : string) : bool :=
  let n := String.length s in
  let m := String.length suffix in
  (m <=? n)%nat && (String.substring (n - m) m s =? suffix)%string.

Definition notAServerScript : Error :=
  mkError "Error" "Server script must be a .js or .py file".

(** The catalog entry made of a listed tool. *)
Definition toolOfListed (tool : ListedTool) : Tool :=
  {| name := listed_name tool;
     description := default EmptyString (listed_description tool);
     input_schema := inputSchema tool |}.

(** [connectToServer(serverScriptPath)]: the client as a successful call
    leaves it, or the error that the [catch] throws again (the fields of
    the client kept here are then as they were). *)
Definition connectToServer (proc : Process) (c : EnhancedMCPClient)
  (serverScriptPath : string) : Prog ConnectE (result EnhancedMCPClient) :=
  let isJs := endsWith serverScriptPath ".js" in
  let isPy := endsWith serverScriptPath ".py" in
  if negb isJs && negb isPy then Ret (throw notAServerScript)
  else
    let command :=
      if isPy then (if (platform proc =? "win32")%string then "python" else "python3")
      else execPath proc in
    Vis (McpConnect command [serverScriptPath]) (fun connected =>
      match connected with
      | inl e => Ret (throw e)
      | inr _ =>
          Vis McpListTools (fun listed =>
            match listed with
            | inl e => Ret (throw e)
            | inr toolsResult =>
                let ts := map toolOfListed toolsResult in
                Ret (ok {| tools := ts;
                           client_modelId := client_modelId c;
                           inferenceProfileId := inferenceProfileId c;
                           conversationHistory := conversationHistory c;
                           sanitizedToOriginalToolName := buildNameMapping ts |})
            end)
      end).

(** [initMCPClient]: what the call resolves or rejects with, and the
    module-level [mcpClientInstance] after it.  The instance is assigned
    before the connection is awaited. *)
Definition initMCPClient (proc : Process) (mcpClientInstance : option EnhancedMCPClient)
  (serverScriptPath : string) (profileId : option string)
  : Prog ConnectE (result EnhancedMCPClient * option EnhancedMCPClient) :=
  match mcpClientInstance with
  | Some c => Ret (ok c, Some c)
  | None =>
      let c := newClient profileId in
      bind (connectToServer proc c serverScriptPath) (fun connected =>
        match connected with
        | inl e => Ret (throw e, Some c)
        | inr c' => Ret (ok c', Some c')
        end)
  end.

Definition notInitialized : Error :=
  mkError "Error" "MCP client not initialized. Call initMCPClient first.".

(** [resetConversationHistory()]. *)
Definition resetConversationHistory (c : EnhancedMCPClient) : EnhancedMCPClient :=
  set_conversationHistory c [].

(** [message.toLowerCase() === word] for a word of small ASCII letters
    other than k: the only characters outside ASCII whose lower case holds
    an ASCII letter are the Kelvin sign (k) and the dotted capital I, which
    gives an i followed by a combining dot. *)
Definition lower_char (c : ascii) : ascii :=
  let n := N_of_ascii c in
  if ((65 <=? n) && (n <=? 90))%N then ascii_of_N (n + 32) else c.

Fixpoint lowerIs (message word : string) : bool :=
  match message, word with
  | EmptyString, EmptyString => true
  | String c message', String d word' =>
      Ascii.eqb (lower_char c) d && lowerIs message' word'
  | _, _ => false
  end.

(** [message.trim() === ""]: every character is white space or a line
    terminator.  The characters outside ASCII among them are U+00A0, U+1680,
    U+2000 to U+200A, U+2028, U+2029, U+202F, U+205F, U+3000 and U+FEFF,
    here in their UTF-8 form. *)
Fixpoint blank (message : string) : bool :=
  match message with
  | EmptyString => true
  | String c rest =>
      let n := N_of_ascii c in
      if (((9 <=? n) && (n <=? 13)) || (n =? 32))%N then blank rest
      else
        match rest with
        | String c2 rest2 =>
            let n2 := N_of_ascii c2 in
            if ((n =? 194) && (n2 =? 160))%N then blank rest2
            else
              match rest2 with
              | String c3 rest3 =>
                  let n3 := N_of_ascii c3 in
                  if (((n =? 225) && (n2 =? 154) && (n3 =? 128))
                      || ((n =? 226) && (n2 =? 128)
                          && (((128 <=? n3) && (n3 <=? 138))
                              || (n3 =? 168) || (n3 =? 169) || (n3 =? 175)))
                      || ((n =? 226) && (n2 =? 129) && (n3 =? 159))
                      || ((n =? 227) && (n2 =? 128) && (n3 =? 128))
                      || ((n =? 239) && (n2 =? 187) && (n3 =? 191)))%N
                  then blank rest3
                  else false
              | EmptyString => false
              end
        | EmptyString => false
        end
  end.

(** ** The HTTP handler of [startEndpoint], on the client it closes over *)

Section Turn.
Context `{Builtins}.

(** [mcpProcessQuery(query, stateless)] and the instance after it. *)
Definition mcpProcessQuery (mcpClientInstance : option EnhancedMCPClient)
  (query : string) (stateless : bool)
  : Prog ClientE (result string * option EnhancedMCPClient) :=
  match mcpClientInstance with
  | None => Ret (throw notInitialized, None)
  | Some c =>
      bind (processQuery c query stateless) (fun '(text, c') => Ret (ok text, Some c'))
  end.

(** The [while (true)] of [chatLoop] on the lines typed so far: the client
    when the loop has left on [quit] or waits for the next line.  What the
    loop prints is not kept. *)
Fixpoint chatLoop (c : EnhancedMCPClient) (lines : list string)
  : Prog ClientE EnhancedMCPClient :=
  match lines with
  | [] => Ret c
  | message :: rest =>
      if lowerIs message "quit" then Ret c
      else if lowerIs message "clear" then chatLoop (set_conversationHistory c []) rest
      else if lowerIs message "tools" then chatLoop c rest
      else if blank message then chatLoop c rest
      else bind (processQuery c message false) (fun '(_, c') => chatLoop c' rest)
  end.

(** [app.post("/query", ...)] with the two methods of the client in place:
    the response and the client after the request.  [processQuery] returns
    a text in every case, so the handler's [catch] is never entered. *)
Definition handleQuery (mcpClient : EnhancedMCPClient) (reqBody : list (string * value))
  : Prog ClientE (Response * EnhancedMCPClient) :=
  let mcpClient := resetConversationHistory mcpClient in
  let query := default VUndefined (assoc "query" reqBody) in
  if negb (truthy query) || negb (is_string query) then Ret (badRequest, mcpClient)
  else
    match query with
    | VStr query =>
        bind (processQuery mcpClient query false) (fun '(response, mcpClient') =>
          Ret ({| status := 200; json := VObj [("result", VStr response)] |}, mcpClient'))
    | _ => Ret (badRequest, mcpClient)
    end.

End Turn.

(** ** [main] and the last lines of the file *)

(** What [main] starts, as requests: [startEndpoint], the construction of
    the client with its connection, the chat loop, [cleanup] and
    [process.exit]. *)
Inductive MainE : Type -> Type :=
| StartEndpoint (serverScriptPath inferenceProfileId : string) : MainE (result unit)
| NewClientConnect (inferenceProfileId serverScriptPath : string) : MainE (result unit)
| ChatLoop : MainE (result unit)
| Cleanup : MainE unit
| Exit (code : Z) : MainE unit.

Definition defaultProfile : string := "us.anthropic.claude-opus-4-1-20250805-v1:0".

(** [process.argv[3] || "us.anthropic.claude-opus-4-1-20250805-v1:0"]. *)
Definition profileOf (argv : list string) : string :=
  match nth_error argv 3 with
  | Some p => if (p =? "")%string then defaultProfile else p
  | None => defaultProfile
  end.

(** [finally { await mcpClient.cleanup(); process.exit(0); }]: the process
    ends there. *)
Definition cleanupAndExit : Prog MainE (result unit) :=
  Vis Cleanup (fun _ => Vis (Exit 0) (fun _ => Ret (ok tt))).

(** [process.argv[4] === "endpoint"]. *)
Definition endpointMode (argv : list string) : bool :=
  match nth_error argv 4 with
  | Some mode => (mode =? "endpoint")%string
  | None => false
  end.

(** [main()], for the arguments of the process: how the promise settles. *)
Definition main (argv : list string) : Prog MainE (result unit) :=
  if (length argv <? 3)%nat then Ret (ok tt)
  else
    let serverScriptPath := nth 2 argv EmptyString in
    let inferenceProfileId := profileOf argv in
    if endpointMode argv
    then Vis (StartEndpoint serverScriptPath inferenceProfileId) Ret
    else
      Vis (NewClientConnect inferenceProfileId serverScriptPath) (fun connected =>
        match connected with
        | inl _ => cleanupAndExit
        | inr _ => Vis ChatLoop (fun _ => cleanupAndExit)
        end).

(** [main().catch(error => { ...; process.exit(1); })]. *)
Definition entry (argv : list string) : Prog MainE unit :=
  bind (main argv) (fun settled =>
    match settled with
    | inl _ => Vis (Exit 1) Ret
    | inr _ => Ret tt
    end).

End Lifecycle.

(* ===================================================================== *)
(** * The start-up code of endpoint.js                                    *)
(* ===================================================================== *)

Module EndpointStart.
Import Js Effects Endpoint.

(** [await import('./mcp-client-bedrock/build/index.js')] and
    [await mcpModule.initMCPClient(serverScriptPath, inferenceProfileId)]. *)
Inductive StartE : Type -> Type :=
| ImportModule : StartE (result unit)
| InitMCPClient (serverScriptPath : string) (inferenceProfileId : value)
    : StartE (result unit).

(** The asynchronous block that runs once at start-up: the flags it
    leaves.  An error is logged and nothing else is done about it. *)
Definition start (serverScriptPath : string) (inferenceProfileId : value)
  : Prog StartE Startup :=
  Vis ImportModule (fun imported =>
    match imported with
    | inl _ => Ret {| mcpReady := false; mcpModule := false |}
    | inr _ =>
        Vis (InitMCPClient serverScriptPath inferenceProfileId) (fun initialised =>
          match initialised with
          | inl _ => Ret {| mcpReady := false; mcpModule := true |}
          | inr _ => Ret {| mcpReady := true; mcpModule := true |}
          end)
    end).

(** The start-up block of the version that loads the client module with
    [require]: the [mcpReady] it leaves. *)
Definition startRequire (serverScriptPath : string) (inferenceProfileId : value)
  : Prog StartE bool :=
  Vis (InitMCPClient serverScriptPath inferenceProfileId) (fun initialised =>
    match initialised with
    | inl _ => Ret false
    | inr _ => Ret true
    end).

End EndpointStart.

(* ===================================================================== *)
(** * The exports of the committed build                                  *)
(* ===================================================================== *)

Module BuildExports.
Import Js Json Effects Client.

Section Turn.
Context `{Builtins}.

(** [mcpProcessQuery(query)] of build/index.js: it has one parameter, so
    the [true] that endpoint.js passes as a second argument is dropped. *)
Definition mcpProcessQuery (mcpClientInstance : option EnhancedMCPClient) (query : string)
  : Prog ClientE (result string * option EnhancedMCPClient) :=
  match mcpClientInstance with
  | None => Ret (throw Lifecycle.notInitialized, None)
  | Some c =>
      bind (Build.processQuery c query) (fun '(text, c') => Ret (ok text, Some c'))
  end.

End Turn.

End BuildExports.

(* ===================================================================== *)
(** * Vocabulary of the statements, and sample data                       *)
(* ===================================================================== *)

Module Vocabulary.
Import Js Json Effects Client.

(** The characters of the class [[A-Za-z0-9_-]], written out. *)
Definition safeAlphabet : string :=
  "abcdefghijklmnopqrstuvwxyzABCDEFGHIJKLMNOPQRSTUVWXYZ0123456789_-".

Definition inSafeAlphabet (c : ascii) : bool :=
  existsb (Ascii.eqb c) (list_ascii_of_string safeAlphabet).

(** A name made of characters of [[A-Za-z0-9_-]] only. *)
Fixpoint isSafeName (s : string) : bool :=
  match s with
  | EmptyString => true
  | String c rest => inSafeAlphabet c && isSafeName rest
  end.

(** The UTF-16 units of a text held as UTF-8 bytes, as far as the class is
    concerned: a unit below 128 is the character it encodes, [Some c]; a
    unit of a longer sequence is outside the class whatever it is, [None].
    A sequence of two or three bytes is one unit, a sequence of four bytes
    is two. *)
Fixpoint utf16_units (s : string) : list (option ascii) :=
  match s with
  | EmptyString => []
  | String c rest =>
      let n := N_of_ascii c in
      if (n <? 128)%N then Some c :: utf16_units rest
      else if (n <? 192)%N then utf16_units rest
      else if (n <? 240)%N then None :: utf16_units rest
      else None :: None :: utf16_units rest
  end.

(** The property names of [Object.prototype], which every object written
    [{}] inherits. *)
Definition objectPrototypeNames : list string :=
  ["__defineGetter__"; "__defineSetter__"; "__lookupGetter__";
   "__lookupSetter__"; "__proto__"; "constructor"; "hasOwnProperty";
   "isPrototypeOf"; "propertyIsEnumerable"; "toLocaleString"; "toString";
   "valueOf"].

(** The key-condition text the optimizer inspects, when the argument holds
    one: the string itself, or the empty default of [|| ""] when the
    property is missing or falsy. *)
Definition keyConditionText (toolArgs : list (string * value)) : option string :=
  match default VUndefined (assoc "keyConditionExpression" toolArgs) with
  | VStr s => Some s
  | v => if truthy v then None else Some EmptyString
  end.

(** The heuristic, on a text. *)
Definition lacksPartitionKey (keyCondition : string) : bool :=
  includes keyCondition "Age"
  && negb (includes keyCondition "Name")
  && negb (includes keyCondition "#name").

(** A property of the argument object, [undefined] when it is missing. *)
Definition prop (toolArgs : list (string * value)) (k : string) : value :=
  default VUndefined (assoc k toolArgs).

(** The model invocations of a trace, in order. *)
Definition invocations (t : list (event ClientE)) : list InvokeModelCommand :=
  omap (fun ev => match ev_request ev with
                  | BedrockSend command => Some command
                  | McpCallTool _ _ => None
                  end) t.

Definition submitted (t : list (event ClientE)) : list (list ConversationMessage) :=
  map (fun command => messages (body command)) (invocations t).

Definition roles (msgs : list ConversationMessage) : list Role := map role msgs.

(** Built-ins for the closed examples: numbers print as their mantissa and
    exponent, and a value prints on one line. *)
Definition digits (n : N) : string := pretty n.

Definition sampleNumberToString (n : number) : string :=
  match n with
  | NaN => "NaN"
  | Infinity false => "Infinity"
  | Infinity true => "-Infinity"
  | Decimal neg m e =>
      (if neg then "-" else EmptyString) +:+ digits m
      +:+ (if (e =? 0)%Z then EmptyString else "e" +:+ pretty e)
  end.

Fixpoint sampleStringify (v : value) : string :=
  match v with
  | VUndefined => "undefined"
  | VNull => "null"
  | VBool true => "true"
  | VBool false => "false"
  | VNum n => sampleNumberToString n
  | VStr s => dquote +:+ s +:+ dquote
  | VArr elems => "[" +:+ String.concat "," (map sampleStringify elems) +:+ "]"
  | VObj props =>
      "{" +:+ String.concat ","
                (map (fun kv => dquote +:+ fst kv +:+ dquote +:+ ":" +:+ sampleStringify (snd kv))
                     props) +:+ "}"
  end.

Definition sampleBuiltins : Builtins :=
  {| JSON_stringify := sampleStringify;
     Number_ := fun v => v;
     Number_toString := sampleNumberToString |}.

(** The assistant message [a] ends with a tool-use block and the user
    message [u] carries the one tool result that answers it. *)
Definition answersToolUse (a u : ConversationMessage) : Prop :=
  role a = assistant /\ role u = user
  /\ exists id text before toolName input,
       content u = [ToolResult id text]
       /\ content a = (before ++ [ToolUse id toolName input])%list.

(** The follow-up exchange of the specification: user, assistant, user,
    the last one answering the tool use of the assistant message. *)
Definition followUpExchange (msgs : list ConversationMessage) : Prop :=
  roles msgs = [user; assistant; user]
  /\ exists u0 a u, msgs = [u0; a; u] /\ answersToolUse a u.

(** The same pair at the end of a longer list. *)
Definition endsWithAnsweredToolUse (msgs : list ConversationMessage) : Prop :=
  exists earlier a u, msgs = (earlier ++ [a; u])%list /\ answersToolUse a u.

(** A property of every request a program can make, whatever it is
    answered. *)
Fixpoint always {E : Type -> Type} {A : Type} (P : forall X, E X -> Prop)
  (p : Prog E A) : Prop :=
  match p with
  | Ret _ => True
  | Vis e k => P _ e /\ forall x, always P (k x)
  end.

(** A property of the message list of every model invocation. *)
Definition onInvocation (Q : list ConversationMessage -> Prop)
  : forall X, ClientE X -> Prop :=
  fun X e =>
    match e with
    | BedrockSend command => Q (messages (body command))
    | McpCallTool _ _ => True
    end.

(** An environment that plays back prepared answers. *)
Record Script : Type := {
  modelAnswers : list (result (list ContentBlock));
  toolAnswers : list (result value)
}.

Definition scripted : handler ClientE Script :=
  fun X e =>
    match e in ClientE X return Script -> X * Script with
    | BedrockSend _ => fun w =>
        match modelAnswers w with
        | a :: rest => (a, {| modelAnswers := rest; toolAnswers := toolAnswers w |})
        | [] => (throw (mkError "Error" "no answer"), w)
        end
    | McpCallTool _ _ => fun w =>
        match toolAnswers w with
        | a :: rest => (a, {| modelAnswers := modelAnswers w; toolAnswers := rest |})
        | [] => (throw (mkError "Error" "no answer"), w)
        end
    end.

(** A client connected to a server that offers [dynamodb:list_tables]. *)
Definition listTablesTool : Tool :=
  {| name := "dynamodb:list_tables";
     description := "Lists the tables";
     input_schema := VObj [("type", VStr "object")] |}.

Definition sampleClient : EnhancedMCPClient :=
  {| tools := [listTablesTool];
     client_modelId := "anthropic.claude-3-sonnet-20240229-v1:0";
     inferenceProfileId := None;
     conversationHistory := [];
     sanitizedToOriginalToolName := buildNameMapping [listTablesTool] |}.

(** A turn in which the model says a word, asks for the list of tables,
    and the backend call rejects. *)
Definition failingScript : Script :=
  {| modelAnswers :=
       [ok [Text "Let me check the tables.";
            ToolUse "tu_1" "dynamodb_list_tables" (VObj [])]];
     toolAnswers := [throw (mkError "Error" "connection lost")] |}.

(** A turn in which the call succeeds and the model comments the result. *)
Definition listingResult : value :=
  VArr [VObj [("type", VStr "text");
              ("text", VStr ("{" +:+ dquote +:+ "success" +:+ dquote +:+ ":true}"))]].

Definition listingScript : Script :=
  {| modelAnswers :=
       [ok [ToolUse "tu_1" "dynamodb_list_tables" (VObj [])];
        ok [Text "You have two tables."]];
     toolAnswers := [ok listingResult] |}.

(** A response that asks for two tools. *)
Definition twoToolsScript : Script :=
  {| modelAnswers :=
       [ok [ToolUse "tu_1" "dynamodb_list_tables" (VObj []);
            ToolUse "tu_2" "dynamodb_list_tables" (VObj [])];
        ok [Text "You have two tables."];
        ok [Text "Still two tables."]];
     toolAnswers := [ok listingResult; ok listingResult] |}.

(** A DynamoDB endpoint that plays back prepared answers, and utilities
    that leave a value as it is. *)
Definition dynamoScripted : handler Server.DynamoE (list (result value)) :=
  fun X e =>
    match e in Server.DynamoE X return list (result value) -> X * list (result value) with
    | Server.Send _ => fun w =>
        match w with
        | a :: rest => (a, rest)
        | [] => (throw (mkError "Error" "no answer"), w)
        end
    end.

Definition sampleUtil : Server.DynamoUtil :=
  {| Server.marshall := fun v => ok v; Server.unmarshall := fun v => ok v |}.

(** A point query on the sort key alone, and the rejections it meets. *)
Definition ageParams : value :=
  VObj [("tableName", VStr "Users");
        ("keyConditionExpression", VStr "#age > :a");
        ("expressionAttributeNames", VObj [("#age", VStr "Age")]);
        ("expressionAttributeValues", VObj [(":a", VNum (Decimal false 30 0))]);
        ("limit", VNum (Decimal false 10 0))].

Definition missedKey : Error :=
  mkError "ValidationException" "Query condition missed key schema element: Name".

Definition throttled : Error :=
  mkError "ProvisionedThroughputExceededException" "Rate exceeded".


(** The example of the specification's query rewrite, and a listing result
    as the server serialises it. *)
Definition ageQuery : list (string * value) :=
  [("tableName", VStr "Users");
   ("keyConditionExpression", VStr "Age > :a");
   ("expressionAttributeValues", VObj [(":a", VNum (Decimal false 30 0))]);
   ("limit", VNum (Decimal false 10 0));
   ("scanIndexForward", VBool true)].

Definition tablesListed : string :=
  "{" +:+ dquote +:+ "success" +:+ dquote +:+ ":true," +:+ dquote +:+ "tables"
  +:+ dquote +:+ ":[" +:+ dquote +:+ "T1" +:+ dquote +:+ "," +:+ dquote +:+ "T2"
  +:+ dquote +:+ "]," +:+ dquote +:+ "tableCount" +:+ dquote +:+ ":2}".

Definition tablesListedValue : value :=
  VObj [("success", VBool true);
        ("tables", VArr [VStr "T1"; VStr "T2"]);
        ("tableCount", VNum (Decimal false 2 0))].

(** The client of the build after a first turn that used a tool. *)
Definition afterFirstTurn : EnhancedMCPClient :=
  snd (outcome scripted (@Build.processQuery sampleBuiltins sampleClient "list all tables")
         listingScript).

(** The requests of the handlers that start a turn. *)
Definition startsTurn : forall X, EndpointE X -> Prop :=
  fun X e =>
    match e with
    | ProcessQuery _ => True
    | ResetConversationHistory => False
    end.

Definition hasError (body : value) : Prop :=
  exists text, getPropOpt body "error" = VStr text.

Definition queryOf (reqBody : list (string * value)) : value :=
  default VUndefined (assoc "query" reqBody).



(** The last tool of the catalog that sanitizes to [safeName]. *)
Definition lastRegistered (safeName : string) (ts : list Tool) : option Tool :=
  find (fun tool => (sanitizeToolName (name tool) =? safeName)%string) (rev ts).

(** A client object whose [processQuery] always rejects. *)
Definition rejecting : handler EndpointE unit :=
  fun X e =>
    match e in EndpointE X return unit -> X * unit with
    | ResetConversationHistory => fun w => (tt, w)
    | ProcessQuery _ => fun w => (throw (mkError "Error" "unavailable"), w)
    end.

(** An MCP module whose [mcpProcessQuery] resolves, and a clock. *)
Definition resolving : handler Endpoint.EndpointE unit :=
  fun X e =>
    match e in Endpoint.EndpointE X return unit -> X * unit with
    | Endpoint.McpProcessQuery _ _ => fun w => (ok "No tables found.", w)
    | Endpoint.Now => fun w => ("2025-01-01T00:00:00.000Z", w)
    end.

End Vocabulary.

(* ===================================================================== *)
(** * What a run shows of a turn                                          *)
(* ===================================================================== *)

Module Observations.
Import Js Json Effects Client Vocabulary.

(** The rejection that an event records for a model invocation. *)
Definition rejectedInvocation (ev : event ClientE) : option Error :=
  match ev with
  | Event e x =>
      match e in ClientE X return X -> option Error with
      | BedrockSend _ => fun answer =>
          match answer with
          | inl error => Some error
          | inr _ => None
          end
      | McpCallTool _ _ => fun _ => None
      end x
  end.

(** The tool calls of a trace, in order: the name called and the arguments. *)
Definition toolCalls (t : list (event ClientE)) : list (ToolName * value) :=
  omap (fun ev => match ev_request ev with
                  | McpCallTool toolName arguments => Some (toolName, arguments)
                  | BedrockSend _ => None
                  end) t.

(** The call that a content block of the model's response asks for: the
    optimized arguments under the resolved name. *)
Definition plannedCall (mapping : gmap string string) (b : ContentBlock)
  : option (ToolName * value) :=
  match b with
  | ToolUse _ toolName input =>
      match optimizeQuery toolName input with
      | inr (optimizedName, optimizedArgs) =>
          Some (resolveToolName mapping optimizedName, optimizedArgs)
      | inl _ => None
      end
  | _ => None
  end.



(** The message that opens a turn. *)
Definition userMessageOf (query : string) : ConversationMessage :=
  {| role := user; content := [Text query] |}.


(** A turn in which the tool answers and the follow-up invocation rejects. *)
Definition followUpRejected : Script :=
  {| modelAnswers :=
       [ok [Text "Let me check the tables.";
            ToolUse "tu_1" "dynamodb_list_tables" (VObj [])]];
     toolAnswers := [ok listingResult] |}.

(** A history of the build, during a turn, that starts with the messages
    [base]. *)
Definition extends (base : list ConversationMessage) (history : list Build.HistoryEntry)
  : Prop :=
  exists extra, history = (map Build.Stored base ++ extra)%list.

(** What was typed decides the history the chat loop keeps: [quit] ends
    the loop, [clear] empties the history, [tools] and blank lines change
    nothing, and any other line adds its user message. *)
Fixpoint typedHistory (history : list ConversationMessage) (lines : list string)
  : list ConversationMessage :=
  match lines with
  | [] => history
  | message :: rest =>
      if Lifecycle.lowerIs message "quit" then history
      else if Lifecycle.lowerIs message "clear" then typedHistory [] rest
      else if Lifecycle.lowerIs message "tools" then typedHistory history rest
      else if Lifecycle.blank message then typedHistory history rest
      else typedHistory (history ++ [userMessageOf message])%list rest
  end.

(** The message lists that go with it: one per line that is a query. *)
Fixpoint typedRequests (history : list ConversationMessage) (lines : list string)
  : list (list ConversationMessage) :=
  match lines with
  | [] => []
  | message :: rest =>
      if Lifecycle.lowerIs message "quit" then []
      else if Lifecycle.lowerIs message "clear" then typedRequests [] rest
      else if Lifecycle.lowerIs message "tools" then typedRequests history rest
      else if Lifecycle.blank message then typedRequests history rest
      else (history ++ [userMessageOf message])%list
           :: typedRequests (history ++ [userMessageOf message])%list rest
  end.

(** A server process that accepts the connection and lists one tool. *)
Definition oneToolServer : handler Lifecycle.ConnectE unit :=
  fun X e =>
    match e in Lifecycle.ConnectE X return unit -> X * unit with
    | Lifecycle.McpConnect _ _ => fun w => (ok tt, w)
    | Lifecycle.McpListTools => fun w =>
        (ok [{| Lifecycle.listed_name := "dynamodb:list_tables";
                Lifecycle.listed_description := None;
                Lifecycle.inputSchema := VObj [("type", VStr "object")] |}], w)
    end.

(** A server process that cannot be started. *)
Definition noServer : handler Lifecycle.ConnectE unit :=
  fun X e =>
    match e in Lifecycle.ConnectE X return unit -> X * unit with
    | Lifecycle.McpConnect _ _ => fun w => (throw (mkError "Error" "spawn ENOENT"), w)
    | Lifecycle.McpListTools => fun w => (throw (mkError "Error" "Not connected"), w)
    end.

Definition linuxNode : Lifecycle.Process :=
  {| Lifecycle.platform := "linux"; Lifecycle.execPath := "/usr/bin/node" |}.

(** ** The server's expression helpers *)

(** The text in which [cleanExpressionAttributeNames] looks for the
    names. *)
Definition combinedExpression (expressions : list value) : string :=
  String.concat " "
    (omap (fun e => match e with VStr s => Some s | _ => None end) expressions).

(** An answer of the server's operations: an object that says whether the
    operation succeeded, and that holds no items when it did not. *)
Definition answersWithFlag (v : value) : Prop :=
  exists props,
    v = VObj props
    /\ (assoc "success" props = Some (VBool true)
        \/ (assoc "success" props = Some (VBool false)
            /\ assoc "items" props = Some (VArr []))).

(** ** The server's other operations *)

(** Built-ins for the closed examples. *)
Definition sampleMoreBuiltins : ServerTools.MoreBuiltins :=
  {| ServerTools.Math_max1 := fun v => v;
     ServerTools.JSON_stringify_compact := sampleStringify;
     ServerTools.lessThan := fun _ _ => false;
     ServerTools.greaterThan := fun _ _ => false |}.

(** A backend that plays back prepared answers. *)
Definition backendScripted : handler ServerTools.DynamoE (list (result value)) :=
  fun X e =>
    match e in ServerTools.DynamoE X return list (result value) -> X * list (result value) with
    | ServerTools.Send _ => fun w =>
        match w with
        | a :: rest => (a, rest)
        | [] => (throw (mkError "Error" "no answer"), w)
        end
    end.

(** The commands of a trace of the server, in order. *)
Definition commands (t : list (event ServerTools.DynamoE)) : list ServerTools.Command :=
  map (fun ev => match ev_request ev with ServerTools.Send command => command end) t.

(** The backend as [queryTable] and [scanTable] see it. *)
Definition lower {W} (h : handler ServerTools.DynamoE W) : handler Server.DynamoE W :=
  fun X e =>
    match e in Server.DynamoE X return W -> X * W with
    | Server.Send command => h _ (ServerTools.Send (ServerTools.ReadCommand command))
    end.

(** An answer of any operation of the server: an object with a boolean
    [success]. *)
Definition flagged (v : value) : Prop :=
  exists props b, v = VObj props /\ assoc "success" props = Some (VBool b).

(** A client whose catalog lists the tools of the server, in any order of
    the fields that the mapping does not read. *)
Definition connectedToServer (c : EnhancedMCPClient) : Prop :=
  map name (tools c) = ServerTools.ALL_TOOLS
  /\ sanitizedToOriginalToolName c = buildNameMapping (tools c).

(** The catalog of the server with nothing but the names, and a client
    connected to it. *)
Definition serverCatalog : list Tool :=
  map (fun toolName => {| name := toolName;
                          description := EmptyString;
                          input_schema := VObj [("type", VStr "object")] |})
    ServerTools.ALL_TOOLS.

Definition serverClient : EnhancedMCPClient :=
  {| tools := serverCatalog;
     client_modelId := "anthropic.claude-3-sonnet-20240229-v1:0";
     inferenceProfileId := None;
     conversationHistory := [];
     sanitizedToOriginalToolName := buildNameMapping serverCatalog |}.

(** The description of a table whose partition key [Name] is a string and
    whose sort key [Age] is a number. *)
Definition usersSchema : value :=
  VObj [("TableName", VStr "Users");
        ("KeySchema",
         VArr [VObj [("AttributeName", VStr "Name"); ("KeyType", VStr "HASH")];
               VObj [("AttributeName", VStr "Age"); ("KeyType", VStr "RANGE")]]);
        ("AttributeDefinitions",
         VArr [VObj [("AttributeName", VStr "Name"); ("AttributeType", VStr "S")];
               VObj [("AttributeName", VStr "Age"); ("AttributeType", VStr "N")]])].

(** ** [main] *)

(** What a run of [main] started, without the answers. *)
Inductive Step : Type :=
| Endpoint (serverScriptPath inferenceProfileId : string)
| Connection (inferenceProfileId serverScriptPath : string)
| Chat
| CleanedUp
| Exited (code : Z).

Definition stepOf (ev : event Lifecycle.MainE) : Step :=
  match ev_request ev with
  | Lifecycle.StartEndpoint serverScriptPath inferenceProfileId =>
      Endpoint serverScriptPath inferenceProfileId
  | Lifecycle.NewClientConnect inferenceProfileId serverScriptPath =>
      Connection inferenceProfileId serverScriptPath
  | Lifecycle.ChatLoop => Chat
  | Lifecycle.Cleanup => CleanedUp
  | Lifecycle.Exit code => Exited code
  end.

Definition steps (t : list (event Lifecycle.MainE)) : list Step := map stepOf t.

(** An environment in which the connection fails. *)
Definition connectionFails : handler Lifecycle.MainE unit :=
  fun X e =>
    match e in Lifecycle.MainE X return unit -> X * unit with
    | Lifecycle.StartEndpoint _ _ => fun w => (throw (mkError "Error" "spawn ENOENT"), w)
    | Lifecycle.NewClientConnect _ _ => fun w => (throw (mkError "Error" "spawn ENOENT"), w)
    | Lifecycle.ChatLoop => fun w => (ok tt, w)
    | Lifecycle.Cleanup => fun w => (tt, w)
    | Lifecycle.Exit _ => fun w => (tt, w)
    end.

(** An import of the client module that succeeds, with an initialisation
    that is rejected. *)
Definition initFails : handler EndpointStart.StartE unit :=
  fun X e =>
    match e in EndpointStart.StartE X return unit -> X * unit with
    | EndpointStart.ImportModule => fun w => (ok tt, w)
    | EndpointStart.InitMCPClient _ _ => fun w =>
        (throw (mkError "Error" "Server script must be a .js or .py file"), w)
    end.

End Observations.

(* ===================================================================== *)
(** * Proof steps                                                         *)
(* ===================================================================== *)

Module Steps.
Import Js Effects.

(** Case on the answer that the environment [h] gives in state [w] to the
    request the goal is about. *)
Ltac answered h w :=
  match goal with
  | |- context [h ?X ?e w] =>
      let w' := fresh "w" in destruct (h X e w) as [[? | ?] w']
  end.

(** One step through a sequence of throwing computations that is known to
    have succeeded. *)
Ltac succeeded H :=
  unfold ok in H;
  match type of H with
  | rbind ?r _ = inr _ =>
      let E := fresh "E" in
      destruct r eqn:E; [discriminate H | cbn [rbind] in H]
  end.

Tactic Notation "passed" hyp(H) "as" ident(x) ident(E) :=
  unfold ok in H;
  match type of H with
  | rbind ?r _ = inr _ =>
      destruct r as [? | x] eqn:E; [discriminate H | cbn [rbind] in H]
  end.

(** An answer built after a sequence of property reads is the object
    literal that ends the sequence. *)
Ltac built H :=
  repeat succeeded H;
  unfold ok in H; injection H as <-; eexists _, _; split; reflexivity.

End Steps.

(* ===================================================================== *)
(** * Facts about [includes] and [join]                                   *)
(* ===================================================================== *)

Module StringFacts.
Import Js.







End StringFacts.

(* ===================================================================== *)
(** * Properties: the name translator                                     *)
(* ===================================================================== *)

Module NameTranslator.
Import Js Json Effects Client Vocabulary Observations.

Lemma is_safe_char_alphabet (c : ascii) : is_safe_char c = inSafeAlphabet c.
Proof. destruct c as [[] [] [] [] [] [] [] []]; reflexivity. Qed.

Lemma safe_char_below_128 (c : ascii) :
  inSafeAlphabet c = true -> (N_of_ascii c <? 128)%N = true.
Proof.
  destruct c as [[] [] [] [] [] [] [] []]; intros Hc; try reflexivity;
    discriminate Hc.
Qed.

Lemma sanitized_char_safe (c : ascii) :
  inSafeAlphabet (if is_safe_char c then c else "_"%char) = true.
Proof.
  destruct (is_safe_char c) eqn:E; [| reflexivity].
  now rewrite <- is_safe_char_alphabet.
Qed.

(** One character for each unit: a unit of the class is kept, any other
    becomes an underscore. *)
Lemma sanitize_units (n : string) :
  list_ascii_of_string (sanitizeToolName n)
  = map (fun unit => match unit with
                     | Some c => if inSafeAlphabet c then c else "_"%char
                     | None => "_"%char
                     end) (utf16_units n).
Proof.
  induction n as [| c n IH]; [reflexivity |].
  cbn [sanitizeToolName utf16_units].
  destruct (N_of_ascii c <? 128)%N.
  - cbn [list_ascii_of_string map]. now rewrite IH, is_safe_char_alphabet.
  - destruct (N_of_ascii c <? 192)%N; [exact IH |].
    destruct (N_of_ascii c <? 240)%N; cbn [list_ascii_of_string map]; now rewrite IH.
Qed.

(** The units counted here are those of [length] on the server's side. *)
Lemma units_length (n : string) :
  length (utf16_units n) = ServerTools.utf16_length n.
Proof.
  induction n as [| c n IH]; [reflexivity |].
  cbn [utf16_units ServerTools.utf16_length].
  destruct (N_of_ascii c <? 128)%N; [cbn [length]; now rewrite IH |].
  destruct (N_of_ascii c <? 192)%N; [exact IH |].
  destruct (N_of_ascii c <? 240)%N; cbn [length]; now rewrite IH.
Qed.

Lemma sanitize_is_safe (n : string) : isSafeName (sanitizeToolName n) = true.
Proof.
  induction n as [| c n IH]; [reflexivity |].
  cbn [sanitizeToolName].
  destruct (N_of_ascii c <? 128)%N.
  - cbn [isSafeName]. now rewrite sanitized_char_safe, IH.
  - destruct (N_of_ascii c <? 192)%N; [exact IH |].
    destruct (N_of_ascii c <? 240)%N; cbn [isSafeName]; now rewrite IH.
Qed.

Lemma sanitize_safe_id (n : string) : isSafeName n = true -> sanitizeToolName n = n.
Proof.
  induction n as [| c n IH]; [reflexivity |].
  cbn [isSafeName sanitizeToolName].
  intros Hs. apply andb_true_iff in Hs as [Hc Hn].
  rewrite (safe_char_below_128 c Hc), is_safe_char_alphabet, Hc.
  now rewrite IH.
Qed.

(** C8.  [sanitizeToolName] gives one character for each UTF-16 unit of the
    name: a unit that is one of the characters
    [abcdefghijklmnopqrstuvwxyzABCDEFGHIJKLMNOPQRSTUVWXYZ0123456789_-] is
    kept, every other unit becomes an underscore; it is idempotent; and it
    leaves a name made of characters of the class unchanged. *)
Theorem sanitizeToolName_idempotent : forall n : string,
  list_ascii_of_string (sanitizeToolName n)
  = map (fun unit => match unit with
                     | Some c => if inSafeAlphabet c then c else "_"%char
                     | None => "_"%char
                     end) (utf16_units n)
  /\ sanitizeToolName (sanitizeToolName n) = sanitizeToolName n
  /\ (isSafeName n = true -> sanitizeToolName n = n).
Proof.
  intros n. split; [| split].
  - apply sanitize_units.
  - apply sanitize_safe_id, sanitize_is_safe.
  - apply sanitize_safe_id.
Qed.

Lemma sanitizeToolName_idempotent_witness :
  isSafeName "list_tables" = true
  /\ sanitizeToolName "list_tables" = "list_tables"
  /\ sanitizeToolName (sanitizeToolName "dynamodb:list_tables")
     = sanitizeToolName "dynamodb:list_tables".
Proof.
  split; [reflexivity |]. split.
  - apply (proj2 (proj2 (sanitizeToolName_idempotent "list_tables"))). reflexivity.
  - apply (proj1 (proj2 (sanitizeToolName_idempotent "dynamodb:list_tables"))).
Defined.

Example sanitize_server_name :
  sanitizeToolName "dynamodb:query_table" = "dynamodb_query_table".
Proof. reflexivity. Qed.

(** Outside ASCII the underscores count units, not bytes: the two bytes of
    an accented letter give one, the three bytes of the euro sign give one,
    and the four bytes of a character beyond the basic plane give two. *)
Example sanitize_counts_units :
  let text (bytes : list nat) := string_of_list_ascii (map ascii_of_nat bytes) in
  sanitizeToolName (text [99; 97; 102; 195; 169]%nat) = "caf_"
  /\ sanitizeToolName (text [226; 130; 172; 49]%nat) = "_1"
  /\ sanitizeToolName (text [240; 159; 152; 128; 45; 120]%nat) = "__-x".
Proof. repeat split. Qed.

Lemma resolve_missing (mapping : gmap string string) (safeName : string) :
  isSafeName safeName = true ->
  mapping !! safeName = None ->
  resolveToolName mapping safeName
  = if isPrototypeMember safeName then Inherited safeName else Named safeName.
Proof.
  intros Hsafe Hnone. unfold resolveToolName. cbv zeta.
  now rewrite (sanitize_safe_id _ Hsafe), Hnone.
Qed.

Lemma isPrototypeMember_names (key : string) :
  isPrototypeMember key = true <-> In key objectPrototypeNames.
Proof.
  unfold isPrototypeMember. rewrite existsb_exists. split.
  - intros [member [Hin Heq]]. apply String.eqb_eq in Heq as <-.
    cbn in Hin |- *. intuition.
  - intros Hin. exists key. split; [| apply String.eqb_refl].
    cbn in Hin |- *. intuition.
Qed.

(** C5.  A safe name that the mapping does not hold resolves to itself
    unless it is the name of a member of [Object.prototype]: then the
    look-up in the plain object reaches that member and [||] keeps it, so
    what is passed on as the tool's name is the member, not the name.  So it
    is for [constructor] on a client connected to a server whose one tool
    is [dynamodb:list_tables]: a turn in which the model names that tool
    calls [mcp.callTool] with the inherited function as the name. *)
Theorem resolve_unregistered_name :
  (forall (mapping : gmap string string) (safeName : string),
     isSafeName safeName = true ->
     mapping !! safeName = None ->
     (~ In safeName objectPrototypeNames ->
      resolveToolName mapping safeName = Named safeName)
     /\ (In safeName objectPrototypeNames ->
         resolveToolName mapping safeName = Inherited safeName))
  /\ isSafeName "constructor" = true
  /\ buildNameMapping [listTablesTool] !! "constructor" = None
  /\ resolveToolName (buildNameMapping [listTablesTool]) "constructor"
     = Inherited "constructor"
  /\ resolveToolName (buildNameMapping [listTablesTool]) "constructor"
     <> Named "constructor"
  /\ toolCalls
       (trace scripted
          (@processQuery sampleBuiltins sampleClient "list all tables" true)
          {| modelAnswers := [ok [ToolUse "tu_1" "constructor" (VObj [])];
                              ok [Text "You have two tables."]];
             toolAnswers := [ok listingResult] |})
     = [(Inherited "constructor", VObj [])].
Proof.
  split.
  - intros mapping safeName Hsafe Hnone.
    rewrite (resolve_missing _ _ Hsafe Hnone).
    destruct (isPrototypeMember safeName) eqn:Hmember.
    + apply isPrototypeMember_names in Hmember. split; [contradiction | reflexivity].
    + split; [reflexivity |]. intros Hin.
      apply isPrototypeMember_names in Hin. congruence.
  - split; [reflexivity |]. split; [reflexivity |]. split; [reflexivity |].
    split; [discriminate | reflexivity].
Qed.

(** A registered name resolves to the original the catalog gave. *)
Lemma resolve_registered (mapping : gmap string string) (n original : string) :
  mapping !! sanitizeToolName n = Some original ->
  original <> EmptyString ->
  resolveToolName mapping n = Named original.
Proof.
  intros Hm Hne. unfold resolveToolName. cbv zeta. rewrite Hm.
  destruct (String.eqb_spec original ""); [contradiction | reflexivity].
Qed.

(** When the optimized name is not itself safe and its sanitized form is
    not registered, the name that reaches the backend is the optimized name,
    not its sanitized form. *)
Example resolve_unregistered_unsafe :
  resolveToolName ∅ "dynamodb:scan_table" = Named "dynamodb:scan_table"
  /\ sanitizeToolName "dynamodb:scan_table" = "dynamodb_scan_table".
Proof. split; reflexivity. Qed.

Lemma find_snoc {A} (p : A -> bool) (l : list A) (x : A) :
  find p (l ++ [x])
  = match find p l with
    | Some y => Some y
    | None => if p x then Some x else None
    end.
Proof.
  induction l as [| a l IH]; cbn; [reflexivity |].
  destruct (p a); [reflexivity | exact IH].
Qed.

Lemma fold_register_lookup (ts : list Tool) (k : string) :
  k <> "__proto__" ->
  forall m : gmap string string,
    fold_left (fun m tool => register m (sanitizeToolName (name tool)) (name tool)) ts m !! k
    = match lastRegistered k ts with
      | Some tool => Some (name tool)
      | None => m !! k
      end.
Proof.
  intros Hk. unfold lastRegistered.
  induction ts as [| t ts IH]; intros m; [reflexivity |].
  cbn [fold_left rev]. rewrite IH, find_snoc.
  destruct (find _ (rev ts)) as [found |]; [reflexivity |].
  unfold register.
  destruct (String.eqb_spec (sanitizeToolName (name t)) k) as [<- | Hne].
  - destruct (String.eqb_spec (sanitizeToolName (name t)) "__proto__");
      [contradiction | apply lookup_insert_eq].
  - destruct (String.eqb_spec (sanitizeToolName (name t)) "__proto__");
      [reflexivity | now apply lookup_insert_ne].
Qed.

(** Nothing is ever registered under [__proto__]. *)
Lemma fold_register_proto (ts : list Tool) :
  forall m : gmap string string,
    fold_left (fun m tool => register m (sanitizeToolName (name tool)) (name tool)) ts m
      !! "__proto__"
    = m !! "__proto__".
Proof.
  induction ts as [| t ts IH]; intros m; [reflexivity |].
  cbn [fold_left]. rewrite IH. unfold register.
  destruct (String.eqb_spec (sanitizeToolName (name t)) "__proto__") as [Heq | Hne];
    [reflexivity | now apply lookup_insert_ne].
Qed.

(** X2.  The mapping that [connectToServer] builds sends a safe name other
    than [__proto__] to the original name of the last tool of the catalog
    that sanitizes to it, and [resolveToolName] gives that original back for
    the safe name and for the original.  Under [__proto__] the mapping holds
    nothing, whatever the catalog: a name that sanitizes to it resolves to
    the prototype of the mapping, not to a tool. *)
Theorem registered_name_resolves :
  forall ts : list Tool,
    (forall (safeName : string) (tool : Tool),
       lastRegistered safeName ts = Some tool ->
       name tool <> EmptyString ->
       safeName <> "__proto__" ->
       buildNameMapping ts !! safeName = Some (name tool)
       /\ resolveToolName (buildNameMapping ts) safeName = Named (name tool)
       /\ resolveToolName (buildNameMapping ts) (name tool) = Named (name tool))
    /\ buildNameMapping ts !! "__proto__" = None
    /\ (forall n : string,
          sanitizeToolName n = "__proto__" ->
          resolveToolName (buildNameMapping ts) n = Inherited "__proto__").
Proof.
  intros ts. split; [| split].
  - intros safeName tool Hlast Hne Hproto.
    assert (Hsafe : sanitizeToolName (name tool) = safeName).
    { unfold lastRegistered in Hlast. apply find_some in Hlast as [_ Heq].
      now apply String.eqb_eq in Heq. }
    assert (Hlookup : buildNameMapping ts !! safeName = Some (name tool)).
    { unfold buildNameMapping. now rewrite (fold_register_lookup _ _ Hproto), Hlast. }
    split; [exact Hlookup |]. split.
    + apply resolve_registered; [| exact Hne].
      rewrite <- Hsafe at 1. rewrite sanitize_safe_id by apply sanitize_is_safe.
      now rewrite Hsafe.
    + apply resolve_registered; [| exact Hne]. now rewrite Hsafe.
  - unfold buildNameMapping. now rewrite fold_register_proto.
  - intros n Hn. unfold resolveToolName, buildNameMapping. cbv zeta.
    now rewrite Hn, fold_register_proto.
Qed.

Lemma registered_name_resolves_witness :
  resolveToolName (buildNameMapping [listTablesTool]) "dynamodb_list_tables"
  = Named "dynamodb:list_tables".
Proof.
  apply (proj1 (proj2 (proj1 (registered_name_resolves [listTablesTool])
                         "dynamodb_list_tables" listTablesTool eq_refl
                         ltac:(discriminate) ltac:(discriminate)))).
Defined.

(** Two names that sanitize alike: the later one wins. *)
Example register_collision :
  resolveToolName
    (buildNameMapping
       [{| name := "a:b"; description := EmptyString; input_schema := VNull |};
        {| name := "a.b"; description := EmptyString; input_schema := VNull |}])
    "a_b"
  = Named "a.b".
Proof. vm_compute. reflexivity. Qed.

(** A tool the server lists as [__proto__] is offered to the model under
    that name and cannot be called by it. *)
Example register_proto_ignored :
  let catalog := [{| name := "__proto__"; description := EmptyString;
                     input_schema := VNull |}] in
  buildNameMapping catalog = ∅
  /\ resolveToolName (buildNameMapping catalog) "__proto__" = Inherited "__proto__".
Proof. split; reflexivity. Qed.

End NameTranslator.

(* ===================================================================== *)
(** * Properties: the query-shape optimizer                               *)
(* ===================================================================== *)

Module Optimizer.
Import Js Json Effects Client Vocabulary.

Lemma includes_nonempty (s sub : string) :
  includes s sub = true -> sub <> EmptyString -> s <> EmptyString.
Proof.
  intros Hi Hsub ->. destruct sub; [congruence | discriminate Hi].
Qed.

Lemma other_tool_unchanged (toolName : string) (toolArgs : value) :
  toolName <> "dynamodb:query_table" ->
  optimizeQuery toolName toolArgs = ok (toolName, toolArgs).
Proof.
  intros Hne. unfold optimizeQuery.
  destruct (String.eqb_spec toolName "dynamodb:query_table"); [contradiction | reflexivity].
Qed.

Lemma missesPartitionKey_text (kc : string) :
  missesPartitionKey (VStr kc) = ok (lacksPartitionKey kc).
Proof.
  unfold missesPartitionKey, lacksPartitionKey. simpl.
  destruct (includes kc "Age"); simpl; [| reflexivity].
  destruct (includes kc "Name"); reflexivity.
Qed.

Lemma query_rewritten (toolArgs : list (string * value)) (kc : string) :
  assoc "keyConditionExpression" toolArgs = Some (VStr kc) ->
  lacksPartitionKey kc = true ->
  optimizeQuery "dynamodb:query_table" (VObj toolArgs)
  = ok ("dynamodb:scan_table",
        VObj [("tableName", prop toolArgs "tableName");
              ("filterExpression", VStr kc);
              ("expressionAttributeNames", prop toolArgs "expressionAttributeNames");
              ("expressionAttributeValues", prop toolArgs "expressionAttributeValues");
              ("limit", prop toolArgs "limit")]).
Proof.
  intros Hkc Hh. unfold optimizeQuery, prop. cbn [String.eqb Ascii.eqb Bool.eqb getProp rbind ok].
  rewrite Hkc. cbn [from_option id].
  assert (Hne : kc <> EmptyString).
  { unfold lacksPartitionKey in Hh. apply andb_true_iff in Hh as [Hh _].
    apply andb_true_iff in Hh as [Hh _]. eapply includes_nonempty; [exact Hh | discriminate]. }
  assert (Hor : or_else (VStr kc) (VStr EmptyString) = VStr kc).
  { unfold or_else. simpl. destruct (String.eqb_spec kc ""); [contradiction | reflexivity]. }
  rewrite Hor, missesPartitionKey_text, Hh. reflexivity.
Qed.

Lemma query_unchanged (toolArgs : list (string * value)) (kc : string) :
  keyConditionText toolArgs = Some kc ->
  lacksPartitionKey kc = false ->
  optimizeQuery "dynamodb:query_table" (VObj toolArgs)
  = ok ("dynamodb:query_table", VObj toolArgs).
Proof.
  intros Hkc Hh. unfold optimizeQuery. cbn [String.eqb Ascii.eqb Bool.eqb getProp rbind ok].
  unfold keyConditionText in Hkc.
  set (v := default VUndefined (assoc "keyConditionExpression" toolArgs)) in *.
  assert (Hor : or_else v (VStr EmptyString) = VStr kc).
  { unfold or_else. destruct v as [| |b|n|s|l|o]; cbn in Hkc |- *.
    - congruence.
    - congruence.
    - destruct b; cbn in Hkc; congruence.
    - destruct n as [|neg|neg m e]; cbn in Hkc; try congruence.
      destruct (negb (rounds_to_zero m e)); congruence.
    - injection Hkc as ->.
      destruct (String.eqb_spec kc ""); cbn; congruence.
    - discriminate.
    - discriminate. }
  rewrite Hor, missesPartitionKey_text, Hh. reflexivity.
Qed.

(** C3.  On the point-query tool, a key-condition text that contains [Age]
    and neither [Name] nor [#name] is rewritten into a scan whose filter
    expression is that text, with the table name, the attribute names, the
    attribute values and the limit carried over; every other tool name, and
    every point query whose key-condition text does not match, comes back
    unchanged. *)
Theorem optimizeQuery_rewrites_missing_partition_key :
  forall (toolName : string) (toolArgs : list (string * value)),
    (forall kc,
        assoc "keyConditionExpression" toolArgs = Some (VStr kc) ->
        includes kc "Age" = true ->
        includes kc "Name" = false ->
        includes kc "#name" = false ->
        optimizeQuery "dynamodb:query_table" (VObj toolArgs)
        = ok ("dynamodb:scan_table",
              VObj [("tableName", prop toolArgs "tableName");
                    ("filterExpression", VStr kc);
                    ("expressionAttributeNames", prop toolArgs "expressionAttributeNames");
                    ("expressionAttributeValues", prop toolArgs "expressionAttributeValues");
                    ("limit", prop toolArgs "limit")]))
    /\ (toolName <> "dynamodb:query_table" ->
        forall anyArgs : value, optimizeQuery toolName anyArgs = ok (toolName, anyArgs))
    /\ (forall kc,
          keyConditionText toolArgs = Some kc ->
          lacksPartitionKey kc = false ->
          optimizeQuery "dynamodb:query_table" (VObj toolArgs)
          = ok ("dynamodb:query_table", VObj toolArgs)).
Proof.
  intros toolName toolArgs. split; [| split].
  - intros kc Hkc Ha Hn Hal. apply query_rewritten; [exact Hkc |].
    unfold lacksPartitionKey. now rewrite Ha, Hn, Hal.
  - intros Hne anyArgs. now apply other_tool_unchanged.
  - apply query_unchanged.
Qed.

Lemma optimizeQuery_rewrites_witness :
  optimizeQuery "dynamodb:query_table" (VObj ageQuery)
  = ok ("dynamodb:scan_table",
        VObj [("tableName", VStr "Users");
              ("filterExpression", VStr "Age > :a");
              ("expressionAttributeNames", VUndefined);
              ("expressionAttributeValues", VObj [(":a", VNum (Decimal false 30 0))]);
              ("limit", VNum (Decimal false 10 0))]).
Proof.
  exact (proj1 (optimizeQuery_rewrites_missing_partition_key "dynamodb:query_table" ageQuery)
           "Age > :a" eq_refl eq_refl eq_refl eq_refl).
Defined.

Example query_with_partition_key_unchanged :
  let args := VObj [("tableName", VStr "Users");
                    ("keyConditionExpression", VStr "#name = :n AND Age > :a")] in
  optimizeQuery "dynamodb:query_table" args = ok ("dynamodb:query_table", args).
Proof. reflexivity. Qed.

(** Outside the text case the heuristic is a method call on whatever the
    model sent: a number has no [includes], and an array has its own. *)
Example key_condition_number_throws :
  optimizeQuery "dynamodb:query_table"
    (VObj [("keyConditionExpression", VNum (Decimal false 42 0))])
  = throw (TypeError "keyCondition.includes is not a function").
Proof. reflexivity. Qed.

Example key_condition_array_rewritten :
  optimizeQuery "dynamodb:query_table"
    (VObj [("keyConditionExpression", VArr [VStr "Age"])])
  = ok ("dynamodb:scan_table",
        VObj [("tableName", VUndefined);
              ("filterExpression", VArr [VStr "Age"]);
              ("expressionAttributeNames", VUndefined);
              ("expressionAttributeValues", VUndefined);
              ("limit", VUndefined)]).
Proof. reflexivity. Qed.

End Optimizer.

(* ===================================================================== *)
(** * [JSON.parse] on a few texts                                         *)
(* ===================================================================== *)

Module JsonFacts.
Import Js Json Vocabulary.

Example parse_listing : JSON_parse tablesListed = Some tablesListedValue.
Proof. vm_compute. reflexivity. Qed.

Example parse_number_forms :
  JSON_parse "-2.50e3" = Some (VNum (Decimal true 250 1))
  /\ JSON_parse "01" = None
  /\ JSON_parse "1." = None
  /\ JSON_parse "-" = None
  /\ JSON_parse ".5" = None.
Proof. repeat split; vm_compute; reflexivity. Qed.

Example parse_rejects :
  JSON_parse EmptyString = None
  /\ JSON_parse "[1,]" = None
  /\ JSON_parse "[1 2]" = None
  /\ JSON_parse "{}{}" = None
  /\ JSON_parse "nul" = None
  /\ JSON_parse "{a:1}" = None.
Proof. repeat split; vm_compute; reflexivity. Qed.

Example parse_nested :
  JSON_parse (" { " +:+ dquote +:+ "a" +:+ dquote +:+ " : [ true , null , { } ] } ")
  = Some (VObj [("a", VArr [VBool true; VNull; VObj []])]).
Proof. vm_compute. reflexivity. Qed.

Example parse_escape :
  JSON_parse (dquote +:+ "a\n\u0041" +:+ dquote) = Some (VStr ("a" +:+ newline +:+ "A")).
Proof. vm_compute. reflexivity. Qed.

(** Zero, in whatever form, is falsy; a number that rounds to a nonzero
    double is truthy. *)
Example zero_forms :
  truthy <$> JSON_parse "-0.0e5" = Some false
  /\ truthy <$> JSON_parse "1e-400" = Some false
  /\ truthy <$> JSON_parse "1e-320" = Some true.
Proof. repeat split; vm_compute; reflexivity. Qed.

End JsonFacts.

(* ===================================================================== *)
(** * Properties: decoding a tool result                                  *)
(* ===================================================================== *)

Module Decoder.
Import Js Json Effects Client Vocabulary.

(** The two shapes that carry a text. *)
Lemma resultPayloadText_shapes (resultContent : value) (raw : string) :
  resultPayloadText resultContent = Some raw <->
  (resultContent = VStr raw
   \/ exists first rest,
        resultContent = VArr (first :: rest) /\ getPropOpt first "text" = VStr raw).
Proof.
  split.
  - destruct resultContent as [| |b|n|s|l|o]; simpl; try discriminate.
    + intros [= ->]. now left.
    + destruct l as [|first rest]; [discriminate |].
      destruct (getPropOpt first "text") eqn:E; try discriminate.
      intros [= ->]. right. now exists first, rest.
  - intros [-> | (first & rest & -> & Ht)]; simpl; [reflexivity | now rewrite Ht].
Qed.

Lemma parseToolResult_parsed (resultContent : value) (raw : string) (v : value) :
  resultPayloadText resultContent = Some raw ->
  JSON_parse raw = Some v ->
  parseToolResult resultContent = v.
Proof. intros Ht Hp. unfold parseToolResult. now rewrite Ht, Hp. Qed.

Lemma parseToolResult_failed (resultContent : value) (raw : string) :
  resultPayloadText resultContent = Some raw ->
  JSON_parse raw = None ->
  parseToolResult resultContent = VNull.
Proof. intros Ht Hp. unfold parseToolResult. now rewrite Ht, Hp. Qed.

Lemma parseToolResult_no_text (resultContent : value) :
  resultPayloadText resultContent = None ->
  parseToolResult resultContent = VNull.
Proof. intros Ht. unfold parseToolResult. now rewrite Ht. Qed.

(** C2, as the code has it.  Decoding is a total function of the result's
    content.  When the content is a string, or an array whose first member
    has a string [text], that text is parsed as JSON: a parse to a truthy
    value makes that value the structured result and its pretty-printed
    serialisation the display text; a failed parse leaves the structured
    result absent ([null]) and the display text empty. *)
Theorem decode_parses_result_text :
  forall (B : Builtins) (resultContent : value) (raw : string),
    (resultContent = VStr raw
     \/ exists first rest,
          resultContent = VArr (first :: rest) /\ getPropOpt first "text" = VStr raw) ->
    (forall v, JSON_parse raw = Some v -> truthy v = true ->
       parseToolResult resultContent = v
       /\ resultTextOf (parseToolResult resultContent) = JSON_stringify v)
    /\ (JSON_parse raw = None ->
        parseToolResult resultContent = VNull
        /\ resultTextOf (parseToolResult resultContent) = EmptyString).
Proof.
  intros B resultContent raw Hshape.
  apply resultPayloadText_shapes in Hshape. split.
  - intros v Hp Ht. rewrite (parseToolResult_parsed _ _ _ Hshape Hp).
    split; [reflexivity |]. unfold resultTextOf. now rewrite Ht.
  - intros Hp. rewrite (parseToolResult_failed _ _ Hshape Hp). split; reflexivity.
Qed.

Lemma decode_parses_result_text_witness :
  JSON_parse tablesListed = Some tablesListedValue
  /\ parseToolResult (VArr [VObj [("type", VStr "text"); ("text", VStr tablesListed)]])
     = tablesListedValue
  /\ @resultTextOf sampleBuiltins
       (parseToolResult (VArr [VObj [("type", VStr "text"); ("text", VStr tablesListed)]]))
     = @JSON_stringify sampleBuiltins tablesListedValue.
Proof.
  split; [vm_compute; reflexivity |].
  apply (proj1 (decode_parses_result_text sampleBuiltins
                  (VArr [VObj [("type", VStr "text"); ("text", VStr tablesListed)]])
                  tablesListed
                  (or_intror (ex_intro _ _ (ex_intro _ [] (conj eq_refl eq_refl)))))
               tablesListedValue).
  - vm_compute; reflexivity.
  - reflexivity.
Defined.

(** C2 as the specification words it fails on a text that is not JSON: the
    display text is empty, not the raw text. *)
Lemma decode_raw_text_not_kept :
  JSON_parse "Tables listed successfully" = None
  /\ @resultTextOf sampleBuiltins (parseToolResult (VStr "Tables listed successfully"))
     = EmptyString
  /\ @resultTextOf sampleBuiltins (parseToolResult (VStr "Tables listed successfully"))
     <> "Tables listed successfully".
Proof.
  split; [vm_compute; reflexivity |]. split; [reflexivity | discriminate].
Qed.

(** The step of the chat loop on a tool-use block, once the call has
    answered with [resultContent]. *)
Lemma statefulLoop_tool_step (B : Builtins) (c : EnhancedMCPClient)
  (id toolName : string) (input : value) (rest : list ContentBlock)
  (finalText : list string) (assistantContent : list ContentBlock)
  (optimizedName : string) (optimizedArgs : value) :
  optimizeQuery toolName input = ok (optimizedName, optimizedArgs) ->
  exists k,
    statefulLoop c (ToolUse id toolName input :: rest) finalText assistantContent
    = Vis (McpCallTool (resolveToolName (sanitizedToOriginalToolName c) optimizedName)
             optimizedArgs) k
    /\ (forall err,
          k (inl err)
          = statefulLoop c rest
              (finalText ++ [toolFailureMessage (sanitizeToolName optimizedName) err])%list
              assistantContent)
    /\ (forall resultContent,
          k (inr resultContent)
          = let assistantContent' :=
              (assistantContent
                 ++ [ToolUse id (sanitizeToolName optimizedName) optimizedArgs])%list in
            if truthy (parseToolResult resultContent)
            then statefulLoop c rest
                   (finalText ++ [resultTextOf (parseToolResult resultContent)])%list
                   assistantContent'
            else statefulLoop c rest finalText assistantContent').
Proof.
  intros Ho. cbn [statefulLoop]. unfold ok in Ho. rewrite Ho.
  eexists. split; [reflexivity |]. split; intros; reflexivity.
Qed.

(** C10.  A result text that parses to a falsy value (as the texts [null],
    [false], [0] and the empty string literal do) is handled as a failed
    parse is: the structured result counts as absent, the display text is
    empty, and the chat loop goes on to the next block without appending
    anything to [finalText]. *)
Theorem falsy_result_is_dropped :
  forall (B : Builtins) (resultContent : value) (raw : string) (v : value),
    resultPayloadText resultContent = Some raw ->
    JSON_parse raw = Some v ->
    truthy v = false ->
    (truthy (parseToolResult resultContent) = false
     /\ resultTextOf (parseToolResult resultContent) = EmptyString
     /\ resultTextOf (parseToolResult resultContent)
        = resultTextOf (parseToolResult (VStr "not JSON")))
    /\ (forall c id toolName input rest finalText assistantContent optimizedName optimizedArgs,
          optimizeQuery toolName input = ok (optimizedName, optimizedArgs) ->
          exists k,
            statefulLoop c (ToolUse id toolName input :: rest) finalText assistantContent
            = Vis (McpCallTool
                     (resolveToolName (sanitizedToOriginalToolName c) optimizedName)
                     optimizedArgs) k
            /\ k (inr resultContent)
               = statefulLoop c rest finalText
                   (assistantContent
                      ++ [ToolUse id (sanitizeToolName optimizedName) optimizedArgs])%list)
    /\ Forall (fun text => exists falsy, JSON_parse text = Some falsy /\ truthy falsy = false)
         ["null"; "false"; "0"; dquote +:+ dquote].
Proof.
  intros B resultContent raw v Ht Hp Hf.
  pose proof (parseToolResult_parsed _ _ _ Ht Hp) as Hv.
  split; [| split].
  - rewrite Hv. unfold resultTextOf. rewrite Hf. repeat split; reflexivity.
  - intros c id toolName input rest finalText assistantContent optimizedName optimizedArgs Ho.
    destruct (statefulLoop_tool_step B c id toolName input rest finalText assistantContent
                optimizedName optimizedArgs Ho) as (k & Hk & _ & Hok).
    exists k. split; [exact Hk |]. rewrite Hok, Hv, Hf. reflexivity.
  - repeat constructor; eexists; (split; [vm_compute; reflexivity | reflexivity]).
Qed.

Lemma falsy_result_is_dropped_witness :
  @resultTextOf sampleBuiltins (parseToolResult (VStr "null")) = EmptyString.
Proof.
  exact (proj1 (proj2 (proj1 (falsy_result_is_dropped sampleBuiltins (VStr "null") "null" VNull
                                eq_refl eq_refl eq_refl)))).
Defined.

End Decoder.

(* ===================================================================== *)
(** * Facts about programs and their runs                                 *)
(* ===================================================================== *)

Module EffectFacts.
Import Js Json Effects Client Vocabulary.

Lemma run_bind {E W A B} (h : handler E W) (p : Prog E A) (f : A -> Prog E B) :
  forall w,
    run h (bind p f) w
    = let '(a, w1, t1) := run h p w in
      let '(b, w2, t2) := run h (f a) w1 in
      (b, w2, (t1 ++ t2)%list).
Proof.
  induction p as [a | X e k IH]; intros w; simpl.
  - destruct (run h (f a) w) as [[b w2] t2]. reflexivity.
  - destruct (h X e w) as [x w1]. rewrite IH.
    destruct (run h (k x) w1) as [[a w2] t1].
    destruct (run h (f a) w2) as [[b w3] t2]. reflexivity.
Qed.

Lemma run_fmap {E W A B} (h : handler E W) (p : Prog E A) (f : A -> B) (w : W) :
  run h (fmap_prog f p) w
  = let '(a, w1, t1) := run h p w in (f a, w1, t1).
Proof.
  unfold fmap_prog. rewrite run_bind.
  destruct (run h p w) as [[a w1] t1]. simpl. now rewrite app_nil_r.
Qed.

Lemma always_bind {E A B} (P : forall X, E X -> Prop) (p : Prog E A) (f : A -> Prog E B) :
  always P p -> (forall a, always P (f a)) -> always P (bind p f).
Proof.
  induction p as [a | X e k IH]; simpl; intros Hp Hf.
  - apply Hf.
  - destruct Hp as [He Hk]. split; [exact He |]. intros x. apply IH; [apply Hk | exact Hf].
Qed.

Lemma always_impl {E A} (P Q : forall X, E X -> Prop) (p : Prog E A) :
  (forall X e, P X e -> Q X e) -> always P p -> always Q p.
Proof.
  intros HPQ. induction p as [a | X e k IH]; simpl; [trivial |].
  intros [He Hk]. split; [now apply HPQ |]. intros x. apply IH, Hk.
Qed.

(** What holds of every request a program can make holds of every request
    of each of its runs. *)
Lemma always_trace {E W A} (P : forall X, E X -> Prop) (h : handler E W) (p : Prog E A) :
  always P p ->
  forall w, Forall (fun ev => P _ (ev_request ev)) (trace h p w).
Proof.
  unfold trace. induction p as [a | X e k IH]; simpl; intros Hp w.
  - constructor.
  - destruct Hp as [He Hk]. destruct (h X e w) as [x w1].
    specialize (IH x (Hk x) w1).
    destruct (run h (k x) w1) as [[a w2] t]. simpl in *.
    constructor; assumption.
Qed.

Lemma submitted_cons_send (command : InvokeModelCommand)
  (answer : result (list ContentBlock)) (t : list (event ClientE)) :
  submitted (Event (BedrockSend command) answer :: t)
  = messages (body command) :: submitted t.
Proof. reflexivity. Qed.

Lemma submitted_cons_call (toolName : ToolName) (arguments : value)
  (answer : result value) (t : list (event ClientE)) :
  submitted (Event (McpCallTool toolName arguments) answer :: t) = submitted t.
Proof. reflexivity. Qed.

Lemma Forall_submitted (Q : list ConversationMessage -> Prop) (t : list (event ClientE)) :
  Forall (fun ev => onInvocation Q _ (ev_request ev)) t -> Forall Q (submitted t).
Proof.
  induction 1 as [| [X e x] t He _ IH]; [constructor |].
  destruct e as [command | toolName arguments]; simpl in He.
  - rewrite submitted_cons_send. constructor; assumption.
  - rewrite submitted_cons_call. exact IH.
Qed.

(** The form in which the properties below use the two preceding lemmas. *)
Lemma always_submitted {W A} (Q : list ConversationMessage -> Prop)
  (h : handler ClientE W) (p : Prog ClientE A) (w : W) :
  always (onInvocation Q) p -> Forall Q (submitted (trace h p w)).
Proof. intros Hp. apply Forall_submitted. now apply always_trace. Qed.

End EffectFacts.

(* ===================================================================== *)
(** * Properties: one turn of [processQuery]                              *)
(* ===================================================================== *)

Module Orchestrator.
Import Js Json Effects Client Vocabulary Steps EffectFacts.

Section Turn.
Context {B : Builtins}.

(** ** The stateless branch does not look at the history *)

Lemma makeCommand_history (c : EnhancedMCPClient) (hist : list ConversationMessage)
  (p : Payload) :
  makeCommand (set_conversationHistory c hist) p = makeCommand c p.
Proof. reflexivity. Qed.

Lemma toolsForModel_history (c : EnhancedMCPClient) (hist : list ConversationMessage) :
  toolsForModel (set_conversationHistory c hist) = toolsForModel c.
Proof. reflexivity. Qed.

Lemma statelessLoop_history {W} (h : handler ClientE W) (c : EnhancedMCPClient)
  (hist : list ConversationMessage) (userMessage : ConversationMessage)
  (blocks : list ContentBlock) :
  forall finalText w,
    run h (statelessLoop (set_conversationHistory c hist) userMessage blocks finalText) w
    = run h (statelessLoop c userMessage blocks finalText) w.
Proof.
  induction blocks as [| b rest IH]; intros finalText w; [reflexivity |].
  destruct b as [text | id toolName input | tid tcontent | type];
    cbn [statelessLoop]; try apply IH.
  destruct (optimizeQuery toolName input) as [e | [optimizedName optimizedArgs]];
    [reflexivity |].
  cbn [run set_conversationHistory sanitizedToOriginalToolName].
  answered h w; [reflexivity |].
  rewrite makeCommand_history, toolsForModel_history. cbn [run].
  answered h w0; [reflexivity |].
  now rewrite IH.
Qed.

(** A stateless call returns the client it was given, and its text, its
    requests and the environment it leaves do not depend on the history. *)
Lemma processQuery_stateless_run {W} (h : handler ClientE W) (c : EnhancedMCPClient)
  (hist : list ConversationMessage) (query : string) (w : W) :
  exists text w' t,
    run h (processQuery c query true) w = ((text, c), w', t)
    /\ run h (processQuery (set_conversationHistory c hist) query true) w
       = ((text, set_conversationHistory c hist), w', t).
Proof.
  unfold processQuery. cbn [run].
  rewrite makeCommand_history, toolsForModel_history.
  change (tools (set_conversationHistory c hist)) with (tools c).
  answered h w.
  - cbn [run]. eauto.
  - rewrite !run_fmap.
    match goal with
    | |- context [statelessLoop _ ?um ?blocks []] =>
        pose proof (statelessLoop_history h c hist um blocks [] w0) as Heq
    end.
    rewrite Heq.
    match goal with
    | |- context [run h ?p w0] => destruct (run h p w0) as [[r w2] t]
    end.
    eauto.
Qed.

Lemma processQueries_stateless_run {W} (h : handler ClientE W) (queries : list string) :
  forall (c : EnhancedMCPClient) (hist : list ConversationMessage) (w : W),
  exists texts w' t,
    run h (processQueries c queries true) w = ((texts, c), w', t)
    /\ run h (processQueries (set_conversationHistory c hist) queries true) w
       = ((texts, set_conversationHistory c hist), w', t).
Proof.
  induction queries as [| query rest IH]; intros c hist w.
  - cbn. eauto.
  - cbn [processQueries]. rewrite !run_bind.
    destruct (processQuery_stateless_run h c hist query w) as (text & w1 & t1 & H1 & H2).
    rewrite H1, H2. rewrite !run_fmap.
    destruct (IH c hist w1) as (texts & w2 & t2 & H3 & H4).
    rewrite H3, H4. eauto.
Qed.

(** ** The requests of a turn *)

(** A follow-up of the stateless branch is the user message, the tool-use
    block in an assistant message and its result in a user message. *)
Lemma statelessLoop_followups (c : EnhancedMCPClient) (userMessage : ConversationMessage)
  (blocks : list ContentBlock) :
  role userMessage = user ->
  forall finalText,
    always (onInvocation (fun msgs =>
              followUpExchange msgs /\ head msgs = Some userMessage))
      (statelessLoop c userMessage blocks finalText).
Proof.
  intros Hrole.
  induction blocks as [| b rest IH]; intros finalText; [exact I |].
  destruct b as [text | id toolName input | tid tcontent | type];
    cbn [statelessLoop]; try apply IH.
  destruct (optimizeQuery toolName input) as [e | [optimizedName optimizedArgs]];
    [exact I |].
  split; [exact I |]. intros [err | resultContent]; [exact I |].
  split.
  - cbn. split; [| reflexivity]. split.
    + unfold roles. cbn. now rewrite Hrole.
    + eexists _, _, _. split; [reflexivity |].
      split; [reflexivity |]. split; [reflexivity |].
      now exists id, (resultTextOf (parseToolResult resultContent)), [], toolName, input.
  - intros [e | followUpContent]; [exact I | apply IH].
Qed.

(** The chat branch invokes the model once: its loop sends nothing more. *)
Lemma statefulLoop_no_invocation (c : EnhancedMCPClient) (blocks : list ContentBlock) :
  forall finalText assistantContent,
    always (onInvocation (fun _ => False))
      (statefulLoop c blocks finalText assistantContent).
Proof.
  induction blocks as [| b rest IH]; intros finalText assistantContent; [exact I |].
  destruct b as [text | id toolName input | tid tcontent | type];
    cbn [statefulLoop]; try apply IH.
  destruct (optimizeQuery toolName input) as [e | [optimizedName optimizedArgs]];
    [exact I |].
  split; [exact I |]. intros [err | resultContent]; [apply IH |].
  cbn zeta. destruct (truthy (parseToolResult resultContent)); apply IH.
Qed.

(** The message lists a turn submits: the opening one, then follow-up
    exchanges that start with the turn's user message. *)
Lemma processQuery_submitted {W} (h : handler ClientE W) (c : EnhancedMCPClient)
  (query : string) (stateless : bool) (w : W) :
  let userMessage := {| role := user; content := [Text query] |} in
  exists followUps,
    submitted (trace h (processQuery c query stateless) w)
    = (if stateless then [userMessage]
       else (conversationHistory c ++ [userMessage])%list) :: followUps
    /\ Forall (fun msgs => followUpExchange msgs /\ head msgs = Some userMessage) followUps.
Proof.
  intros userMessage. unfold trace, processQuery. cbn [run].
  answered h w; rename w0 into w1.
  - cbn [run snd]. exists []. split; [| constructor].
    rewrite submitted_cons_send. destruct stateless; reflexivity.
  - rewrite run_fmap.
    match goal with
    | |- context [run h ?p w1] =>
        pose proof (fun Q (Hp : always (onInvocation Q) p) =>
                      always_submitted Q h p w1 Hp) as Hsub;
        unfold trace in Hsub; destruct (run h p w1) as [[r w2] t]
    end.
    cbn [snd] in *. exists (submitted t). split.
    + rewrite submitted_cons_send. destruct stateless; reflexivity.
    + apply Hsub. destruct stateless.
      * now apply statelessLoop_followups.
      * eapply always_impl; [| apply statefulLoop_no_invocation].
        intros X e. destruct e; cbn; [contradiction | trivial].
Qed.

End Turn.

(** C6.  After any sequence of stateless calls the conversation history is
    what it was before them, in length and in contents; what the calls
    return, what they send and how they leave the environment is the same
    whatever the history holds; and every message list a stateless call
    submits is the call's own user message, alone or followed by the two
    messages of a tool exchange. *)
Theorem stateless_turns_leave_history :
  forall (B : Builtins) (W : Type) (h : handler ClientE W)
         (c : EnhancedMCPClient) (queries : list string) (w : W),
    let after := snd (outcome h (processQueries c queries true) w) in
    (conversationHistory after = conversationHistory c
     /\ length (conversationHistory after) = length (conversationHistory c))
    /\ (forall hist : list ConversationMessage,
          let c' := set_conversationHistory c hist in
          fst (outcome h (processQueries c' queries true) w)
          = fst (outcome h (processQueries c queries true) w)
          /\ trace h (processQueries c' queries true) w
             = trace h (processQueries c queries true) w
          /\ conversationHistory (snd (outcome h (processQueries c' queries true) w))
             = hist)
    /\ (forall query,
          exists followUps,
            submitted (trace h (processQuery c query true) w)
            = [ {| role := user; content := [Text query] |} ] :: followUps
            /\ Forall (fun msgs =>
                         followUpExchange msgs
                         /\ head msgs = Some {| role := user; content := [Text query] |})
                 followUps).
Proof.
  intros B W h c queries w after. subst after. unfold outcome, trace.
  split; [| split].
  - destruct (processQueries_stateless_run h queries c [] w) as (texts & w' & t & H1 & _).
    rewrite H1. split; reflexivity.
  - intros hist.
    destruct (processQueries_stateless_run h queries c hist w) as (texts & w' & t & H1 & H2).
    rewrite H1, H2. repeat split; reflexivity.
  - intros query. apply (processQuery_submitted h c query true w).
Qed.

(** X3.  A chat turn appends the user message to the history, and nothing else;
    its one model invocation submits the history so extended. *)
Theorem chat_turn_appends_user_message :
  forall (B : Builtins) (W : Type) (h : handler ClientE W)
         (c : EnhancedMCPClient) (query : string) (w : W),
    conversationHistory (snd (outcome h (processQuery c query false) w))
    = (conversationHistory c ++ [{| role := user; content := [Text query] |}])%list
    /\ submitted (trace h (processQuery c query false) w)
       = [(conversationHistory c ++ [{| role := user; content := [Text query] |}])%list].
Proof.
  intros B W h c query w. split.
  - unfold outcome, processQuery. cbn [run]. answered h w.
    + reflexivity.
    + rewrite run_fmap.
      match goal with
      | |- context [run h ?p w0] => destruct (run h p w0) as [[r w2] t]
      end.
      reflexivity.
  - unfold trace, processQuery. cbn [run]. answered h w.
    + reflexivity.
    + rewrite run_fmap.
      match goal with
      | |- context [run h ?p w0] =>
          pose proof (always_submitted (fun _ => False) h p w0
                        (statefulLoop_no_invocation _ _ _ _)) as Hsub;
          unfold trace in Hsub; destruct (run h p w0) as [[r w2] t]
      end.
      cbn [snd] in *.
      assert (Hnil : submitted t = []) by (destruct Hsub; [reflexivity | contradiction]).
      match goal with
      | |- submitted (?ev :: t) = [?msgs] =>
          transitivity (msgs :: submitted t); [reflexivity | now rewrite Hnil]
      end.
Qed.

End Orchestrator.

(* ===================================================================== *)
(** * Properties: the follow-up exchange                                  *)
(* ===================================================================== *)

Module FollowUp.
Import Js Json Effects Client Vocabulary EffectFacts.

Lemma snapshot_app (assistantContent : list ContentBlock)
  (h1 h2 : list Build.HistoryEntry) :
  Build.snapshot assistantContent (h1 ++ h2)
  = (Build.snapshot assistantContent h1 ++ Build.snapshot assistantContent h2)%list.
Proof. unfold Build.snapshot. apply map_app. Qed.

Lemma snapshot_stored (assistantContent : list ContentBlock)
  (msgs : list ConversationMessage) :
  Build.snapshot assistantContent (map Build.Stored msgs) = msgs.
Proof.
  unfold Build.snapshot. rewrite map_map. induction msgs as [| m msgs IH];
    [reflexivity | cbn; now rewrite IH].
Qed.

Section Turn.
Context {B : Builtins}.

(** In the build every follow-up request ends with the assistant message
    that holds the shared array, whose last block is the tool use just
    executed, and the user message with its result. *)
Lemma build_loop_followups (c : EnhancedMCPClient) (toolsForBedrock : option (list Tool))
  (blocks : list ContentBlock) :
  forall finalText assistantContent history,
    always (onInvocation endsWithAnsweredToolUse)
      (Build.loop c toolsForBedrock blocks finalText assistantContent history).
Proof.
  induction blocks as [| b rest IH]; intros finalText assistantContent history;
    [exact I |].
  destruct b as [text | id toolName input | tid tcontent | type];
    cbn [Build.loop]; try apply IH.
  destruct (optimizeQuery toolName input) as [e | [optimizedName optimizedArgs]];
    [exact I |].
  split; [exact I |]. intros [err | resultContent]; [apply IH |].
  split.
  - cbn [onInvocation messages body makeCommand makePayload].
    rewrite snapshot_app.
    eexists _, _, _. split; [reflexivity |].
    split; [reflexivity |]. split; [reflexivity |].
    now eexists id, _, assistantContent, _, optimizedArgs.
  - intros [e | followUpContent]; [exact I |].
    destruct followUpContent as [| [text | ? ? ? | ? ? | ?] others]; apply IH.
Qed.

Lemma build_processQuery_submitted {W} (h : handler ClientE W) (c : EnhancedMCPClient)
  (query : string) (w : W) :
  exists followUps,
    submitted (trace h (Build.processQuery c query) w)
    = (conversationHistory c ++ [{| role := user; content := [Text query] |}])%list
        :: followUps
    /\ Forall endsWithAnsweredToolUse followUps.
Proof.
  unfold trace, Build.processQuery. cbn [run].
  match goal with
  | |- context [h ?X ?e w] => destruct (h X e w) as [[error | responseContent] w1]
  end.
  - cbn [run snd]. exists []. split; [reflexivity | constructor].
  - rewrite run_fmap.
    match goal with
    | |- context [run h ?p w1] =>
        pose proof (always_submitted endsWithAnsweredToolUse h p w1
                      (build_loop_followups _ _ _ _ _ _)) as Hsub;
        unfold trace in Hsub; destruct (run h p w1) as [[r w2] t]
    end.
    cbn [snd] in *. exists (submitted t). split; [reflexivity | exact Hsub].
Qed.

End Turn.

Example build_history_after_first_turn :
  roles (conversationHistory afterFirstTurn) = [user; assistant; user; assistant].
Proof. vm_compute. reflexivity. Qed.

Lemma build_second_turn_follow_up :
  map roles
    (tail (submitted (trace scripted
                        (@Build.processQuery sampleBuiltins afterFirstTurn "and again")
                        listingScript)))
  = [[user; assistant; user; assistant; user; assistant; user]].
Proof. vm_compute. reflexivity. Qed.

(** In a second turn the follow-up request of the build holds seven
    messages, not three. *)
Lemma build_follow_up_not_three_messages :
  ~ Forall followUpExchange
      (tail (submitted (trace scripted
                          (@Build.processQuery sampleBuiltins afterFirstTurn "and again")
                          listingScript))).
Proof.
  intros Hall. pose proof build_second_turn_follow_up as Hroles.
  destruct (tail (submitted _)) as [| msgs others]; [discriminate Hroles |].
  inversion Hall as [| ? ? [Hthree _] _]; subst.
  cbn [map] in Hroles. injection Hroles as Hr _. congruence.
Qed.

(** Two tool uses in one response: the build then sends two assistant
    messages in a row. *)
Example build_two_tools_roles :
  map roles
    (tail (submitted (trace scripted
                        (@Build.processQuery sampleBuiltins sampleClient "list all tables")
                        twoToolsScript)))
  = [[user; assistant; user]; [user; assistant; user; assistant; assistant; user]].
Proof. vm_compute. reflexivity. Qed.

End FollowUp.

(* ===================================================================== *)
(** * Properties: a tool call that rejects                                *)
(* ===================================================================== *)

Module ToolFailure.
Import Js Json Effects Client Vocabulary Steps EffectFacts.

(** C1 at a turn whose tool call rejects.  The stateless branch returns
    from [processQuery] inside the [catch]: its text is the failure line
    alone, without the text block the model produced before the tool use.
    The chat branch, on the same answers, keeps that text and adds the
    failure line. *)
Theorem stateless_tool_failure_returns_early :
  forall B : Builtins,
    fst (outcome scripted (processQuery sampleClient "list all tables" true) failingScript)
    = cross_mark +:+ " Tool dynamodb_list_tables failed: Error: connection lost"
    /\ includes
         (fst (outcome scripted (processQuery sampleClient "list all tables" true)
                 failingScript))
         "Let me check the tables." = false
    /\ fst (outcome scripted (processQuery sampleClient "list all tables" false)
              failingScript)
       = "Let me check the tables." +:+ newline +:+ cross_mark
         +:+ " Tool dynamodb_list_tables failed: Error: connection lost".
Proof. intros B. repeat split; vm_compute; reflexivity. Qed.

Section Chat.
Context {B : Builtins}.


End Chat.



(** The blocks after the failing one are not processed either. *)
Example stateless_tool_failure_skips_the_rest :
  forall B : Builtins,
    fst (outcome scripted (processQuery sampleClient "list all tables" true)
           {| modelAnswers :=
                [ok [ToolUse "tu_1" "dynamodb_list_tables" (VObj []);
                     Text "Anything else?"]];
              toolAnswers := [throw (mkError "Error" "connection lost")] |})
    = cross_mark +:+ " Tool dynamodb_list_tables failed: Error: connection lost".
Proof. intros B. vm_compute. reflexivity. Qed.

End ToolFailure.

(* ===================================================================== *)
(** * Properties: the HTTP handlers                                       *)
(* ===================================================================== *)

Module Http.
Import Js Json Effects Vocabulary EffectFacts.

(** C9.  The handler of [startEndpoint] validates the body as specified: every
    request whose [query] is missing, not a string or empty is answered with
    status 400 and an [error], and [processQuery] is not called.  The
    handlers of endpoint.js, once the client is ready, do so for a [query]
    that is missing or falsy only: they test [!query] and not its type, so a
    [query] that is not a string but truthy starts a turn and is never
    answered with 400.  The body with [query] 42 is answered with status
    200 when the turn resolves. *)
Theorem malformed_query_rejected :
  (forall reqBody : list (string * value),
      is_string (queryOf reqBody) = false \/ truthy (queryOf reqBody) = false ->
      forall W (h : handler Client.EndpointE W) (w : W),
        Client.status (outcome h (Client.postQuery reqBody) w) = 400
        /\ hasError (Client.json (outcome h (Client.postQuery reqBody) w))
        /\ Forall (fun ev => ~ startsTurn _ (ev_request ev))
             (trace h (Client.postQuery reqBody) w))
  /\ (forall reqBody : list (string * value),
        truthy (queryOf reqBody) = false ->
        Endpoint.postQuery {| Endpoint.mcpReady := true; Endpoint.mcpModule := true |}
          reqBody
        = Ret Endpoint.queryRequired
        /\ Endpoint.postQueryRequire true reqBody = Ret Endpoint.queryRequired
        /\ Endpoint.status Endpoint.queryRequired = 400
        /\ hasError (Endpoint.json Endpoint.queryRequired))
  /\ (forall (reqBody : list (string * value)) W (h : handler Endpoint.EndpointE W)
             (w : W) (handle : Prog Endpoint.EndpointE Endpoint.Response),
        is_string (queryOf reqBody) = false ->
        truthy (queryOf reqBody) = true ->
        handle = Endpoint.postQuery
                   {| Endpoint.mcpReady := true; Endpoint.mcpModule := true |} reqBody
        \/ handle = Endpoint.postQueryRequire true reqBody ->
        (exists answer rest,
            trace h handle w
            = Event (Endpoint.McpProcessQuery (queryOf reqBody) true) answer :: rest)
        /\ Endpoint.status (outcome h handle w) <> 400)
  /\ is_string (queryOf [("query", VNum (Decimal false 42 0))]) = false
  /\ run resolving
       (Endpoint.postQuery {| Endpoint.mcpReady := true; Endpoint.mcpModule := true |}
          [("query", VNum (Decimal false 42 0))]) tt
     = ({| Endpoint.status := 200;
           Endpoint.json := VObj [("result", VStr "No tables found.");
                                  ("timestamp", VStr "2025-01-01T00:00:00.000Z")] |},
        tt,
        [Event (Endpoint.McpProcessQuery (VNum (Decimal false 42 0)) true)
           (ok "No tables found.");
         Event Endpoint.Now "2025-01-01T00:00:00.000Z"])
  /\ Client.status
       (outcome rejecting (Client.postQuery [("query", VNum (Decimal false 42 0))]) tt)
     = 400.
Proof.
  split; [| split; [| split]].
  - intros reqBody Hbad W h w. unfold queryOf in Hbad.
    unfold outcome, trace, Client.postQuery. cbn [run].
    destruct (h unit Client.ResetConversationHistory w) as [[] w1].
    assert (Hguard : negb (truthy (default VUndefined (assoc "query" reqBody)))
                     || negb (is_string (default VUndefined (assoc "query" reqBody)))
                     = true).
    { destruct Hbad as [-> | ->]; [apply orb_true_r | reflexivity]. }
    rewrite Hguard. cbn. split; [reflexivity |]. split.
    + now eexists.
    + repeat constructor. cbn. tauto.
  - intros reqBody Hfalsy. unfold queryOf in Hfalsy.
    unfold Endpoint.postQuery, Endpoint.postQueryRequire. cbn.
    rewrite Hfalsy. cbn. repeat split. now eexists.
  - intros reqBody W h w handle _ Htruthy Hhandle. unfold queryOf in *.
    unfold outcome, trace.
    destruct Hhandle as [-> | ->];
      unfold Endpoint.postQuery, Endpoint.postQueryRequire;
      cbn [Endpoint.mcpReady Endpoint.mcpModule negb orb]; cbv zeta;
      rewrite Htruthy; cbn [negb run].
    + match goal with
      | |- context [h ?X ?e w] => destruct (h X e w) as [[err | text] w1]
      end; cbn [run].
      * split; [eauto | discriminate].
      * match goal with
        | |- context [h ?X ?e w1] => destruct (h X e w1) as [timestamp w2]
        end.
        cbn [run fst snd]. split; [eauto | discriminate].
    + match goal with
      | |- context [h ?X ?e w] => destruct (h X e w) as [[err | text] w1]
      end; cbn [run fst snd]; (split; [eauto | discriminate]).
  - repeat split.
Qed.

(** Before the client is ready endpoint.js answers every request with
    status 503, a malformed one too. *)
Example endpoint_not_ready_answers_503 :
  Endpoint.postQuery {| Endpoint.mcpReady := false; Endpoint.mcpModule := false |} []
  = Ret Endpoint.notReady
  /\ Endpoint.status Endpoint.notReady = 503.
Proof. split; reflexivity. Qed.

(** On endpoint.js a [query] that is not a string but truthy starts a
    turn. *)
Example endpoint_number_query_starts_turn :
  exists k,
    Endpoint.postQuery {| Endpoint.mcpReady := true; Endpoint.mcpModule := true |}
      [("query", VNum (Decimal false 42 0))]
    = Vis (Endpoint.McpProcessQuery (VNum (Decimal false 42 0)) true) k.
Proof. eexists. reflexivity. Qed.

End Http.

(* ===================================================================== *)
(** * Properties: the scan fallback of [queryTable]                       *)
(* ===================================================================== *)

Module Fallback.
Import Js Json Effects Vocabulary Steps EffectFacts Server.

Lemma getProp_of_truthy (v : value) (k : string) :
  truthy v = true -> exists x, getProp v k = ok x.
Proof.
  destruct v as [| |b|n|s|l|o]; cbn; try discriminate; intros _; eauto.
  - destruct (index_of_key k (String.length s)); eauto.
  - destruct (index_of_key k (length l)); eauto.
Qed.

Section Tools.
Context {B : Builtins} {U : DynamoUtil}.

(** Whether the [forEach] of [cleanExpressionAttributeNames] throws depends
    on the keys alone, not on the expressions. *)
Lemma clean_fold_succeeds (names : value) (c1 c2 : string) (keys : list string) :
  truthy names = true ->
  forall acc1 acc2 r,
    rfold (fun acc key =>
             if (key =? "#")%string then throw invalidNamesKey
             else if includes c1 key then
               let? v := getProp names key in ok (assign acc key v)
             else ok acc) keys acc1 = ok r ->
    exists r',
      rfold (fun acc key =>
               if (key =? "#")%string then throw invalidNamesKey
               else if includes c2 key then
                 let? v := getProp names key in ok (assign acc key v)
               else ok acc) keys acc2 = ok r'.
Proof.
  intros Ht. induction keys as [| key keys IH]; intros acc1 acc2 r Hr; cbn in *.
  - eauto.
  - destruct (key =? "#")%string; [discriminate Hr |].
    destruct (getProp_of_truthy names key Ht) as [x Hx].
    rewrite Hx in *. cbn [rbind ok] in *.
    destruct (includes c1 key), (includes c2 key); cbn [rbind ok] in *;
      eapply IH; exact Hr.
Qed.

Lemma clean_succeeds_together (names : value) (e1 e2 : list value) (v : value) :
  cleanExpressionAttributeNames names e1 = ok v ->
  exists v', cleanExpressionAttributeNames names e2 = ok v'.
Proof.
  unfold cleanExpressionAttributeNames.
  destruct (truthy names) eqn:Ht; cbn [negb]; [| eauto].
  intros Hc. succeeded Hc. cbn [rbind]. succeeded Hc.
  match goal with
  | E : rfold _ _ _ = inr _ |- _ =>
      destruct (clean_fold_succeeds names _
                  (String.concat " "
                     (omap (fun e => match e with VStr s => Some s | _ => None end) e2))
                  _ Ht _ [] _ E) as [r' Hr']
  end.
  rewrite Hr'. cbn [rbind]. eauto.
Qed.

(** When the query could be sent, the fallback scan can be sent too, and
    its filter expression is the key condition of the query. *)
Lemma fallback_scan_input (params queryInput : value) :
  queryCommandInput params = ok queryInput ->
  exists scanParams scanInput,
    fallbackScanParams params = ok scanParams
    /\ scanCommandInput scanParams = ok scanInput
    /\ getProp scanInput "FilterExpression" = getProp params "keyConditionExpression"
    /\ getProp scanInput "TableName" = getProp params "tableName".
Proof.
  unfold queryCommandInput. intros Hq.
  passed Hq as values Evalues.
  passed Hq as normalizedValues Enormalized.
  passed Hq as names Enames.
  passed Hq as keyCondition EkeyCondition.
  passed Hq as filterExpression Efilter.
  passed Hq as cleanedNames Ecleaned.
  passed Hq as tableName Etable.
  passed Hq as indexName Eindex.
  passed Hq as marshalled Emarshalled.
  passed Hq as limit Elimit.
  destruct (clean_succeeds_together names _
              (filter (fun e => truthy e = true) [keyCondition]) _ Ecleaned)
    as [cleaned Hcleaned].
  unfold ok in Hcleaned.
  unfold fallbackScanParams.
  rewrite Etable, Eindex, EkeyCondition, Enames, Evalues, Elimit.
  cbn [rbind]. eexists _, _. split; [reflexivity |].
  unfold scanCommandInput. cbn [getProp assoc String.eqb Ascii.eqb Bool.eqb
                                default from_option id ok rbind].
  rewrite Enormalized. cbn [rbind]. rewrite Hcleaned. cbn [rbind].
  rewrite Emarshalled. cbn [rbind ok]. split; [reflexivity |]. split; reflexivity.
Qed.

Lemma assoc_obj_set (props : list (string * value)) (k : string) (v : value) :
  assoc k (obj_set props k v) = Some v.
Proof.
  induction props as [| [k' v'] props IH]; cbn.
  - now rewrite String.eqb_refl.
  - destruct (k =? k')%string eqn:E; cbn.
    + now rewrite String.eqb_refl.
    + rewrite E. exact IH.
Qed.

(** What both operations return on success is an object that says so. *)
Lemma successResult_object (verb : string) (params response v : value) :
  successResult verb params response = ok v ->
  exists props, v = VObj props /\ assoc "success" props = Some (VBool true).
Proof.
  unfold successResult. intros Hs.
  passed Hs as Items EItems. passed Hs as items Eitems.
  passed Hs as tableName Etable. passed Hs as indexName Eindex.
  passed Hs as Count ECount. passed Hs as ScannedCount EScanned.
  passed Hs as LastEvaluatedKey ELast. passed Hs as lastEvaluatedKey Elast.
  passed Hs as ConsumedCapacity EConsumed.
  injection Hs as <-. eexists. split; reflexivity.
Qed.

Lemma markConverted_message (props : list (string * value)) :
  exists rest,
    getPropOpt (markConverted (VObj props)) "message"
    = VStr ("Query converted to scan: " +:+ rest).
Proof.
  unfold markConverted, setProp, getPropOpt. cbn [getProp ok].
  rewrite assoc_obj_set. cbn. eauto.
Qed.

End Tools.

(** X4.  A rejection of the query whose name is not [ValidationException],
    or whose message holds none of the three texts (a missed key-schema
    element, an invalid key-condition expression, a syntax error), is
    reported at once: the query is the only command sent, and the answer
    says that the query failed, with the error's message and name and no
    items. *)
Theorem query_other_failure_not_retried :
  forall (B : Builtins) (U : DynamoUtil) (W : Type) (h : handler DynamoE W)
         (params queryInput : value) (error : Error) (w w1 : W),
    queryCommandInput params = ok queryInput ->
    h _ (Send (QueryCommand queryInput)) w = (throw error, w1) ->
    error_name error <> "ValidationException"
    \/ (includes (error_message error) "Query condition missed key schema element"
        = false
        /\ includes (error_message error) "Invalid KeyConditionExpression" = false
        /\ includes (error_message error) "Syntax error" = false) ->
    run h (queryTable params) w
    = (VObj [("success", VBool false);
             ("message", VStr ("Failed to query table: " +:+ messageOrError error));
             ("items", VArr []);
             ("errorType", VStr (error_name error))],
       w1, [Event (Send (QueryCommand queryInput)) (throw error)]).
Proof.
  intros B U W h params queryInput error w w1 Hq Hh Hother.
  assert (Hneeds : needsScanFallback error = false).
  { unfold needsScanFallback. destruct Hother as [Hname | (-> & -> & ->)].
    - destruct (String.eqb_spec (error_name error) "ValidationException");
        [contradiction | reflexivity].
    - apply andb_false_r. }
  unfold queryTable, tryQuery. unfold ok in Hq. rewrite Hq.
  rewrite run_bind. cbn [run]. unfold throw, result in Hh. rewrite Hh. cbn [run].
  unfold throw. cbn iota. rewrite Hneeds. reflexivity.
Qed.

Lemma query_other_failure_witness :
  run dynamoScripted (@queryTable sampleBuiltins sampleUtil ageParams) [throw throttled]
  = (VObj [("success", VBool false);
           ("message", VStr "Failed to query table: Rate exceeded");
           ("items", VArr []);
           ("errorType", VStr "ProvisionedThroughputExceededException")],
     [],
     [Event (Send (QueryCommand
                     (VObj [("TableName", VStr "Users");
                            ("IndexName", VUndefined);
                            ("KeyConditionExpression", VStr "#age > :a");
                            ("ExpressionAttributeValues",
                             VObj [(":a", VNum (Decimal false 30 0))]);
                            ("ExpressionAttributeNames", VObj [("#age", VStr "Age")]);
                            ("FilterExpression", VUndefined);
                            ("Limit", VNum (Decimal false 10 0));
                            ("ScanIndexForward", VUndefined)])))
        (throw throttled)]).
Proof.
  apply (query_other_failure_not_retried sampleBuiltins sampleUtil _ dynamoScripted
           ageParams _ throttled [throw throttled] [] eq_refl eq_refl).
  left. discriminate.
Defined.

(** A [ValidationException] of another kind is not retried either. *)
Example query_other_validation_failure :
  let error := mkError "ValidationException" "One or more parameter values were invalid" in
  trace dynamoScripted (@queryTable sampleBuiltins sampleUtil ageParams)
    [throw error; throw throttled]
  = [Event (Send (QueryCommand
                    (VObj [("TableName", VStr "Users");
                           ("IndexName", VUndefined);
                           ("KeyConditionExpression", VStr "#age > :a");
                           ("ExpressionAttributeValues",
                            VObj [(":a", VNum (Decimal false 30 0))]);
                           ("ExpressionAttributeNames", VObj [("#age", VStr "Age")]);
                           ("FilterExpression", VUndefined);
                           ("Limit", VNum (Decimal false 10 0));
                           ("ScanIndexForward", VUndefined)])))
       (throw error)].
Proof. reflexivity. Qed.

(** C4.  When the backend rejects the point query with a
    [ValidationException] whose message names a missed key-schema element,
    an invalid key-condition expression or a syntax error, [queryTable]
    sends exactly one more command: a scan whose filter expression is the
    key condition of the query.  The message of what it returns starts with
    the conversion notice; and when that scan is rejected as well, the
    result has [success] false and no items, and nothing further is sent. *)
Theorem query_validation_failure_falls_back_once :
  forall (B : Builtins) (U : DynamoUtil) (W : Type) (h : handler DynamoE W)
         (params queryInput : value) (error : Error) (w w1 : W),
    queryCommandInput params = ok queryInput ->
    h _ (Send (QueryCommand queryInput)) w = (throw error, w1) ->
    error_name error = "ValidationException" ->
    (includes (error_message error) "Query condition missed key schema element" = true
     \/ includes (error_message error) "Invalid KeyConditionExpression" = true
     \/ includes (error_message error) "Syntax error" = true) ->
    exists scanInput scanAnswer w2 converted,
      run h (queryTable params) w
      = (converted, w2,
         [Event (Send (QueryCommand queryInput)) (throw error);
          Event (Send (ScanCommand scanInput)) scanAnswer])
      /\ getProp scanInput "FilterExpression" = getProp params "keyConditionExpression"
      /\ (exists rest,
            getPropOpt converted "message" = VStr ("Query converted to scan: " +:+ rest))
      /\ (forall scanError,
            scanAnswer = throw scanError ->
            getPropOpt converted "success" = VBool false
            /\ getPropOpt converted "items" = VArr []
            /\ getPropOpt converted "message"
               = VStr ("Query converted to scan: Failed to scan table: "
                       +:+ messageOrError scanError)).
Proof.
  intros B U W h params queryInput error w w1 Hq Hh Hname Hmsg.
  destruct (fallback_scan_input params queryInput Hq)
    as (scanParams & scanInput & Hsp & Hsc & Hfilter & _).
  assert (Hneeds : needsScanFallback error = true).
  { unfold needsScanFallback. rewrite Hname. cbn [String.eqb Ascii.eqb Bool.eqb andb].
    destruct Hmsg as [-> | [-> | ->]]; cbn; rewrite ?orb_true_r; reflexivity. }
  unfold queryTable, tryQuery. unfold ok in Hq, Hsp, Hsc. rewrite Hq.
  rewrite run_bind. cbn [run]. unfold throw, result in Hh. rewrite Hh. cbn [run].
  unfold throw. cbn iota. rewrite Hneeds, Hsp. rewrite run_bind. unfold scanTable, tryScan. rewrite Hsc.
  rewrite run_bind. cbn [run].
  match goal with
  | |- context [h ?X ?e w1] => destruct (h X e w1) as [[scanError | response] w2]
  end.
  - cbn [run app]. eexists scanInput, (inl scanError), w2, _.
    split; [reflexivity |]. split; [exact Hfilter |]. split.
    + apply markConverted_message.
    + intros scanError' [= <-]. repeat split; reflexivity.
  - cbn [run]. destruct (successResult "Scan" scanParams response) as [e | v] eqn:Es.
    + cbn [run app]. eexists scanInput, (inr response), w2, _.
      split; [reflexivity |]. split; [exact Hfilter |]. split.
      * apply markConverted_message.
      * intros scanError' [=].
    + destruct (successResult_object _ _ _ _ Es) as (props & -> & _).
      cbn [run app]. eexists scanInput, (inr response), w2, _.
      split; [reflexivity |]. split; [exact Hfilter |]. split.
      * apply markConverted_message.
      * intros scanError' [=].
Qed.

Lemma query_validation_failure_witness :
  @queryCommandInput sampleBuiltins sampleUtil ageParams
  = ok (VObj [("TableName", VStr "Users");
              ("IndexName", VUndefined);
              ("KeyConditionExpression", VStr "#age > :a");
              ("ExpressionAttributeValues", VObj [(":a", VNum (Decimal false 30 0))]);
              ("ExpressionAttributeNames", VObj [("#age", VStr "Age")]);
              ("FilterExpression", VUndefined);
              ("Limit", VNum (Decimal false 10 0));
              ("ScanIndexForward", VUndefined)])
  /\ exists scanInput scanAnswer w2 converted,
       run dynamoScripted (@queryTable sampleBuiltins sampleUtil ageParams)
         [throw missedKey; throw throttled]
       = (converted, w2,
          [Event (Send (QueryCommand
                          (VObj [("TableName", VStr "Users");
                                 ("IndexName", VUndefined);
                                 ("KeyConditionExpression", VStr "#age > :a");
                                 ("ExpressionAttributeValues",
                                  VObj [(":a", VNum (Decimal false 30 0))]);
                                 ("ExpressionAttributeNames", VObj [("#age", VStr "Age")]);
                                 ("FilterExpression", VUndefined);
                                 ("Limit", VNum (Decimal false 10 0));
                                 ("ScanIndexForward", VUndefined)])))
             (throw missedKey);
           Event (Send (ScanCommand scanInput)) scanAnswer])
       /\ getProp scanInput "FilterExpression" = getProp ageParams "keyConditionExpression"
       /\ (exists rest,
             getPropOpt converted "message" = VStr ("Query converted to scan: " +:+ rest))
       /\ (forall scanError,
             scanAnswer = throw scanError ->
             getPropOpt converted "success" = VBool false
             /\ getPropOpt converted "items" = VArr []
             /\ getPropOpt converted "message"
                = VStr ("Query converted to scan: Failed to scan table: "
                        +:+ messageOrError scanError)).
Proof.
  split; [reflexivity |].
  apply (query_validation_failure_falls_back_once sampleBuiltins sampleUtil _
           dynamoScripted ageParams _ missedKey
           [throw missedKey; throw throttled] [throw throttled]
           eq_refl eq_refl eq_refl (or_introl eq_refl)).
Defined.

(** The same turn, computed: the scan is rejected too. *)
Example fallback_rejected_result :
  fst (fst (run dynamoScripted (@queryTable sampleBuiltins sampleUtil ageParams)
              [throw missedKey; throw throttled]))
  = VObj [("success", VBool false);
          ("message", VStr "Query converted to scan: Failed to scan table: Rate exceeded");
          ("items", VArr []);
          ("errorType", VStr "ProvisionedThroughputExceededException")].
Proof. vm_compute. reflexivity. Qed.

End Fallback.

(* ===================================================================== *)
(** * Properties: the optimizer and the names the model is offered        *)
(* ===================================================================== *)

Module OfferedNames.
Import Js Json Effects Client Vocabulary Observations Steps.

Lemma safe_name_not_rewritten (toolName : string) (toolArgs : value) :
  isSafeName toolName = true ->
  optimizeQuery toolName toolArgs = ok (toolName, toolArgs).
Proof.
  intros Hs. apply Optimizer.other_tool_unchanged. intros ->. discriminate Hs.
Qed.

(** X5.  The model is offered sanitized names, and the optimizer compares
    with the server's own name [dynamodb:query_table]: on a sanitized name,
    whatever the arguments, it rewrites nothing and reads nothing. *)
Theorem optimizeQuery_keeps_sanitized_name :
  forall (catalogName : string) (toolArgs : value),
    optimizeQuery (sanitizeToolName catalogName) toolArgs
    = ok (sanitizeToolName catalogName, toolArgs).
Proof.
  intros catalogName toolArgs. apply safe_name_not_rewritten.
  apply NameTranslator.sanitize_is_safe.
Qed.

(** X6.  The optimizer settles in one step: applied to the call it returned,
    it returns that call again. *)
Theorem optimizeQuery_settles :
  forall (toolName optimizedName : string) (toolArgs optimizedArgs : value),
    optimizeQuery toolName toolArgs = ok (optimizedName, optimizedArgs) ->
    optimizeQuery optimizedName optimizedArgs = ok (optimizedName, optimizedArgs).
Proof.
  intros toolName optimizedName toolArgs optimizedArgs Ho.
  pose proof Ho as Hkept. unfold optimizeQuery in Ho.
  destruct (toolName =? "dynamodb:query_table")%string.
  - passed Ho as keyCondition Ekc. passed Ho as rewrite Erewrite.
    destruct rewrite.
    + passed Ho as tableName Etable. passed Ho as names Enames.
      passed Ho as values Evalues. passed Ho as limit Elimit.
      injection Ho as <- <-. apply Optimizer.other_tool_unchanged. discriminate.
    + injection Ho as <- <-. exact Hkept.
  - injection Ho as <- <-. exact Hkept.
Qed.

Lemma optimizeQuery_settles_witness :
  optimizeQuery "dynamodb:scan_table"
    (VObj [("tableName", VStr "Users");
           ("filterExpression", VStr "Age > :a");
           ("expressionAttributeNames", VUndefined);
           ("expressionAttributeValues", VObj [(":a", VNum (Decimal false 30 0))]);
           ("limit", VNum (Decimal false 10 0))])
  = ok ("dynamodb:scan_table",
        VObj [("tableName", VStr "Users");
              ("filterExpression", VStr "Age > :a");
              ("expressionAttributeNames", VUndefined);
              ("expressionAttributeValues", VObj [(":a", VNum (Decimal false 30 0))]);
              ("limit", VNum (Decimal false 10 0))]).
Proof.
  apply (optimizeQuery_settles "dynamodb:query_table" _ (VObj ageQuery)).
  reflexivity.
Defined.

Lemma safe_name_alphabet (n : string) :
  isSafeName n = true ->
  Forall (fun ch => In ch (list_ascii_of_string safeAlphabet)) (list_ascii_of_string n).
Proof.
  induction n as [| ch n IH]; cbn [isSafeName list_ascii_of_string]; intros Hs.
  - constructor.
  - apply andb_true_iff in Hs as [Hch Hn]. constructor; [| now apply IH].
    unfold inSafeAlphabet in Hch. apply existsb_exists in Hch as (member & Hin & Heq).
    now apply Ascii.eqb_eq in Heq as ->.
Qed.

Lemma lastRegistered_exists (ts : list Tool) (tool : Tool) :
  In tool ts ->
  exists last,
    lastRegistered (sanitizeToolName (name tool)) ts = Some last
    /\ In last ts
    /\ sanitizeToolName (name last) = sanitizeToolName (name tool).
Proof.
  intros Hin. unfold lastRegistered.
  destruct (find _ (rev ts)) as [last |] eqn:Hfind.
  - apply find_some in Hfind as [Hl Heq].
    exists last. split; [reflexivity |]. split.
    + now apply in_rev.
    + now apply String.eqb_eq in Heq.
  - apply in_rev in Hin. apply (find_none _ _ Hfind tool) in Hin.
    now rewrite String.eqb_refl in Hin.
Qed.

(** X7.  After [connectToServer] has built the mapping from the catalog,
    the tool list sent to the model has one entry per tool of the catalog
    and every name in it is made of the characters
    [abcdefghijklmnopqrstuvwxyzABCDEFGHIJKLMNOPQRSTUVWXYZ0123456789_-].
    An offered name other than [__proto__] resolves to the name of a tool
    of the catalog that sanitizes to it; the offered name [__proto__]
    resolves to no tool but to the prototype of the mapping. *)
Theorem offered_names_resolve :
  forall c : EnhancedMCPClient,
    sanitizedToOriginalToolName c = buildNameMapping (tools c) ->
    length (toolsForModel c) = length (tools c)
    /\ Forall (fun offered =>
                 Forall (fun ch => In ch (list_ascii_of_string safeAlphabet))
                   (list_ascii_of_string (name offered))
                 /\ (name offered <> "__proto__" ->
                     exists tool,
                       In tool (tools c)
                       /\ sanitizeToolName (name tool) = name offered
                       /\ resolveToolName (sanitizedToOriginalToolName c) (name offered)
                          = Named (name tool))
                 /\ (name offered = "__proto__" ->
                     resolveToolName (sanitizedToOriginalToolName c) (name offered)
                     = Inherited "__proto__"))
         (toolsForModel c).
Proof.
  intros c Hmap. unfold toolsForModel. split; [apply length_map |].
  apply List.Forall_forall. intros offered Hin.
  apply in_map_iff in Hin as (tool & <- & Hin). cbn [name].
  split; [apply safe_name_alphabet, NameTranslator.sanitize_is_safe |]. split.
  - intros Hproto.
    destruct (lastRegistered_exists (tools c) tool Hin) as (last & Hlast & Hl & Heq).
    exists last. split; [exact Hl |]. split; [exact Heq |].
    assert (Hlookup : sanitizedToOriginalToolName c
                        !! sanitizeToolName (sanitizeToolName (name tool))
                      = Some (name last)).
    { rewrite Hmap. unfold buildNameMapping.
      rewrite NameTranslator.sanitize_safe_id by apply NameTranslator.sanitize_is_safe.
      now rewrite (NameTranslator.fold_register_lookup _ _ Hproto), Hlast. }
    unfold resolveToolName. cbv zeta. rewrite Hlookup.
    destruct (String.eqb_spec (name last) "") as [Hempty | Hne]; [| reflexivity].
    rewrite <- Heq, Hempty. reflexivity.
  - intros Hproto. unfold resolveToolName. cbv zeta.
    rewrite NameTranslator.sanitize_safe_id by apply NameTranslator.sanitize_is_safe.
    rewrite Hproto, Hmap. unfold buildNameMapping.
    now rewrite NameTranslator.fold_register_proto.
Qed.

Lemma offered_names_resolve_witness :
  length (toolsForModel sampleClient) = length (tools sampleClient).
Proof.
  refine (proj1 (offered_names_resolve sampleClient _)).
  unfold sampleClient. cbn [sanitizedToOriginalToolName tools]. reflexivity.
Defined.

End OfferedNames.

(* ===================================================================== *)
(** * Properties: the requests of a turn, and a rejected invocation       *)
(* ===================================================================== *)

Module Requests.
Import Js Json Effects Client Vocabulary Observations Steps EffectFacts.




Section Turn.
Context {B : Builtins}.

(** ** A rejected model invocation *)

Lemma statelessLoop_rejected {W} (h : handler ClientE W) (c : EnhancedMCPClient)
  (userMessage : ConversationMessage) (blocks : list ContentBlock) (e : Error) :
  forall finalText w,
    Exists (fun ev => rejectedInvocation ev = Some e)
      (snd (run h (statelessLoop c userMessage blocks finalText) w)) ->
    fst (fst (run h (statelessLoop c userMessage blocks finalText) w)) = throw e
    /\ exists earlier ev,
         snd (run h (statelessLoop c userMessage blocks finalText) w)
         = (earlier ++ [ev])%list
         /\ rejectedInvocation ev = Some e.
Proof.
  induction blocks as [| b rest IH]; intros finalText w.
  - cbn. intros Hex. now apply Exists_nil in Hex.
  - destruct b as [text | id toolName input | tid tcontent | type];
      cbn [statelessLoop]; try apply IH.
    destruct (optimizeQuery toolName input) as [e0 | [optimizedName optimizedArgs]].
    + cbn. intros Hex. now apply Exists_nil in Hex.
    + cbn [run]. answered h w.
      * cbn. intros Hex. apply Exists_cons in Hex as [Hex | Hex]; [discriminate Hex |].
        now apply Exists_nil in Hex.
      * cbn [run]. answered h w0.
        -- cbn. intros Hex.
           apply Exists_cons in Hex as [Hex | Hex]; [discriminate Hex |].
           apply Exists_cons in Hex as [Hex | Hex]; [| now apply Exists_nil in Hex].
           injection Hex as ->. split; [reflexivity |].
           eexists [_], _. split; reflexivity.
        -- match goal with
           | |- context [statelessLoop c userMessage rest ?ft] =>
               specialize (IH ft w1)
           end.
           match goal with
           | |- context [run h ?p w1] => destruct (run h p w1) as [[r w2] t]
           end.
           cbn [fst snd] in *. intros Hex.
           apply Exists_cons in Hex as [Hex | Hex]; [discriminate Hex |].
           apply Exists_cons in Hex as [Hex | Hex]; [discriminate Hex |].
           destruct (IH Hex) as (Hr & earlier & ev & -> & Hev).
           split; [exact Hr |].
           eexists (_ :: _ :: earlier), ev. split; [reflexivity | exact Hev].
Qed.

Lemma statefulLoop_not_rejected {W} (h : handler ClientE W) (c : EnhancedMCPClient)
  (blocks : list ContentBlock) (finalText : list string)
  (assistantContent : list ContentBlock) (w : W) (e : Error) :
  ~ Exists (fun ev => rejectedInvocation ev = Some e)
      (snd (run h (statefulLoop c blocks finalText assistantContent) w)).
Proof.
  intros Hex.
  pose proof (always_trace _ h _
                (Orchestrator.statefulLoop_no_invocation c blocks finalText
                   assistantContent) w) as Hall.
  unfold trace in Hall.
  apply List.Exists_exists in Hex as (ev & Hin & Hev).
  apply (proj1 (List.Forall_forall _ _) Hall) in Hin.
  destruct ev as [X request answer]. destruct request; cbn in *;
    [contradiction | discriminate Hev].
Qed.

(** ** The tool calls of a turn *)




End Turn.

(** X8.  A model invocation that is rejected ends the turn: in either mode,
    when some invocation of the turn (the opening one, or a follow-up of the
    stateless branch) is rejected, that request is the last one of the turn
    and the text returned is the error line alone, without the texts
    gathered before. *)
Theorem rejected_invocation_ends_turn :
  forall (B : Builtins) (W : Type) (h : handler ClientE W) (c : EnhancedMCPClient)
         (query : string) (stateless : bool) (w : W) (e : Error),
    Exists (fun ev => rejectedInvocation ev = Some e)
      (trace h (processQuery c query stateless) w) ->
    fst (outcome h (processQuery c query stateless) w) = invocationFailureMessage e
    /\ exists earlier ev,
         trace h (processQuery c query stateless) w = (earlier ++ [ev])%list
         /\ rejectedInvocation ev = Some e.
Proof.
  intros B W h c query stateless w e.
  unfold outcome, trace, processQuery. cbn [run]. answered h w.
  - cbn. intros Hex. apply Exists_cons in Hex as [Hex | Hex];
      [| now apply Exists_nil in Hex].
    injection Hex as ->. split; [reflexivity |]. eexists [], _. split; reflexivity.
  - rewrite run_fmap. destruct stateless.
    + match goal with
      | |- context [run h ?p w0] =>
          pose proof (statelessLoop_rejected h c
                        {| role := user; content := [Text query] |} l e [] w0) as Hloop;
          destruct (run h p w0) as [[r w2] t]
      end.
      cbn [fst snd] in *. intros Hex.
      apply Exists_cons in Hex as [Hex | Hex]; [discriminate Hex |].
      destruct (Hloop Hex) as (-> & earlier & ev & -> & Hev).
      split; [reflexivity |]. eexists (_ :: earlier), ev.
      split; [reflexivity | exact Hev].
    + match goal with
      | |- context [run h ?p w0] =>
          pose proof (statefulLoop_not_rejected h c l [] [] w0 e) as Hloop;
          destruct (run h p w0) as [[r w2] t]
      end.
      cbn [fst snd] in *. intros Hex.
      apply Exists_cons in Hex as [Hex | Hex]; [discriminate Hex |].
      contradiction.
Qed.

Lemma rejected_invocation_ends_turn_witness :
  fst (outcome scripted
         (@processQuery sampleBuiltins sampleClient "list all tables" true)
         followUpRejected)
  = "Error: no answer".
Proof.
  refine (proj1 (rejected_invocation_ends_turn sampleBuiltins Script scripted
                   sampleClient "list all tables" true followUpRejected
                   (mkError "Error" "no answer") _)).
  vm_compute. do 2 apply Exists_cons_tl. apply Exists_cons_hd. reflexivity.
Defined.



End Requests.

(* ===================================================================== *)
(** * Properties: the history of the committed build                      *)
(* ===================================================================== *)

Module BuildHistory.
Import Js Json Effects Client Vocabulary Observations Steps EffectFacts.

Section Turn.
Context {B : Builtins}.

Lemma extends_app (base : list ConversationMessage)
  (history more : list Build.HistoryEntry) :
  extends base history -> extends base (history ++ more)%list.
Proof. intros [extra ->]. exists (extra ++ more)%list. now rewrite app_assoc. Qed.

(** The loop of the build only adds to the history. *)
Lemma build_loop_grows {W} (h : handler ClientE W) (c : EnhancedMCPClient)
  (toolsForBedrock : option (list Tool)) (base : list ConversationMessage)
  (blocks : list ContentBlock) :
  forall finalText assistantContent history w,
    extends base history ->
    extends base
      (snd (fst (fst (run h (Build.loop c toolsForBedrock blocks finalText
                               assistantContent history) w)))).
Proof.
  induction blocks as [| b rest IH]; intros finalText assistantContent history w Hext.
  - exact Hext.
  - destruct b as [text | id toolName input | tid tcontent | type];
      cbn [Build.loop]; try now apply IH.
    destruct (optimizeQuery toolName input) as [e0 | [optimizedName optimizedArgs]];
      [exact Hext |].
    cbn [run]. answered h w.
    + match goal with
      | |- context [Build.loop c toolsForBedrock rest ?ft ?ac ?hist] =>
          pose proof (IH ft ac hist w0 Hext) as Hrest
      end.
      match goal with
      | |- context [run h ?p w0] => destruct (run h p w0) as [[[[r ac'] hist'] w2] t]
      end.
      exact Hrest.
    + cbn [run]. answered h w0; [now apply extends_app |].
      destruct l as [| [text | ? ? ? | ? ? | ?] others];
        match goal with
        | |- context [Build.loop c toolsForBedrock rest ?ft ?ac ?hist] =>
            assert (Hrest : extends base
                              (snd (fst (fst (run h (Build.loop c toolsForBedrock rest
                                                       ft ac hist) w1)))))
              by (apply IH; repeat apply extends_app; exact Hext);
            destruct (run h (Build.loop c toolsForBedrock rest ft ac hist) w1)
              as [[[[r ac'] hist'] w2] t]
        end;
        exact Hrest.
Qed.

(** Every request of the loop starts with the messages the history held
    when the loop was entered. *)
Lemma build_loop_requests (c : EnhancedMCPClient)
  (toolsForBedrock : option (list Tool)) (base : list ConversationMessage)
  (blocks : list ContentBlock) :
  forall finalText assistantContent history,
    extends base history ->
    always (onInvocation (fun msgs => exists more, msgs = (base ++ more)%list))
      (Build.loop c toolsForBedrock blocks finalText assistantContent history).
Proof.
  induction blocks as [| b rest IH]; intros finalText assistantContent history Hext;
    [exact I |].
  destruct b as [text | id toolName input | tid tcontent | type];
    cbn [Build.loop]; try now apply IH.
  destruct (optimizeQuery toolName input) as [e0 | [optimizedName optimizedArgs]];
    [exact I |].
  split; [exact I |]. intros [err | resultContent]; [now apply IH |].
  split.
  - cbn [onInvocation messages body makeCommand makePayload].
    destruct Hext as [extra ->].
    rewrite <- app_assoc, FollowUp.snapshot_app, FollowUp.snapshot_stored. eauto.
  - intros [e | followUpContent]; [exact I |].
    destruct followUpContent as [| [text | ? ? ? | ? ? | ?] others];
      apply IH; repeat apply extends_app; exact Hext.
Qed.

(** One turn of the build: the client it leaves and the message lists it
    submits. *)
Lemma build_turn_run {W} (h : handler ClientE W) (c : EnhancedMCPClient)
  (query : string) (w : W) :
  let before := (conversationHistory c ++ [userMessageOf query])%list in
  exists text c' w' t,
    run h (Build.processQuery c query) w = ((text, c'), w', t)
    /\ (exists more, conversationHistory c' = (before ++ more)%list)
    /\ (exists followUps,
          submitted t = before :: followUps
          /\ Forall (fun msgs => exists more, msgs = (before ++ more)%list) followUps).
Proof.
  intros before. subst before. unfold Build.processQuery, userMessageOf. cbn [run].
  answered h w.
  - cbn [run]. eexists _, _, _, _. split; [reflexivity |]. split.
    + exists []. cbn. now rewrite app_nil_r.
    + exists []. split; [reflexivity | constructor].
  - rewrite run_fmap.
    match goal with
    | |- context [run h (Build.loop c ?tfb l [] [] (map Build.Stored ?base)) w0] =>
        pose proof (build_loop_grows h c tfb base l [] [] (map Build.Stored base) w0)
          as Hgrows;
        pose proof (always_submitted _ h _ w0
                      (build_loop_requests c tfb base l [] [] (map Build.Stored base)
                         (ex_intro _ [] (eq_sym (app_nil_r _))))) as Hsub;
        unfold trace in Hsub;
        destruct (run h (Build.loop c tfb l [] [] (map Build.Stored base)) w0)
          as [[[[r ac'] hist'] w2] t]
    end.
    cbn [fst snd] in *.
    destruct Hgrows as [extra' ->]; [exists []; now rewrite app_nil_r |].
    eexists _, _, _, _. split; [reflexivity |]. split.
    + cbn [conversationHistory set_conversationHistory].
      rewrite FollowUp.snapshot_app, FollowUp.snapshot_stored. eauto.
    + exists (submitted t). split; [reflexivity | exact Hsub].
Qed.

Lemma build_export_run {W} (h : handler ClientE W) (c : EnhancedMCPClient)
  (query : string) (w : W) :
  let before := (conversationHistory c ++ [userMessageOf query])%list in
  exists text c' w' t,
    run h (BuildExports.mcpProcessQuery (Some c) query) w = ((ok text, Some c'), w', t)
    /\ (exists more, conversationHistory c' = (before ++ more)%list)
    /\ (exists followUps,
          submitted t = before :: followUps
          /\ Forall (fun msgs => exists more, msgs = (before ++ more)%list) followUps).
Proof.
  intros before. unfold BuildExports.mcpProcessQuery. rewrite run_bind.
  destruct (build_turn_run h c query w) as (text & c' & w' & t & -> & Hmore & Hsub).
  cbn [run]. rewrite app_nil_r. eexists _, _, _, _. split; [reflexivity |].
  split; assumption.
Qed.

End Turn.


(** X10.  A turn of the committed build only adds to the conversation
    history: the history it leaves starts with the history it found and
    the turn's user message, and so does every message list it submits,
    whatever the model and the backend answer. *)
Theorem build_history_only_grows :
  forall (B : Builtins) (W : Type) (h : handler ClientE W)
         (c : EnhancedMCPClient) (query : string) (w : W),
    let before :=
      (conversationHistory c ++ [userMessageOf query])%list in
    (exists more,
        conversationHistory
          (snd (outcome h (Build.processQuery c query) w))
        = (before ++ more)%list)
    /\ Forall (fun msgs => exists more, msgs = (before ++ more)%list)
         (submitted (trace h (Build.processQuery c query) w)).
Proof.
  intros B W h c query w before. subst before.
  unfold outcome, trace.
  destruct (build_turn_run h c query w)
    as (text & c' & w' & t & -> & Hmore & followUps & Hsub & Hall).
  cbn [fst snd]. split; [exact Hmore |]. rewrite Hsub.
  constructor; [| exact Hall]. exists []. now rewrite app_nil_r.
Qed.

(** X11.  The export [mcpProcessQuery] of the committed build, which is the
    one endpoint.js imports, takes no stateless flag: a call leaves its
    messages in the shared instance, and the opening request of the next
    call carries the earlier call's user message before its own. *)
Theorem build_calls_share_history :
  forall (B : Builtins) (W : Type) (h : handler ClientE W)
         (c : EnhancedMCPClient) (q1 q2 : string) (w : W),
    let first := run h (BuildExports.mcpProcessQuery (Some c) q1) w in
    exists more followUps,
      submitted
        (trace h (BuildExports.mcpProcessQuery (snd (fst (fst first))) q2)
           (snd (fst first)))
      = (conversationHistory c
         ++ userMessageOf q1 :: more ++ [userMessageOf q2])%list
        :: followUps.
Proof.
  intros B W h c q1 q2 w first. subst first. unfold trace.
  destruct (build_export_run h c q1 w)
    as (text & c1 & w1 & t1 & -> & [more Hmore] & _).
  cbn [fst snd].
  destruct (build_export_run h c1 q2 w1)
    as (text2 & c2 & w2 & t2 & -> & _ & followUps & Hsub & _).
  cbn [fst snd]. rewrite Hsub, Hmore.
  exists more, followUps. now rewrite <- !app_assoc.
Qed.

End BuildHistory.

(* ===================================================================== *)
(** * Properties: the follow-up exchange                                  *)
(* ===================================================================== *)

Module Alternation.
Import Js Json Effects Client Vocabulary Observations Steps EffectFacts.

(** C7.  In the current client every follow-up request (every model
    invocation of a turn after the first) is exactly a user message, an
    assistant message and a user message, the last one carrying the result
    whose [tool_use_id] is the id of the tool-use block of the assistant
    message.  The committed build does not build that exchange: it submits
    its whole conversation history, which starts with the history the turn
    found and the turn's user message and ends with the assistant message
    and the result just pushed.  On a first turn whose response holds two
    tool uses its second follow-up request has six messages, two of them
    assistant messages in a row, where the current client sends the
    three-message exchange twice. *)
Theorem follow_up_answers_the_tool_use :
  (forall (B : Builtins) (W : Type) (h : handler ClientE W)
          (c : EnhancedMCPClient) (query : string) (w : W) (stateless : bool),
      Forall followUpExchange
        (tail (submitted (trace h (processQuery c query stateless) w))))
  /\ (forall (B : Builtins) (W : Type) (h : handler ClientE W)
             (c : EnhancedMCPClient) (query : string) (w : W),
        Forall (fun msgs =>
                  (exists more,
                      msgs = ((conversationHistory c ++ [userMessageOf query])
                              ++ more)%list)
                  /\ endsWithAnsweredToolUse msgs)
          (tail (submitted (trace h (Build.processQuery c query) w))))
  /\ map roles
       (tail (submitted (trace scripted
                           (@Build.processQuery sampleBuiltins sampleClient
                              "list all tables")
                           twoToolsScript)))
     = [[user; assistant; user]; [user; assistant; user; assistant; assistant; user]]
  /\ ~ Forall followUpExchange
         (tail (submitted (trace scripted
                             (@Build.processQuery sampleBuiltins sampleClient
                                "list all tables")
                             twoToolsScript)))
  /\ map roles
       (tail (submitted (trace scripted
                           (@processQuery sampleBuiltins sampleClient
                              "list all tables" true)
                           twoToolsScript)))
     = [[user; assistant; user]; [user; assistant; user]].
Proof.
  assert (Hroles : map roles
                     (tail (submitted (trace scripted
                                         (@Build.processQuery sampleBuiltins sampleClient
                                            "list all tables")
                                         twoToolsScript)))
                   = [[user; assistant; user];
                      [user; assistant; user; assistant; assistant; user]])
    by (vm_compute; reflexivity).
  split; [| split; [| split; [| split]]].
  - intros B W h c query w stateless.
    destruct (Orchestrator.processQuery_submitted h c query stateless w)
      as (followUps & -> & Hall).
    cbn [tail]. eapply Forall_impl; [exact Hall |]. now intros msgs [Hm _].
  - intros B W h c query w.
    destruct (FollowUp.build_processQuery_submitted h c query w)
      as (followUps & Hsub & Hends).
    destruct (BuildHistory.build_turn_run h c query w)
      as (text & c' & w' & t & Hrun & _ & followUps' & Hsub' & Hstarts).
    unfold trace in *. rewrite Hrun in *. cbn [snd] in *.
    rewrite Hsub' in Hsub. injection Hsub as <-.
    rewrite Hsub'. cbn [tail]. now apply Forall_and.
  - exact Hroles.
  - intros Hall.
    destruct (tail (submitted _)) as [| first [| second others]];
      try discriminate Hroles.
    inversion Hall as [| ? ? _ Hrest]; subst.
    inversion Hrest as [| ? ? [Hthree _] _]; subst.
    cbn [map] in Hroles. injection Hroles as _ Hsecond _. congruence.
  - vm_compute. reflexivity.
Qed.

End Alternation.

(* ===================================================================== *)
(** * Properties: connecting, the shared instance, the chat loop          *)
(* ===================================================================== *)

Module Sessions.
Import Js Json Effects Client Vocabulary Observations Steps EffectFacts Lifecycle.

Example endsWith_samples :
  endsWith "dist/index.js" ".js" = true
  /\ endsWith "server.py" ".py" = true
  /\ endsWith "js" ".js" = false
  /\ endsWith "index.js.map" ".js" = false.
Proof. repeat split. Qed.

Example blank_samples :
  blank "" = true
  /\ blank "  	 " = true
  /\ blank (String (ascii_of_nat 194) (String (ascii_of_nat 160) " ")) = true
  /\ blank " x " = false.
Proof. repeat split. Qed.

Example lowerIs_samples :
  lowerIs "QUIT" "quit" = true /\ lowerIs "Clear" "clear" = true
  /\ lowerIs "quit " "quit" = false /\ lowerIs "qui" "quit" = false.
Proof. repeat split. Qed.

(** X12.  [connectToServer] refuses a script whose path ends neither in .js
    nor in .py before it asks for anything; a call that succeeds has made
    exactly two requests, the connection (with the script path as the only
    argument of the launched command) and the listing, and leaves a client
    whose catalog lists the server's tools in order, whose name mapping is
    the one built from that catalog, and whose history is untouched. *)
Theorem connect_builds_catalog_and_mapping :
  forall (W : Type) (h : handler ConnectE W) (proc : Process) (c : EnhancedMCPClient)
         (serverScriptPath : string) (w : W),
    (endsWith serverScriptPath ".js" = false ->
     endsWith serverScriptPath ".py" = false ->
     run h (connectToServer proc c serverScriptPath) w = (throw notAServerScript, w, []))
    /\ (forall c',
          outcome h (connectToServer proc c serverScriptPath) w = ok c' ->
          sanitizedToOriginalToolName c' = buildNameMapping (tools c')
          /\ conversationHistory c' = conversationHistory c
          /\ exists command listed,
               trace h (connectToServer proc c serverScriptPath) w
               = [Event (McpConnect command [serverScriptPath]) (ok tt);
                  Event McpListTools (ok listed)]
               /\ map name (tools c') = map listed_name listed
               /\ (endsWith serverScriptPath ".py" = false -> command = execPath proc)).
Proof.
  intros W h proc c serverScriptPath w. unfold outcome, trace, connectToServer. split.
  - intros -> ->. reflexivity.
  - intros c'.
    destruct (negb (endsWith serverScriptPath ".js") && negb (endsWith serverScriptPath ".py"));
      [discriminate |].
    cbn [run]. answered h w; [discriminate |].
    cbn [run]. answered h w0; [discriminate |].
    cbn. intros [= <-]. cbn. split; [reflexivity |]. split; [reflexivity |].
    destruct u. eexists _, _. split; [reflexivity |]. split.
    + rewrite map_map. reflexivity.
    + now intros ->.
Qed.

Section Turn.
Context {B : Builtins}.

(** One chat turn: the client it leaves and the one message list it
    submits. *)
Lemma chat_turn_run {W} (h : handler ClientE W) (c : EnhancedMCPClient)
  (query : string) (w : W) :
  let history := (conversationHistory c ++ [userMessageOf query])%list in
  exists text w' t,
    run h (processQuery c query false) w
    = ((text, set_conversationHistory c history), w', t)
    /\ submitted t = [history].
Proof.
  intros history. subst history. unfold processQuery, userMessageOf. cbn [run].
  answered h w.
  - cbn [run]. eexists _, _, _. split; reflexivity.
  - rewrite run_fmap.
    match goal with
    | |- context [run h ?p w0] =>
        pose proof (always_submitted (fun _ => False) h p w0
                      (Orchestrator.statefulLoop_no_invocation _ _ _ _)) as Hsub;
        unfold trace in Hsub; destruct (run h p w0) as [[r w2] t]
    end.
    cbn [snd] in *.
    assert (Hnil : submitted t = []) by (destruct Hsub; [reflexivity | contradiction]).
    eexists _, _, _. split; [reflexivity |].
    rewrite submitted_cons_send, Hnil. reflexivity.
Qed.

Lemma submitted_app (t1 t2 : list (event ClientE)) :
  submitted (t1 ++ t2) = (submitted t1 ++ submitted t2)%list.
Proof.
  unfold submitted, invocations.
  induction t1 as [| [X e x] t1 IH]; [reflexivity |].
  destruct e; cbn in *; [now rewrite IH | exact IH].
Qed.

End Turn.

(** X13.  The history that [chatLoop] keeps, and every message list it
    submits, are decided by the lines typed alone, never by what the model
    or the backend answered: nothing typed after [quit] counts, [clear]
    empties the history, [tools] and blank lines change nothing and make no
    request, and every other line adds its user message and makes one
    model invocation with the history so far.  The catalog is not touched. *)
Theorem chat_history_follows_typed_lines :
  forall (B : Builtins) (W : Type) (h : handler ClientE W) (c : EnhancedMCPClient)
         (lines : list string) (w : W),
    conversationHistory (outcome h (chatLoop c lines) w)
    = typedHistory (conversationHistory c) lines
    /\ submitted (trace h (chatLoop c lines) w)
       = typedRequests (conversationHistory c) lines
    /\ tools (outcome h (chatLoop c lines) w) = tools c.
Proof.
  intros B W h c lines. unfold outcome, trace. revert c.
  induction lines as [| message rest IH]; intros c w; [repeat split |].
  cbn [chatLoop typedHistory typedRequests].
  destruct (lowerIs message "quit"); [repeat split |].
  destruct (lowerIs message "clear"); [apply (IH (set_conversationHistory c [])) |].
  destruct (lowerIs message "tools"); [apply IH |].
  destruct (blank message); [apply IH |].
  rewrite run_bind.
  destruct (chat_turn_run h c message w) as (text & w1 & t1 & -> & Hsub).
  specialize (IH (set_conversationHistory c
                    (conversationHistory c ++ [userMessageOf message])%list) w1).
  destruct (run h (chatLoop _ rest) w1) as [[c2 w2] t2].
  cbn [fst snd] in *. destruct IH as (Hh & Hr & Ht).
  split; [exact Hh |]. split; [| exact Ht].
  now rewrite submitted_app, Hsub, Hr.
Qed.

Example chat_clear_then_query :
  typedRequests [userMessageOf "earlier"] ["list tables"; "CLEAR"; " "; "and now?"; "Quit"; "x"]
  = [[userMessageOf "earlier"; userMessageOf "list tables"]; [userMessageOf "and now?"]].
Proof. reflexivity. Qed.

(** X14.  A request to the HTTP handler of [startEndpoint] starts from an
    empty history, whatever the client held.  A request whose [query] is a
    non-empty string runs one chat-mode turn on the client with its history
    emptied: the answer is 200 with the text of that turn as [result], the
    requests made are those of that turn, its one model invocation carries
    the query's user message alone, and the client is left as the turn
    leaves it, with that one message.  Any other request is answered 400
    without a request to the model.  No request is answered 500. *)
Theorem http_request_starts_from_empty_history :
  forall (B : Builtins) (W : Type) (h : handler ClientE W) (c : EnhancedMCPClient)
         (reqBody : list (string * value)) (w : W),
    let r := run h (handleQuery c reqBody) w in
    let response := fst (fst (fst r)) in
    let after := snd (fst (fst r)) in
    (forall query,
        queryOf reqBody = VStr query -> query <> EmptyString ->
        let turn := run h (processQuery (set_conversationHistory c []) query false) w in
        response
        = {| status := 200; json := VObj [("result", VStr (fst (fst (fst turn))))] |}
        /\ after = snd (fst (fst turn))
        /\ snd (fst r) = snd (fst turn)
        /\ snd r = snd turn
        /\ submitted (snd r) = [[userMessageOf query]]
        /\ conversationHistory after = [userMessageOf query])
    /\ ((forall query, queryOf reqBody = VStr query -> query = EmptyString) ->
        response = badRequest /\ snd r = [] /\ conversationHistory after = [])
    /\ status response <> 500.
Proof.
  intros B W h c reqBody w r response after. subst r response after.
  unfold handleQuery, queryOf.
  assert (Hrefused : forall v,
             (forall query, v <> VStr query) ->
             (forall query : string,
                 v = VStr query -> query <> EmptyString ->
                 let turn :=
                   run h (processQuery (set_conversationHistory c []) query false) w in
                 badRequest
                 = {| status := 200;
                      json := VObj [("result", VStr (fst (fst (fst turn))))] |}
                 /\ resetConversationHistory c = snd (fst (fst turn))
                 /\ w = snd (fst turn)
                 /\ [] = snd turn
                 /\ submitted [] = [[userMessageOf query]]
                 /\ conversationHistory (resetConversationHistory c) = [userMessageOf query])
             /\ ((forall query, v = VStr query -> query = EmptyString) ->
                 badRequest = badRequest
                 /\ @nil (event ClientE) = []
                 /\ conversationHistory (resetConversationHistory c) = [])
             /\ status badRequest <> 500).
  { intros v Hv. split; [intros query Hq; now contradiction (Hv query) |].
    split; [intros _; repeat split | discriminate]. }
  destruct (default VUndefined (assoc "query" reqBody)) as [| | b | n | s | l | o];
    cbn [truthy is_string negb orb andb];
    try (apply Hrefused; discriminate).
  - rewrite orb_true_r. apply Hrefused; discriminate.
  - rewrite orb_true_r. apply Hrefused; discriminate.
  - clear Hrefused. destruct (String.eqb_spec s "") as [-> | Hne]; cbn [negb orb].
    + split; [intros query [= <-] Hq; now contradiction Hq |].
      split; [intros _; repeat split | discriminate].
    + rewrite run_bind.
      destruct (chat_turn_run h (resetConversationHistory c) s w)
        as (text & w1 & t1 & Hrun & Hsub).
      rewrite Hrun. cbn [run fst snd status json]. rewrite app_nil_r.
      split; [| split].
      * intros query [= <-] _. cbv zeta.
        change (set_conversationHistory c []) with (resetConversationHistory c).
        rewrite Hrun. cbn [fst snd]. repeat split. exact Hsub.
      * intros Hall. now contradiction (Hne (Hall s eq_refl)).
      * discriminate.
Qed.

(** X15.  [initMCPClient] assigns the shared instance before it awaits the
    connection.  So after a first call the instance is set whether the call
    succeeded or was rejected: to the connected client it resolved to, or to
    the unconnected new client when the connection failed.  Every later call
    makes no request and resolves to that same instance.  [mcpProcessQuery]
    rejects with the not-initialized error and makes no request while no
    call was made; from then on it runs [processQuery] on the instance:
    it resolves to the text of that turn, makes the requests of that turn
    and leaves the client of that turn as the instance. *)
Theorem init_keeps_the_first_instance :
  forall (B : Builtins) (W : Type) (h : handler ConnectE W) (proc : Process)
         (serverScriptPath : string) (profileId : option string) (w : W),
    let first := run h (initMCPClient proc None serverScriptPath profileId) w in
    let instance := snd (fst (fst first)) in
    exists c,
      instance = Some c
      /\ (forall e, fst (fst (fst first)) = throw e -> c = newClient profileId)
      /\ (forall connected, fst (fst (fst first)) = ok connected -> c = connected)
      /\ (forall (W' : Type) (h' : handler ConnectE W') (proc' : Process)
                 (path' : string) (profile' : option string) (w' : W'),
            run h' (initMCPClient proc' instance path' profile') w'
            = ((ok c, instance), w', []))
      /\ (forall (W2 : Type) (h2 : handler ClientE W2) (query : string)
                 (stateless : bool) (w2 : W2),
            run h2 (mcpProcessQuery None query stateless) w2
            = ((throw notInitialized, None), w2, [])
            /\ (let turn := run h2 (processQuery c query stateless) w2 in
                run h2 (mcpProcessQuery instance query stateless) w2
                = ((ok (fst (fst (fst turn))), Some (snd (fst (fst turn)))),
                   snd (fst turn), snd turn))).
Proof.
  intros B W h proc serverScriptPath profileId w first instance.
  subst instance first.
  assert (Hrun : exists r c w1 t,
             run h (initMCPClient proc None serverScriptPath profileId) w
             = ((r, Some c), w1, t)
             /\ (forall e, r = throw e -> c = newClient profileId)
             /\ (forall connected, r = ok connected -> c = connected)).
  { unfold initMCPClient. rewrite run_bind.
    destruct (run h (connectToServer proc (newClient profileId) serverScriptPath) w)
      as [[[e | c'] w1] t]; cbn [run]; eexists _, _, _, _;
      (split; [reflexivity |]); split; intros x Hx; try discriminate Hx;
      [reflexivity | now injection Hx]. }
  destruct Hrun as (r & c & w1 & t & -> & Hfail & Hok). cbn [fst snd].
  exists c. split; [reflexivity |]. split; [exact Hfail |]. split; [exact Hok |].
  split; [reflexivity |]. intros W2 h2 query stateless w2. split; [reflexivity |].
  cbv zeta. unfold mcpProcessQuery. rewrite run_bind.
  destruct (run h2 (processQuery c query stateless) w2) as [[[text c2] w3] t3].
  cbn [run fst snd]. now rewrite app_nil_r.
Qed.

(** After a connection that failed, the instance is the client without
    tools, and a turn invokes the model without a tool list. *)
Example failed_init_then_query :
  snd (fst (fst (run noServer (initMCPClient linuxNode None "dist/index.js" None) tt)))
  = Some (newClient None)
  /\ map (fun command => payload_tools (body command))
       (invocations
          (trace scripted
             (@mcpProcessQuery sampleBuiltins (Some (newClient None)) "list all tables" true)
             {| modelAnswers := [ok [Text "I have no tools."]]; toolAnswers := [] |}))
     = [None].
Proof. split; reflexivity. Qed.

Example connect_lists_one_tool :
  fst (fst (run oneToolServer (connectToServer linuxNode (newClient None) "dist/index.js") tt))
  = ok {| tools := [{| name := "dynamodb:list_tables";
                       description := EmptyString;
                       input_schema := VObj [("type", VStr "object")] |}];
          client_modelId := "anthropic.claude-3-sonnet-20240229-v1:0";
          inferenceProfileId := None;
          conversationHistory := [];
          sanitizedToOriginalToolName :=
            buildNameMapping [{| name := "dynamodb:list_tables";
                                 description := EmptyString;
                                 input_schema := VObj [("type", VStr "object")] |}] |}.
Proof. reflexivity. Qed.

Lemma endpointMode_argument (argv : list string) :
  endpointMode argv = true <-> nth_error argv 4 = Some "endpoint".
Proof.
  unfold endpointMode. destruct (nth_error argv 4) as [mode |]; [| split; discriminate].
  split.
  - intros Hmode. now apply String.eqb_eq in Hmode as ->.
  - intros [= ->]. reflexivity.
Qed.

(** X26.  [main]: with fewer than three arguments nothing is started.  With
    [endpoint] as the fifth argument the endpoint is started with the
    script path and the profile, and the process exits with code 1 exactly
    when that start is rejected; nothing else is done.  Otherwise the
    client is connected, the chat loop runs exactly when the connection was
    not rejected, and [cleanup] followed by [process.exit(0)] end the run
    whether the connection or the loop failed or not.  The inference
    profile passed on is the fourth argument, or the built-in default when
    that argument is missing or empty. *)
Theorem main_always_cleans_up :
  forall (W : Type) (h : handler MainE W) (argv : list string) (w : W),
    ((length argv < 3)%nat -> trace h (entry argv) w = [])
    /\ ((3 <= length argv)%nat -> nth_error argv 4 = Some "endpoint" ->
        forall (started : result unit) (w1 : W),
          h _ (StartEndpoint (nth 2 argv EmptyString) (profileOf argv)) w
          = (started, w1) ->
          steps (trace h (entry argv) w)
          = Endpoint (nth 2 argv EmptyString) (profileOf argv)
            :: match started with
               | inl _ => [Exited 1]
               | inr _ => []
               end)
    /\ ((3 <= length argv)%nat -> nth_error argv 4 <> Some "endpoint" ->
        forall (connected : result unit) (w1 : W),
          h _ (NewClientConnect (profileOf argv) (nth 2 argv EmptyString)) w
          = (connected, w1) ->
          steps (trace h (entry argv) w)
          = (Connection (profileOf argv) (nth 2 argv EmptyString)
             :: match connected with
                | inl _ => []
                | inr _ => [Chat]
                end ++ [CleanedUp; Exited 0])%list)
    /\ (forall profile,
          nth_error argv 3 = Some profile -> profile <> EmptyString ->
          profileOf argv = profile)
    /\ (nth_error argv 3 = None \/ nth_error argv 3 = Some EmptyString ->
        profileOf argv = "us.anthropic.claude-opus-4-1-20250805-v1:0").
Proof.
  intros W h argv w. unfold trace, entry, main.
  split; [| split; [| split; [| split]]].
  - intros Hlen. apply Nat.ltb_lt in Hlen. rewrite Hlen. reflexivity.
  - intros Hlen Hmode started w1 Hh. apply Nat.ltb_ge in Hlen.
    apply endpointMode_argument in Hmode. rewrite Hlen, Hmode.
    cbn [bind run]. first [rewrite Hh | unfold result in Hh; rewrite Hh].
    destruct started as [e | []]; cbn [run].
    + match goal with
      | |- context [h ?X ?e w1] => destruct (h X e w1) as [[] ?]
      end.
      reflexivity.
    + reflexivity.
  - intros Hlen Hmode connected w1 Hh. apply Nat.ltb_ge in Hlen.
    assert (Hchat : endpointMode argv = false).
    { destruct (endpointMode argv) eqn:Hm; [| reflexivity].
      now apply endpointMode_argument in Hm. }
    rewrite Hlen, Hchat.
    cbn [bind run]. first [rewrite Hh | unfold result in Hh; rewrite Hh].
    destruct connected as [e | []]; cbn [bind run cleanupAndExit].
    + repeat match goal with
             | |- context [h ?X ?e ?w'] => destruct (h X e w') as [[] ?]
             end.
      reflexivity.
    + repeat match goal with
             | |- context [h ?X ?e ?w'] => destruct (h X e w') as [? ?]
             end.
      reflexivity.
  - intros profile Hp Hne. unfold profileOf. rewrite Hp.
    destruct (String.eqb_spec profile ""); [contradiction | reflexivity].
  - intros [Hp | Hp]; unfold profileOf; rewrite Hp; reflexivity.
Qed.

Example main_connection_fails :
  steps (trace connectionFails (entry ["node"; "index.js"; "server.js"]) tt)
  = [Connection defaultProfile "server.js"; CleanedUp; Exited 0]
  /\ steps (trace connectionFails
              (entry ["node"; "index.js"; "server.js"; ""; "endpoint"]) tt)
     = [Endpoint "server.js" defaultProfile; Exited 1].
Proof. split; reflexivity. Qed.

(** X27.  The start-up block of endpoint.js imports the client module and
    then initialises the client, each once and in that order; a step that
    is rejected is the last one, nothing tries again.  [mcpModule] is set
    when the import was not rejected and [mcpReady] when the initialisation
    was not rejected either, so [mcpReady] implies [mcpModule].  The version
    that uses [require] makes the one initialisation request and sets
    [mcpReady] when it was not rejected.  While the flag is unset the
    [/query] handler answers every request with 503 without looking at
    it. *)
Theorem endpoint_ready_only_after_init :
  forall (W : Type) (h : handler EndpointStart.StartE W) (serverScriptPath : string)
         (inferenceProfileId : value) (w : W),
    (forall (imported : result unit) (w1 : W),
        h _ EndpointStart.ImportModule w = (imported, w1) ->
        match imported with
        | inl _ =>
            run h (EndpointStart.start serverScriptPath inferenceProfileId) w
            = ({| Endpoint.mcpReady := false; Endpoint.mcpModule := false |}, w1,
               [Event EndpointStart.ImportModule imported])
        | inr _ =>
            forall (initialised : result unit) (w2 : W),
              h _ (EndpointStart.InitMCPClient serverScriptPath inferenceProfileId) w1
              = (initialised, w2) ->
              run h (EndpointStart.start serverScriptPath inferenceProfileId) w
              = ({| Endpoint.mcpReady := match initialised with
                                         | inl _ => false
                                         | inr _ => true
                                         end;
                    Endpoint.mcpModule := true |}, w2,
                 [Event EndpointStart.ImportModule imported;
                  Event (EndpointStart.InitMCPClient serverScriptPath inferenceProfileId)
                    initialised])
        end)
    /\ (forall (initialised : result unit) (w1 : W),
          h _ (EndpointStart.InitMCPClient serverScriptPath inferenceProfileId) w
          = (initialised, w1) ->
          run h (EndpointStart.startRequire serverScriptPath inferenceProfileId) w
          = (match initialised with
             | inl _ => false
             | inr _ => true
             end, w1,
             [Event (EndpointStart.InitMCPClient serverScriptPath inferenceProfileId)
                initialised]))
    /\ (let st := outcome h (EndpointStart.start serverScriptPath inferenceProfileId) w in
        (Endpoint.mcpReady st = true -> Endpoint.mcpModule st = true)
        /\ (Endpoint.mcpReady st = false ->
            forall reqBody, Endpoint.postQuery st reqBody = Ret Endpoint.notReady))
    /\ (forall reqBody, Endpoint.postQueryRequire false reqBody = Ret Endpoint.notReady).
Proof.
  intros W h serverScriptPath inferenceProfileId w.
  unfold outcome, EndpointStart.start, EndpointStart.startRequire.
  split; [| split; [| split]].
  - intros imported w1 Hh. cbn [run]. first [rewrite Hh | unfold result in Hh; rewrite Hh].
    destruct imported as [e | u]; [reflexivity |].
    intros initialised w2 Hh2. cbn [run]. first [rewrite Hh2 | unfold result in Hh2; rewrite Hh2].
    destruct initialised; reflexivity.
  - intros initialised w1 Hh. cbn [run]. first [rewrite Hh | unfold result in Hh; rewrite Hh].
    destruct initialised; reflexivity.
  - cbn [run]. answered h w; cbn [run fst snd].
    + split; [discriminate | reflexivity].
    + answered h w0; cbn [run fst snd]; split; try discriminate; reflexivity.
  - reflexivity.
Qed.

Example endpoint_start_fails :
  outcome initFails (EndpointStart.start "mcp-dynamo/dist/index.ts" VUndefined) tt
  = {| Endpoint.mcpReady := false; Endpoint.mcpModule := true |}.
Proof. reflexivity. Qed.

End Sessions.

(* ===================================================================== *)
(** * Properties: the server's expression helpers and its two reads       *)
(* ===================================================================== *)

Module Expressions.
Import Js Json Effects Vocabulary Observations Steps EffectFacts Server.

Lemma assoc_obj_set_ne (props : list (string * value)) (k k' : string) (v : value) :
  k <> k' -> assoc k (obj_set props k' v) = assoc k props.
Proof.
  intros Hne. induction props as [| [k0 v0] props IH]; cbn.
  - destruct (String.eqb_spec k k'); [contradiction | reflexivity].
  - destruct (String.eqb_spec k' k0) as [<- | Hk0]; cbn.
    + destruct (String.eqb_spec k k'); [contradiction | reflexivity].
    + destruct (k =? k0)%string; [reflexivity | exact IH].
Qed.

Lemma assoc_keys (props : list (string * value)) (k : string) :
  assoc k props
  = if existsb (String.eqb k) (map fst props)
    then Some (default VUndefined (assoc k props))
    else None.
Proof.
  induction props as [| [k0 v0] props IH]; cbn; [reflexivity |].
  destruct (k =? k0)%string; [reflexivity | exact IH].
Qed.

Lemma insert_index_In (i i0 : N) (k k0 : string) (sorted : list (N * string)) :
  In (i, k) (insert_index i0 k0 sorted) <-> (i, k) = (i0, k0) \/ In (i, k) sorted.
Proof.
  induction sorted as [| [j k'] sorted IH]; cbn [insert_index].
  - cbn. intuition congruence.
  - destruct (i0 <? j)%N; cbn [In]; [intuition congruence |].
    rewrite IH. intuition congruence.
Qed.

Lemma sorted_indices_In (keys : list string) (i : N) (k : string) :
  In (i, k)
    (List.fold_right (fun k sorted =>
                        match array_index k with
                        | Some i => insert_index i k sorted
                        | None => sorted
                        end) [] keys)
  <-> In k keys /\ array_index k = Some i.
Proof.
  induction keys as [| k0 keys IH]; cbn [List.fold_right In]; [tauto |].
  destruct (array_index k0) as [i0 |] eqn:Hk0.
  - rewrite insert_index_In, IH. split.
    + intros [[= -> ->] | [Hin Hi]]; [now split; [left |] | now split; [right |]].
    + intros [[-> | Hin] Hi]; [left; congruence | right; now split].
  - rewrite IH. split.
    + intros [Hin Hi]. now split; [right |].
    + intros [[-> | Hin] Hi]; [congruence | now split].
Qed.

(** The enumeration lists the keys of the property list, each of them. *)
Lemma own_keys_In (props : list (string * value)) (k : string) :
  In k (own_keys props) <-> In k (map fst props).
Proof.
  unfold own_keys. rewrite in_app_iff, List.filter_In, in_map_iff. split.
  - intros [[[i k'] [Hk Hin]] | [Hin _]]; [| exact Hin].
    cbn in Hk. subst k'. now apply sorted_indices_In in Hin as [Hin _].
  - intros Hin. destruct (array_index k) as [i |] eqn:Hi.
    + left. exists (i, k). split; [reflexivity |]. now apply sorted_indices_In.
    + right. now split.
Qed.

Lemma own_keys_existsb (props : list (string * value)) (k : string) :
  existsb (String.eqb k) (own_keys props) = existsb (String.eqb k) (map fst props).
Proof.
  apply eq_true_iff_eq. rewrite !existsb_exists. split.
  - intros (x & Hin & Hx). exists x. split; [now apply own_keys_In | exact Hx].
  - intros (x & Hin & Hx). exists x. split; [now apply own_keys_In | exact Hx].
Qed.

Example own_keys_order :
  own_keys [("b", VNull); ("10", VNull); ("9", VNull); ("01", VNull);
            ("4294967295", VNull); ("a", VNull); ("0", VNull)]
  = ["0"; "9"; "10"; "b"; "01"; "4294967295"; "a"].
Proof. reflexivity. Qed.

Lemma assoc_assign (props : list (string * value)) (k k' : string) (v : value) :
  assoc k (assign props k' v)
  = if (k =? k')%string && negb (k' =? "__proto__")%string then Some v
    else assoc k props.
Proof.
  unfold assign. destruct (k' =? "__proto__")%string; cbn [negb].
  - now rewrite andb_false_r.
  - rewrite andb_true_r. destruct (String.eqb_spec k k') as [-> | Hne].
    + apply Fallback.assoc_obj_set.
    + now apply assoc_obj_set_ne.
Qed.

Section Tools.
Context {B : Builtins} {U : DynamoUtil}.

(** ** [cleanExpressionAttributeNames] *)

Lemma clean_fold (props : list (string * value)) (combined : string)
  (keys : list string) :
  ~ In "#" keys ->
  forall acc,
  exists cleaned,
    rfold (fun acc key =>
             if (key =? "#")%string then throw invalidNamesKey
             else if includes combined key then
               let? v := getProp (VObj props) key in ok (assign acc key v)
             else ok acc) keys acc = ok cleaned
    /\ forall k,
         assoc k cleaned
         = if includes combined k && existsb (String.eqb k) keys
              && negb (k =? "__proto__")%string
           then Some (default VUndefined (assoc k props))
           else assoc k acc.
Proof.
  match goal with |- context [rfold ?g _ _] => set (f := g) end.
  induction keys as [| key keys IH]; intros Hno acc.
  - exists acc. split; [reflexivity |]. intros k. now rewrite andb_false_r.
  - assert (Hkey : key <> "#") by (intros ->; apply Hno; now left).
    assert (Hrest : ~ In "#" keys) by (intros Hin; apply Hno; now right).
    cbn [rfold]. unfold f at 1.
    destruct (String.eqb_spec key "#") as [| _]; [contradiction |].
    cbn [getProp ok rbind].
    destruct (includes combined key) eqn:Hinc; cbn [ok rbind].
    + destruct (IH Hrest (assign acc key (default VUndefined (assoc key props))))
        as (cleaned & -> & Hc).
      exists cleaned. split; [reflexivity |]. intros k. rewrite Hc, assoc_assign.
      cbn [existsb].
      destruct (String.eqb_spec k key) as [-> | Hne].
      * rewrite Hinc. cbn [andb orb].
        destruct (existsb (String.eqb key) keys), (key =? "__proto__")%string;
          reflexivity.
      * cbn [orb andb]. reflexivity.
    + destruct (IH Hrest acc) as (cleaned & -> & Hc).
      exists cleaned. split; [reflexivity |]. intros k. rewrite Hc. cbn [existsb].
      destruct (String.eqb_spec k key) as [-> | Hne]; [| reflexivity].
      rewrite Hinc. reflexivity.
Qed.

Lemma clean_fold_hash (props : list (string * value)) (combined : string)
  (keys : list string) :
  In "#" keys ->
  forall acc,
    rfold (fun acc key =>
             if (key =? "#")%string then throw invalidNamesKey
             else if includes combined key then
               let? v := getProp (VObj props) key in ok (assign acc key v)
             else ok acc) keys acc = throw invalidNamesKey.
Proof.
  match goal with |- context [rfold ?g _ _] => set (f := g) end.
  induction keys as [| key keys IH]; intros Hin acc; [contradiction |].
  cbn [rfold]. unfold f at 1.
  destruct (String.eqb_spec key "#") as [-> | Hne]; [reflexivity |].
  destruct Hin as [-> | Hin]; [contradiction |].
  cbn [getProp ok].
  destruct (includes combined key); cbn [ok rbind]; now apply IH.
Qed.

(** ** [normalizeAttributeValues] *)



End Tools.

(** X16.  [cleanExpressionAttributeNames] on an object of names: when one of
    the keys is "#" it throws, whatever the expressions; otherwise it keeps
    the names whose key occurs in the text of the expressions, each with its
    value, and no other, and returns [undefined] in place of an object that
    would be empty.  One key is never kept, in use or not: [__proto__],
    under which an assignment adds no property. *)
Theorem clean_keeps_the_names_in_use :
  forall (props : list (string * value)) (expressions : list value),
    (In "#" (map fst props) ->
     cleanExpressionAttributeNames (VObj props) expressions = throw invalidNamesKey)
    /\ (~ In "#" (map fst props) ->
        exists cleaned,
          cleanExpressionAttributeNames (VObj props) expressions
          = ok (if is_nil cleaned then VUndefined else VObj cleaned)
          /\ forall k,
               assoc k cleaned
               = if includes (combinedExpression expressions) k
                    && negb (k =? "__proto__")%string
                 then assoc k props
                 else None).
Proof.
  intros props expressions.
  unfold cleanExpressionAttributeNames, combinedExpression.
  cbn [truthy negb Object_keys ok rbind]. split.
  - intros Hin. apply own_keys_In in Hin.
    now rewrite (clean_fold_hash props _ _ Hin []).
  - intros Hno.
    assert (Hno' : ~ In "#" (own_keys props))
      by (intros Hin; now apply own_keys_In in Hin).
    destruct (clean_fold props
                (String.concat " "
                   (omap (fun e => match e with VStr s => Some s | _ => None end)
                      expressions))
                (own_keys props) Hno' []) as (cleaned & -> & Hc).
    exists cleaned. split; [reflexivity |]. intros k. rewrite Hc, own_keys_existsb.
    rewrite (assoc_keys props k) at 2.
    destruct (includes _ k); [| reflexivity].
    destruct (existsb (String.eqb k) (map fst props)), (k =? "__proto__")%string;
      reflexivity.
Qed.

Example clean_drops_unused_name :
  cleanExpressionAttributeNames (VObj [("#age", VStr "Age"); ("#name", VStr "Name")])
    [VStr "#age > :a"]
  = ok (VObj [("#age", VStr "Age")])
  /\ cleanExpressionAttributeNames (VObj [("#name", VStr "Name")]) [VStr "#age > :a"]
     = ok VUndefined
  /\ cleanExpressionAttributeNames (VObj [("#age", VStr "Age"); ("#", VStr "Name")])
       [VStr "#age > :a"]
     = throw invalidNamesKey
  /\ cleanExpressionAttributeNames (VObj [("__proto__", VStr "Age")])
       [VStr "__proto__ > :a"]
     = ok VUndefined.
Proof. repeat split. Qed.


(** A descriptor whose [N] is the empty text and whose [S] is not: the
    [S] makes it a descriptor and the [N] is what is stored, as a number. *)
Example normalize_prefers_a_present_N :
  @normalizeAttributeValues sampleBuiltins
    (VObj [(":a", VObj [("N", VStr ""); ("S", VStr "x")]);
           (":b", VObj [("B", VStr "AQI=")]);
           (":c", VObj [("N", VStr "")]);
           ("__proto__", VObj [("S", VStr "x")])])
  = ok (VObj [(":a", @Number_ sampleBuiltins (VStr ""));
              (":b", VStr "AQI=");
              (":c", VObj [("N", VStr "")])]).
Proof. reflexivity. Qed.

(** X18.  Given a string, [normalizeAttributeValues] reads it as JSON: a
    text that is not JSON gives [undefined], not an error; a text that
    denotes an object or an array is treated as that value; and the text
    [null], whose value has no keys to enumerate, makes it throw a
    [TypeError]. *)
Theorem normalize_reads_json_text :
  forall (B : Builtins) (text : string),
    (JSON_parse text = None -> normalizeAttributeValues (VStr text) = ok VUndefined)
    /\ (forall props,
          JSON_parse text = Some (VObj props) ->
          normalizeAttributeValues (VStr text) = normalizeAttributeValues (VObj props))
    /\ (forall elems,
          JSON_parse text = Some (VArr elems) ->
          normalizeAttributeValues (VStr text) = normalizeAttributeValues (VArr elems))
    /\ (JSON_parse text = Some VNull ->
        exists e,
          normalizeAttributeValues (VStr text) = throw e
          /\ error_name e = "TypeError").
Proof.
  intros B text. destruct text as [| a text].
  - repeat split; try reflexivity; intros; discriminate.
  - unfold normalizeAttributeValues. cbn [truthy String.eqb negb].
    repeat split.
    + now intros ->.
    + now intros props ->.
    + now intros elems ->.
    + intros ->. cbn. eauto.
Qed.

Example normalize_json_text :
  @normalizeAttributeValues sampleBuiltins
    (VStr ("{" +:+ dquote +:+ ":a" +:+ dquote +:+ ":{" +:+ dquote +:+ "S" +:+ dquote
           +:+ ":" +:+ dquote +:+ "x" +:+ dquote +:+ "}}"))
  = ok (VObj [(":a", VStr "x")])
  /\ @normalizeAttributeValues sampleBuiltins (VStr "{oops") = ok VUndefined.
Proof. split; vm_compute; reflexivity. Qed.

Section Reads.
Context {B : Builtins} {U : DynamoUtil}.

Lemma scanFailure_answers (error : Error) : answersWithFlag (scanFailure error).
Proof. eexists. split; [reflexivity |]. right. split; reflexivity. Qed.

Lemma scanTable_answers {W} (h : handler DynamoE W) (params : value) (w : W) :
  answersWithFlag (fst (fst (run h (scanTable params) w)))
  /\ (length (snd (run h (scanTable params) w)) <= 1)%nat.
Proof.
  unfold scanTable, tryScan. rewrite run_bind.
  destruct (scanCommandInput params) as [e | input].
  - cbn. split; [apply scanFailure_answers | lia].
  - cbn [run]. answered h w.
    + cbn. split; [apply scanFailure_answers | lia].
    + cbn [run fst snd app length].
      destruct (successResult "Scan" params v) as [e | answer] eqn:Hs.
      * cbn. split; [apply scanFailure_answers | lia].
      * cbn. split; [| lia].
        destruct (Fallback.successResult_object _ _ _ _ Hs) as (props & -> & Hflag).
        exists props. split; [reflexivity | now left].
Qed.

Lemma markConverted_answers (scanResult : value) :
  answersWithFlag scanResult -> answersWithFlag (markConverted scanResult).
Proof.
  intros (props & -> & Hflag). unfold markConverted, setProp.
  eexists. split; [reflexivity |].
  rewrite !assoc_obj_set_ne by discriminate. exact Hflag.
Qed.

Lemma queryTable_answers {W} (h : handler DynamoE W) (params : value) (w : W) :
  answersWithFlag (fst (fst (run h (queryTable params) w)))
  /\ (length (snd (run h (queryTable params) w)) <= 2)%nat.
Proof.
  assert (Hfailed : forall error w1 (t : list (event DynamoE)),
             (length t <= 1)%nat ->
             answersWithFlag
               (fst (fst (let '(b, w2, t2) :=
                            run h (if needsScanFallback error
                                   then match fallbackScanParams params with
                                        | inl scanError => Ret (bothFailed scanError)
                                        | inr scanParams =>
                                            bind (scanTable scanParams)
                                              (fun scanResult =>
                                                 Ret (markConverted scanResult))
                                        end
                                   else Ret (queryFailure error)) w1 in
                          (b, w2, (t ++ t2)%list))))
             /\ (length (snd (let '(b, w2, t2) :=
                                run h (if needsScanFallback error
                                       then match fallbackScanParams params with
                                            | inl scanError => Ret (bothFailed scanError)
                                            | inr scanParams =>
                                                bind (scanTable scanParams)
                                                  (fun scanResult =>
                                                     Ret (markConverted scanResult))
                                            end
                                       else Ret (queryFailure error)) w1 in
                              (b, w2, (t ++ t2)%list))) <= 2)%nat).
  { intros error w1 t Ht. destruct (needsScanFallback error).
    - destruct (fallbackScanParams params) as [scanError | scanParams].
      + cbn [run fst snd]. rewrite app_nil_r. split; [| lia].
        eexists. split; [reflexivity |]. right. split; reflexivity.
      + rewrite run_bind.
        destruct (scanTable_answers h scanParams w1) as [Hanswer Hlen].
        destruct (run h (scanTable scanParams) w1) as [[scanResult w2] t2].
        cbn [run fst snd] in *. rewrite app_nil_r, length_app.
        split; [now apply markConverted_answers | lia].
    - cbn [run fst snd]. rewrite app_nil_r. split; [| lia].
      eexists. split; [reflexivity |]. right. split; reflexivity. }
  unfold queryTable, tryQuery. rewrite run_bind.
  destruct (queryCommandInput params) as [e | input].
  - cbn [run]. apply (Hfailed e w []). cbn. lia.
  - cbn [run]. answered h w.
    + cbn [run]. apply (Hfailed e w0 [_]). cbn. lia.
    + cbn [run]. destruct (successResult "Query" params v) as [e | answer] eqn:Hs.
      * apply (Hfailed e w0 [_]). cbn. lia.
      * cbn. split; [| lia].
        destruct (Fallback.successResult_object _ _ _ _ Hs) as (props & -> & Hflag).
        exists props. split; [reflexivity | now left].
Qed.

End Reads.

(** X19.  [scanTable] and [queryTable] answer every call, whatever the
    parameters and whatever the backend does: with an object whose
    [success] is [true], or with one whose [success] is [false] and whose
    [items] is the empty array.  [scanTable] sends at most one command and
    [queryTable] at most two. *)
Theorem reads_always_answer :
  forall (B : Builtins) (U : DynamoUtil) (W : Type) (h : handler DynamoE W)
         (params : value) (w : W),
    (answersWithFlag (outcome h (scanTable params) w)
     /\ (length (trace h (scanTable params) w) <= 1)%nat)
    /\ (answersWithFlag (outcome h (queryTable params) w)
        /\ (length (trace h (queryTable params) w) <= 2)%nat).
Proof.
  intros B U W h params w. split.
  - apply scanTable_answers.
  - apply queryTable_answers.
Qed.

End Expressions.

(* ===================================================================== *)
(** * Properties: the server's dispatcher and its other operations        *)
(* ===================================================================== *)

Module Dispatcher.
Import Js Json Effects Client Vocabulary Observations Steps EffectFacts.
Import Server ServerTools.

Section Operations.
Context {B : Builtins} {U : DynamoUtil} {M : MoreBuiltins}.

Lemma operation_listed (name : string) :
  In name ALL_TOOLS <-> exists op, operation name = Some op.
Proof.
  split.
  - unfold ALL_TOOLS. cbn [In]. intros Hin.
    repeat (destruct Hin as [<- | Hin]; [eexists; reflexivity |]). contradiction.
  - intros [op Hop]. unfold operation in Hop. unfold ALL_TOOLS.
    repeat match type of Hop with
           | (if (name =? ?n)%string then _ else _) = _ =>
               destruct (String.eqb_spec name n) as [-> | _]; [cbn; tauto |]
           end.
    discriminate Hop.
Qed.

(** ** Every operation answers with a flag *)

Lemma lift_run {W A} (h : handler DynamoE W) (p : Prog Server.DynamoE A) :
  forall w,
    fst (run h (lift p) w) = fst (run (lower h) p w)
    /\ length (snd (run h (lift p) w)) = length (snd (run (lower h) p w)).
Proof.
  induction p as [a | X e k IH]; intros w; [split; reflexivity |].
  destruct e as [command]. cbn [lift run lower].
  destruct (h _ (Send (ReadCommand command)) w) as [x w1].
  specialize (IH x w1).
  destruct (run h (lift (k x)) w1) as [[a w2] t].
  destruct (run (lower h) (k x) w1) as [[a' w2'] t'].
  cbn [fst snd length] in *. destruct IH as [[= -> ->] ->]. split; reflexivity.
Qed.

Lemma failed_flagged (what : string) (error : Error) : flagged (failed what error).
Proof. eexists _, _. split; reflexivity. Qed.

Lemma failedTyped_flagged (what : string) (error : Error) :
  flagged (failedTyped what error).
Proof. eexists _, _. split; reflexivity. Qed.

Lemma caught_flagged {W} (h : handler DynamoE W) (attempt : Prog DynamoE (result value))
  (failure : Error -> value) (w : W) :
  (forall e, flagged (failure e)) ->
  (forall v, fst (fst (run h attempt w)) = ok v -> flagged v) ->
  flagged (fst (fst (run h (caught attempt failure) w))).
Proof.
  intros Hf Ha. unfold caught. rewrite run_bind.
  destruct (run h attempt w) as [[[e | v] w1] t]; cbn [run fst snd] in *.
  - apply Hf.
  - now apply Ha.
Qed.

Lemma sendThen_flagged {W} (h : handler DynamoE W) (prepared : result Command)
  (answer : value -> result value) (w : W) :
  (forall response v, answer response = ok v -> flagged v) ->
  forall v, fst (fst (run h (sendThen prepared answer) w)) = ok v -> flagged v.
Proof.
  intros Ha v. unfold sendThen. destruct prepared as [e | command]; [discriminate |].
  cbn [run]. answered h w; cbn [run fst]; [discriminate |]. apply Ha.
Qed.

Lemma withFixed_flagged {W} (h : handler DynamoE W) (params : value) (field : string)
  (k : value -> value -> Prog DynamoE (result value)) (w : W) :
  (forall tableName fixed w1 v,
      fst (fst (run h (k tableName fixed) w1)) = ok v -> flagged v) ->
  forall v, fst (fst (run h (withFixed params field k) w)) = ok v -> flagged v.
Proof.
  intros Hk v. unfold withFixed.
  destruct (getProp params "tableName") as [e | tableName]; [discriminate |].
  rewrite run_bind.
  destruct (run h (getTableSchema tableName) w) as [[tableSchema w1] t].
  destruct (let? item := getProp params field in fixItemKeyTypes item tableSchema)
    as [e | fixed]; [discriminate |].
  specialize (Hk tableName fixed w1 v).
  destruct (run h (k tableName fixed) w1) as [[r w2] t2]. exact Hk.
Qed.

Lemma operation_flagged {W} (h : handler DynamoE W) (name : string)
  (op : value -> Prog DynamoE value) (args : value) (w : W) :
  operation name = Some op ->
  flagged (fst (fst (run h (op args) w))).
Proof.
  unfold operation. intros Hop.
  repeat match type of Hop with
         | (if ?b then _ else _) = _ =>
             destruct b; [injection Hop as <- |]
         end; [.. | discriminate Hop].
  - unfold listTables. apply caught_flagged; [apply failed_flagged |].
    apply sendThen_flagged. intros response v Hv. built Hv.
  - unfold describeTable. apply caught_flagged; [apply failed_flagged |].
    apply sendThen_flagged. intros response v Hv. built Hv.
  - unfold createTable. apply caught_flagged; [apply failed_flagged |].
    destruct (getProp args "tableName") as [e | tableName]; [discriminate |].
    destruct (badTableName tableName).
    + cbn. intros v [= <-]. eexists _, _. split; reflexivity.
    + apply sendThen_flagged. intros response v Hv. built Hv.
  - unfold updateCapacity. apply caught_flagged; [apply failed_flagged |].
    apply sendThen_flagged. intros response v Hv. built Hv.
  - unfold putItem. apply caught_flagged; [apply failedTyped_flagged |].
    apply withFixed_flagged. intros tableName fixed w1.
    apply sendThen_flagged. intros response v Hv. built Hv.
  - unfold getItem. apply caught_flagged; [apply failed_flagged |].
    apply withFixed_flagged. intros tableName fixed w1.
    apply sendThen_flagged. intros response v Hv. built Hv.
  - unfold updateItem. apply caught_flagged; [apply failedTyped_flagged |].
    apply withFixed_flagged. intros tableName fixed w1.
    apply sendThen_flagged. intros response v Hv. unfold attributesResult in Hv.
    built Hv.
  - unfold deleteItem. apply caught_flagged; [apply failedTyped_flagged |].
    apply withFixed_flagged. intros tableName fixed w1.
    apply sendThen_flagged. intros response v Hv. unfold attributesResult in Hv.
    built Hv.
  - destruct (lift_run h (queryTable args) w) as [-> _].
    destruct (Expressions.queryTable_answers (lower h) args w)
      as [(props & -> & [Hs | [Hs _]]) _]; eexists _, _; split; try reflexivity;
      exact Hs.
  - destruct (lift_run h (scanTable args) w) as [-> _].
    destruct (Expressions.scanTable_answers (lower h) args w)
      as [(props & -> & [Hs | [Hs _]]) _]; eexists _, _; split; try reflexivity;
      exact Hs.
  - unfold createGSI. apply caught_flagged; [apply failed_flagged |].
    apply sendThen_flagged. intros response v Hv. built Hv.
  - unfold updateGSI. apply caught_flagged; [apply failed_flagged |].
    apply sendThen_flagged. intros response v Hv. built Hv.
  - unfold createLSI. apply caught_flagged; [apply failed_flagged |].
    apply sendThen_flagged. intros response v Hv. built Hv.
Qed.

End Operations.

(** X20.  The handler of a tool call dispatches each of the thirteen names
    of [ALL_TOOLS] to the operation of that name, and no other name.  Its
    answer to such a call is built from the answer of that operation, which
    is an object with a boolean [success]: one text block that holds the
    serialised object, and [isError] the negation of the flag; it sends the
    backend what the operation sends and nothing more.  For any other name
    the answer is the serialised unknown-tool object with [isError] set, and
    the backend is not called. *)
Theorem tool_call_answers_with_flag :
  forall (B : Builtins) (U : DynamoUtil) (M : MoreBuiltins) (W : Type)
         (h : handler DynamoE W) (name : string) (args : value) (w : W),
    (forall op,
        operation name = Some op ->
        exists props success,
          outcome h (op args) w = VObj props
          /\ assoc "success" props = Some (VBool success)
          /\ run h (callTool name args) w
             = (textResponse (JSON_stringify (VObj props)) (negb success),
                snd (fst (run h (op args) w)),
                trace h (op args) w))
    /\ (~ In name ALL_TOOLS ->
        run h (callTool name args) w
        = (textResponse
             (JSON_stringify
                (VObj [("success", VBool false);
                       ("message", VStr ("Unknown tool: " +:+ name));
                       ("availableTools", VArr (map VStr ALL_TOOLS))]))
             true,
           w, []))
    /\ (In name ALL_TOOLS <-> exists op, operation name = Some op)
    /\ (operation "dynamodb:list_tables" = Some listTables
        /\ operation "dynamodb:describe_table" = Some describeTable
        /\ operation "dynamodb:create_table" = Some createTable
        /\ operation "dynamodb:update_capacity" = Some updateCapacity
        /\ operation "dynamodb:put_item" = Some putItem
        /\ operation "dynamodb:get_item" = Some getItem
        /\ operation "dynamodb:update_item" = Some updateItem
        /\ operation "dynamodb:delete_item" = Some deleteItem
        /\ operation "dynamodb:query_table" = Some (fun args => lift (queryTable args))
        /\ operation "dynamodb:scan_table" = Some (fun args => lift (scanTable args))
        /\ operation "dynamodb:create_gsi" = Some createGSI
        /\ operation "dynamodb:update_gsi" = Some updateGSI
        /\ operation "dynamodb:create_lsi" = Some createLSI).
Proof.
  intros B U M W h name args w. split; [| split; [| split]].
  - intros op Hop. unfold outcome, trace, callTool. rewrite Hop, run_bind.
    destruct (operation_flagged h name op args w Hop) as (props & success & Hr & Hs).
    destruct (run h (op args) w) as [[result w1] t]. cbn [fst snd run] in *. subst result.
    exists props, success. split; [reflexivity |]. split; [exact Hs |].
    unfold getPropOpt. cbn [getProp ok]. rewrite Hs, app_nil_r. reflexivity.
  - intros Hno. unfold callTool.
    destruct (operation name) as [op |] eqn:Hop; [| reflexivity].
    contradiction Hno. apply operation_listed. eauto.
  - apply operation_listed.
  - repeat split.
Qed.

Example unknown_tool_example :
  outcome backendScripted
    (@callTool sampleBuiltins sampleUtil sampleMoreBuiltins "dynamodb_list_tables" (VObj []))
    []
  = textResponse (sampleStringify (unknownTool "dynamodb_list_tables")) true.
Proof. reflexivity. Qed.

(** X21.  The client does not read [isError].  What it decodes from the
    content of the handler's answer is what the serialised answer of the
    dispatched operation parses to ([null] where it does not parse), for an
    answer that reports a failure as for one that reports success; for a
    name the handler does not know it is what the serialised unknown-tool
    object parses to; and the same answer with the other [isError] decodes
    to the same value. *)
Theorem server_answer_decoded_as_result :
  forall (B : Builtins) (U : DynamoUtil) (M : MoreBuiltins) (W : Type)
         (h : handler DynamoE W) (name : string) (args : value) (w : W),
    let response := outcome h (callTool name args) w in
    (forall op,
        operation name = Some op ->
        parseToolResult (getPropOpt response "content")
        = default VNull (JSON_parse (JSON_stringify (outcome h (op args) w))))
    /\ (operation name = None ->
        parseToolResult (getPropOpt response "content")
        = default VNull (JSON_parse (JSON_stringify (unknownTool name))))
    /\ (forall isError : bool,
          parseToolResult
            (getPropOpt (setProp response "isError" (VBool isError)) "content")
          = parseToolResult (getPropOpt response "content")).
Proof.
  intros B U M W h name args w response. subst response.
  unfold outcome, callTool.
  destruct (operation name) as [op |] eqn:Hop.
  - rewrite run_bind.
    destruct (run h (op args) w) as [[result w1] t] eqn:Hrun. cbn [fst snd run].
    split; [| split].
    + intros op' [= <-]. rewrite Hrun. reflexivity.
    + discriminate.
    + intros isError. reflexivity.
  - cbn [run fst snd]. split; [| split].
    + discriminate.
    + reflexivity.
    + intros isError. reflexivity.
Qed.

Example unknown_tool_decoded :
  parseToolResult
    (getPropOpt
       (outcome backendScripted
          (@callTool sampleBuiltins sampleUtil sampleMoreBuiltins "dynamodb_list_tables"
             (VObj [])) [])
       "content")
  = unknownTool "dynamodb_list_tables".
Proof. vm_compute. reflexivity. Qed.

Lemma fold_register_names (ts1 : list Tool) :
  forall (ts2 : list Tool) (m : gmap string string),
    map name ts1 = map name ts2 ->
    fold_left (fun m tool => register m (sanitizeToolName (name tool)) (name tool)) ts1 m
    = fold_left (fun m tool => register m (sanitizeToolName (name tool)) (name tool)) ts2 m.
Proof.
  induction ts1 as [| t1 ts1 IH]; intros [| t2 ts2] m Hnames; try discriminate;
    [reflexivity |].
  cbn in *. injection Hnames as -> Hrest. now apply IH.
Qed.

(** X22.  Naming, end to end, on the server's own catalog: for a client
    connected to the server, a tool use that names any of the thirteen
    tools by its sanitized name is planned as a call of the tool's own name
    with the arguments unchanged, and the server has an operation for that
    name. *)
Theorem server_tools_reach_their_operation :
  forall (B : Builtins) (U : DynamoUtil) (M : MoreBuiltins) (c : EnhancedMCPClient)
         (toolName id : string) (input : value),
    connectedToServer c ->
    In toolName ALL_TOOLS ->
    plannedCall (sanitizedToOriginalToolName c)
      (ToolUse id (sanitizeToolName toolName) input)
    = Some (Named toolName, input)
    /\ exists op, operation toolName = Some op.
Proof.
  intros B U M c toolName id input [Hnames Hmap] Hin.
  split; [| now apply operation_listed].
  cbn [plannedCall].
  rewrite OfferedNames.safe_name_not_rewritten by apply NameTranslator.sanitize_is_safe.
  assert (Hbuilt : sanitizedToOriginalToolName c = buildNameMapping serverCatalog).
  { rewrite Hmap. unfold buildNameMapping. apply fold_register_names.
    rewrite Hnames. reflexivity. }
  rewrite Hbuilt. clear - Hin. unfold ALL_TOOLS in Hin. cbn [In] in Hin.
  repeat (destruct Hin as [<- | Hin]; [vm_compute; reflexivity |]). contradiction.
Qed.

Lemma server_tools_reach_their_operation_witness :
  plannedCall (sanitizedToOriginalToolName serverClient)
    (ToolUse "tu_1" "dynamodb_query_table" (VObj ageQuery))
  = Some (Named "dynamodb:query_table", VObj ageQuery).
Proof.
  refine (proj1 (server_tools_reach_their_operation sampleBuiltins sampleUtil
                   sampleMoreBuiltins serverClient "dynamodb:query_table" "tu_1"
                   (VObj ageQuery) _ _)).
  - split; reflexivity.
  - do 8 right. left. reflexivity.
Defined.

End Dispatcher.

(* ===================================================================== *)
(** * Properties: creating a table, and the key attributes of an item     *)
(* ===================================================================== *)

Module TablesAndItems.
Import Js Json Effects Vocabulary Observations Steps EffectFacts.
Import Server ServerTools.

Section Operations.
Context {B : Builtins} {U : DynamoUtil} {M : MoreBuiltins}.


(** ** [fixItemKeyTypes] *)






End Operations.


Example create_table_name_lengths :
  run backendScripted
    (@createTable sampleBuiltins sampleMoreBuiltins
       (VObj [("tableName", VStr "ab"); ("partitionKey", VStr "Name")]))
    [ok (VObj [])]
  = (tableNameRejected, [ok (VObj [])], [])
  /\ commands
       (trace backendScripted
          (@createTable sampleBuiltins sampleMoreBuiltins
             (VObj [("tableName", VStr "Users"); ("partitionKey", VStr "Name");
                    ("partitionKeyType", VStr "S")]))
          [ok (VObj [])])
     = [CreateTableCommand
          (VObj [("TableName", VStr "Users");
                 ("AttributeDefinitions",
                  VArr [VObj [("AttributeName", VStr "Name"); ("AttributeType", VStr "S")]]);
                 ("KeySchema",
                  VArr [VObj [("AttributeName", VStr "Name"); ("KeyType", VStr "HASH")]]);
                 ("ProvisionedThroughput",
                  VObj [("ReadCapacityUnits", VUndefined);
                        ("WriteCapacityUnits", VUndefined)])])].
Proof. split; reflexivity. Qed.


Example fix_users_item :
  @fixItemKeyTypes sampleBuiltins sampleMoreBuiltins
    (VObj [("Name", VNum (Decimal false 42 0)); ("City", VNum (Decimal false 7 0))])
    usersSchema
  = ok (VObj [("Name", VStr "42"); ("City", VNum (Decimal false 7 0))])
  /\ @fixItemKeyTypes sampleBuiltins sampleMoreBuiltins
       (VObj [("Name", VNum (Decimal false 42 0))]) VNull
     = ok (VObj [("Name", VNum (Decimal false 42 0))]).
Proof. split; vm_compute; reflexivity. Qed.



End TablesAndItems.
